(** * Response normalisation layer of the Alpha Vantage Go wrapper

    A shallow embedding of the decoders of package [models]
    (time series, quote, technical indicators, crypto series) together with
    the parts of the Go runtime and standard library they call:
    [strconv.ParseFloat], [strconv.ParseInt], [time.Parse], the decoding
    half of [encoding/json], [sort.SliceStable] and [sort.Slice].

    Conventions of the embedding.
    - A call that can return an error or panic lives in the [result] monad:
      [Ok v] (the Go function returned a nil error), [Err e] (it returned
      the error [e]) or [Panic p] (a run-time panic unwound the call).
    - A decoder that writes through its pointer receiver takes the receiver
      as it was before the call and returns the receiver as it is after the
      call.  On an error return every caller in package [client] discards
      the receiver, so [Err] carries the error only.
    - The payload is the JSON document as a syntax tree ([JSON]); a byte
      buffer that is not a syntactically valid document is [Invalid].
    - An object decoded into a Go map is a key-unique association list; the
      order in which [range] visits it is chosen by the runtime and enters
      the model through the class [Runtime], as does [sort.Slice], whose
      result is fixed by its contract only. *)

From Stdlib Require Import ZArith QArith Lia Bool Ascii String List.
From stdpp Require Import base option list gmap strings sorting.

Set Warnings "-register-all,-clear-no-such-hyp".

Local Open Scope string_scope.
Local Open Scope Z_scope.

(** ** Errors, panics and the result monad *)

(** [strconv.ErrSyntax] and [strconv.ErrRange]. *)
Inductive numErr := ErrSyntax | ErrRange.

(** The error values that flow through the decoders.
    - [NumError fn num e] is [&strconv.NumError{Func: fn, Num: num, Err: e}];
    - [ParseError layout value] is a [*time.ParseError];
    - [UnmarshalError] stands for any error returned by [json.Unmarshal]
      (syntax error, [UnmarshalTypeError], misuse of the [,string] option);
    - [ErrorNew msg] is [fmt.Errorf(msg)] for a message without verbs;
    - [Errorf prefix cause] is [fmt.Errorf(prefix + "%v", cause)]. *)
Inductive error :=
| NumError (fn num : string) (e : numErr)
| ParseError (layout value : string)
| UnmarshalError
| ErrorNew (msg : string)
| Errorf (prefix : string) (cause : error).

(** The run-time panics the decoders can raise: a failed unchecked type
    assertion [x.(T)], with the dynamic type found and the type asked for,
    and the dereference of a nil pointer. *)
Inductive panic :=
| TypeAssertion (dynamic want : string)
| NilDereference.

Inductive result (A : Type) :=
| Ok (a : A)
| Err (e : error)
| Panic (p : panic).
Arguments Ok {A} a.
Arguments Err {A} e.
Arguments Panic {A} p.

Definition bind {A B} (r : result A) (k : A -> result B) : result B :=
  match r with
  | Ok a => k a
  | Err e => Err e
  | Panic p => Panic p
  end.

Declare Scope go_scope.
Delimit Scope go_scope with go.
Notation "x <- r ;; k" := (bind r (fun x => k))
  (at level 100, r at next level, right associativity) : go_scope.
Local Open Scope go_scope.

(** [for k, v := range m { body }] where the body may return early: the
    loop state is threaded through the entries in the order given. *)
Fixpoint forRange {K V S} (body : K -> V -> S -> result S)
    (m : list (K * V)) (s : S) : result S :=
  match m with
  | [] => Ok s
  | (k, v) :: m' => s' <- body k v s ;; forRange body m' s'
  end.

Definition isOk {A} (r : result A) : bool :=
  match r with Ok _ => true | _ => false end.
Definition isErr {A} (r : result A) : bool :=
  match r with Err _ => true | _ => false end.
Definition isPanic {A} (r : result A) : bool :=
  match r with Panic _ => true | _ => false end.

(** ** Go maps with string keys *)

(** A [map[string]V] is a key-unique association list.  [mapget] is the
    one-result index expression [m[k]] before the zero value is substituted
    for a missing key; [mapset] is the assignment [m[k] = v]. *)
Fixpoint mapget {V} (m : list (string * V)) (k : string) : option V :=
  match m with
  | [] => None
  | (k', v) :: m' => if String.eqb k' k then Some v else mapget m' k
  end.

Fixpoint mapset {V} (m : list (string * V)) (k : string) (v : V)
    : list (string * V) :=
  match m with
  | [] => [(k, v)]
  | (k', v') :: m' =>
      if String.eqb k' k then (k, v) :: m' else (k', v') :: mapset m' k v
  end.

Definition keys {V} (m : list (string * V)) : list string := map fst m.

(** ** float64 *)

(** A [float64] is kept as the exact rational it denotes (in lowest terms),
    or one of the special values.  Rounding to binary64 is not modelled. *)
Inductive float64 :=
| Finite (q : Q)
| Inf (negative : bool)
| NaN.

Definition float64_zero : float64 := Finite 0.

(** ** Package strconv *)

Module strconv.

Definition isDigit (c : ascii) : bool :=
  (48 <=? Z.of_nat (nat_of_ascii c)) && (Z.of_nat (nat_of_ascii c) <=? 57).

Definition digit (c : ascii) : Z := Z.of_nat (nat_of_ascii c) - 48.

Definition lower (c : ascii) : ascii :=
  let n := nat_of_ascii c in
  if (65 <=? Z.of_nat n) && (Z.of_nat n <=? 90)
  then ascii_of_nat (n + 32) else c.

Fixpoint toLower (s : string) : string :=
  match s with
  | EmptyString => EmptyString
  | String c s' => String (lower c) (toLower s')
  end.

(** Reads the longest run of decimal digits at the front of [s]: the number
    read so far, how many digits were read, and the rest. *)
Fixpoint digits (s : string) (acc : Z) (n : nat) : Z * nat * string :=
  match s with
  | String c s' =>
      if isDigit c then digits s' (acc * 10 + digit c) (S n) else (acc, n, s)
  | EmptyString => (acc, n, s)
  end.

(** Splits an optional sign off the front: [true] for a minus sign. *)
Definition sign (s : string) : bool * string :=
  match s with
  | String "-" s' => (true, s')
  | String "+" s' => (false, s')
  | _ => (false, s)
  end.

(** The optional exponent part [e[+-]ddd] of a decimal literal; [None] when
    an exponent is started but malformed. *)
Definition exponent (s : string) : option (Z * string) :=
  match s with
  | String c s1 =>
      if Ascii.eqb (lower c) "e" then
        let '(neg, s2) := sign s1 in
        let '(e, n, s3) := digits s2 0 0 in
        match n with
        | O => None
        | _ => Some (if neg then - e else e, s3)
        end
      else Some (0, s)
  | EmptyString => Some (0, s)
  end.

(** The decimal literal grammar of [readFloat]: digits with at most one
    point and at least one digit, then an optional exponent.  The result is
    the mantissa, the decimal exponent and the unread rest. *)
Definition readFloat (s : string) : option (Z * Z * string) :=
  let '(ip, n1, s1) := digits s 0 0 in
  let '(m, n2, s2) :=
    match s1 with
    | String "." s1' => let '(m, n2, s2) := digits s1' ip 0 in (m, n2, s2)
    | _ => (ip, O, s1)
    end in
  match (n1 + n2)%nat with
  | O => None
  | _ =>
      match exponent s2 with
      | None => None
      | Some (e, s3) => Some (m, e - Z.of_nat n2, s3)
      end
  end.

(** Every rational of magnitude at least [2^1024 - 2^970] rounds to an
    infinity in binary64. *)
Definition overflowThreshold : Q := inject_Z (2 ^ 1024 - 2 ^ 970).

Definition scale (m e : Z) : Q :=
  if 0 <=? e then Qred (inject_Z (m * 10 ^ e))
  else Qred (Qmake m (Z.to_pos (10 ^ (- e)))).

(** [strconv.ParseFloat(s, 64)]: the value and the error.  As in Go the
    value returned with a syntax error is 0 and the value returned with a
    range error is an infinity.  Decimal literals and the spellings of
    infinity and NaN are covered; hexadecimal mantissas and digit-separating
    underscores are read as syntax errors. *)
Definition ParseFloat (s : string) : float64 * option error :=
  let syntax := (float64_zero, Some (NumError "ParseFloat" s ErrSyntax)) in
  let '(neg, body) := sign s in
  let lo := toLower body in
  if String.eqb lo "inf" || String.eqb lo "infinity" then (Inf neg, None)
  else if String.eqb (toLower s) "nan" then (NaN, None)
  else
    match readFloat body with
    | Some (m, e, EmptyString) =>
        let q := scale m e in
        if Qle_bool overflowThreshold q
        then (Inf neg, Some (NumError "ParseFloat" s ErrRange))
        else (Finite (if neg then Qred (- q) else q), None)
    | _ => syntax
    end.

(** [strconv.ParseInt(s, 10, 64)]: an optional sign and decimal digits. *)
Definition ParseInt (s : string) : Z * option error :=
  let syntax := (0, Some (NumError "ParseInt" s ErrSyntax)) in
  match s with
  | EmptyString => syntax
  | _ =>
      let '(neg, body) := sign s in
      match digits body 0 0 with
      | (_, O, _) => syntax
      | (un, _, EmptyString) =>
          if negb neg && (2 ^ 63 <=? un)
          then (2 ^ 63 - 1, Some (NumError "ParseInt" s ErrRange))
          else if neg && (2 ^ 63 <? un)
          then (- 2 ^ 63, Some (NumError "ParseInt" s ErrRange))
          else (if neg then - un else un, None)
      | _ => syntax
      end
  end.

End strconv.

(** ** Package time *)

Module time.

(** A [time.Time] is an instant; every time the decoders build is in UTC,
    so it is kept as the count of nanoseconds since the Unix epoch. *)
Definition Time := Z.

Definition isLeap (year : Z) : bool :=
  (year mod 4 =? 0) && (negb (year mod 100 =? 0) || (year mod 400 =? 0)).

Definition daysIn (month year : Z) : Z :=
  match month with
  | 2 => if isLeap year then 29 else 28
  | 4 | 6 | 9 | 11 => 30
  | _ => 31
  end.

(** Days of a non-leap year that precede the first of [month]. *)
Definition daysBefore (month : Z) : Z :=
  match month with
  | 1 => 0 | 2 => 31 | 3 => 59 | 4 => 90 | 5 => 120 | 6 => 151
  | 7 => 181 | 8 => 212 | 9 => 243 | 10 => 273 | 11 => 304 | _ => 334
  end.

(** Leap years among the years 1 .. [year - 1]. *)
Definition leapsBefore (year : Z) : Z :=
  (year - 1) / 4 - (year - 1) / 100 + (year - 1) / 400.

Definition daysSinceEpoch (year month day : Z) : Z :=
  365 * (year - 1970) + (leapsBefore year - leapsBefore 1970)
  + daysBefore month + (if isLeap year && (2 <? month) then 1 else 0)
  + (day - 1).

(** [time.Date(year, month, day, hour, min, sec, nsec, time.UTC)] for
    arguments that are in range. *)
Definition Date (year month day hour min sec nsec : Z) : Time :=
  ((daysSinceEpoch year month day * 24 + hour) * 60 + min) * 60 * 1000000000
  + sec * 1000000000 + nsec.

(** [t.Before(u)]. *)
Definition Before (t u : Time) : bool := t <? u.

(** The elements of the three layouts the decoders use. *)
Inductive chunk :=
| lit (c : ascii)
| stdLongYear     (* 2006 *)
| stdZeroMonth    (* 01 *)
| stdZeroDay      (* 02 *)
| stdHour         (* 15 *)
| stdZeroMinute   (* 04 *)
| stdZeroSecond.  (* 05 *)

Fixpoint chunks (layout : string) : list chunk :=
  match layout with
  | EmptyString => []
  | String "2" (String "0" (String "0" (String "6" r))) =>
      stdLongYear :: chunks r
  | String "0" (String "1" r) => stdZeroMonth :: chunks r
  | String "0" (String "2" r) => stdZeroDay :: chunks r
  | String "1" (String "5" r) => stdHour :: chunks r
  | String "0" (String "4" r) => stdZeroMinute :: chunks r
  | String "0" (String "5" r) => stdZeroSecond :: chunks r
  | String c r => lit c :: chunks r
  end.

(** The fields collected while a value is read. *)
Record fields := mkFields {
  year : Z; month : Z; day : Z; hour : Z; min : Z; sec : Z; nsec : Z }.

Definition noFields : fields := mkFields 0 (-1) (-1) 0 0 0 0.

Fixpoint cutspace (s : string) : string :=
  match s with
  | String " " s' => cutspace s'
  | _ => s
  end.

(** [skip(value, prefix)] for a one-character prefix: a space of the layout
    stands for any run of spaces, any other character for itself. *)
Definition skip (c : ascii) (value : string) : option string :=
  if Ascii.eqb c " " then
    match value with
    | EmptyString => Some value
    | String c' _ => if Ascii.eqb c' " " then Some (cutspace value) else None
    end
  else
    match value with
    | String c' value' => if Ascii.eqb c' c then Some value' else None
    | EmptyString => None
    end.

(** [getnum(s, fixed)]: a two-digit number, or a one-digit number when the
    width is not fixed. *)
Definition getnum (s : string) (fixed : bool) : option (Z * string) :=
  match s with
  | String a s1 =>
      if strconv.isDigit a then
        match s1 with
        | String b s2 =>
            if strconv.isDigit b
            then Some (strconv.digit a * 10 + strconv.digit b, s2)
            else if fixed then None else Some (strconv.digit a, s1)
        | EmptyString => if fixed then None else Some (strconv.digit a, s1)
        end
      else None
  | EmptyString => None
  end.

(** The four-digit year. *)
Definition getyear (s : string) : option (Z * string) :=
  match s with
  | String a (String b (String c (String d r))) =>
      if strconv.isDigit a && strconv.isDigit b
         && strconv.isDigit c && strconv.isDigit d
      then Some (((strconv.digit a * 10 + strconv.digit b) * 10
                  + strconv.digit c) * 10 + strconv.digit d, r)
      else None
  | _ => None
  end.

Definition commaOrPeriod (c : ascii) : bool :=
  Ascii.eqb c "." || Ascii.eqb c ",".

(** Up to nine fractional digits as nanoseconds; further digits are read
    and dropped.  [width] counts the digits still significant. *)
Fixpoint fraction (s : string) (width : nat) (acc : Z) : Z * string :=
  match s with
  | String c s' =>
      if strconv.isDigit c then
        match width with
        | O => fraction s' O acc
        | S w => fraction s' w (acc * 10 + strconv.digit c)
        end
      else (acc * 10 ^ Z.of_nat width, s)
  | EmptyString => (acc * 10 ^ Z.of_nat width, s)
  end.

(** A fractional second in the value that the layout does not ask for is
    accepted after the seconds. *)
Definition fractionalSecond (value : string) : Z * string :=
  match value with
  | String p (String d r) =>
      if commaOrPeriod p && strconv.isDigit d
      then fraction (String d r) 9 0 else (0, value)
  | _ => (0, value)
  end.

Fixpoint parse (cs : list chunk) (value : string) (f : fields)
    : option fields :=
  match cs with
  | [] => match value with EmptyString => Some f | _ => None end
  | lit c :: cs' =>
      match skip c value with
      | Some value' => parse cs' value' f
      | None => None
      end
  | stdLongYear :: cs' =>
      match getyear value with
      | Some (y, value') =>
          parse cs' value'
            (mkFields y (month f) (day f) (hour f) (min f) (sec f) (nsec f))
      | None => None
      end
  | stdZeroMonth :: cs' =>
      match getnum value true with
      | Some (m, value') =>
          if (m <=? 0) || (12 <? m) then None
          else parse cs' value'
                 (mkFields (year f) m (day f) (hour f) (min f) (sec f) (nsec f))
      | None => None
      end
  | stdZeroDay :: cs' =>
      match getnum value true with
      | Some (d, value') =>
          parse cs' value'
            (mkFields (year f) (month f) d (hour f) (min f) (sec f) (nsec f))
      | None => None
      end
  | stdHour :: cs' =>
      match getnum value false with
      | Some (h, value') =>
          if (h <? 0) || (24 <=? h) then None
          else parse cs' value'
                 (mkFields (year f) (month f) (day f) h (min f) (sec f) (nsec f))
      | None => None
      end
  | stdZeroMinute :: cs' =>
      match getnum value true with
      | Some (mi, value') =>
          if (mi <? 0) || (60 <=? mi) then None
          else parse cs' value'
                 (mkFields (year f) (month f) (day f) (hour f) mi (sec f) (nsec f))
      | None => None
      end
  | stdZeroSecond :: cs' =>
      match getnum value true with
      | Some (s, value') =>
          if (s <? 0) || (60 <=? s) then None
          else
            let '(ns, value'') := fractionalSecond value' in
            parse cs' value''
              (mkFields (year f) (month f) (day f) (hour f) (min f) s ns)
      | None => None
      end
  end.

(** [time.Parse(layout, value)] for a layout made of the chunks above.  The
    day of the month is validated once the whole value is read. *)
Definition Parse (layout value : string) : result Time :=
  match parse (chunks layout) value noFields with
  | Some f =>
      let m := if month f <? 0 then 1 else month f in
      let d := if day f <? 0 then 1 else day f in
      if (d <? 1) || (daysIn m (year f) <? d)
      then Err (ParseError layout value)
      else Ok (Date (year f) m d (hour f) (min f) (sec f) (nsec f))
  | None => Err (ParseError layout value)
  end.

End time.

(** ** JSON documents and the values of [interface{}] *)

(** A JSON value as it stands in the document: the members of an object in
    document order, repeated keys included.  A number is kept as the
    [float64] its literal denotes. *)
Inductive JSON :=
| JNull
| JBool (b : bool)
| JNumber (f : float64)
| JString (s : string)
| JArray (items : list JSON)
| JObject (members : list (string * JSON)).

(** The [[]byte] handed to a decoder: a well-formed document or not. *)
Inductive data :=
| Invalid
| Document (v : JSON).

(** What [encoding/json] stores in an [interface{}]: [nil], [bool],
    [float64], [string], [[]interface{}] or [map[string]interface{}]. *)
Inductive any :=
| anil
| abool (b : bool)
| afloat64 (f : float64)
| astring (s : string)
| aslice (items : list any)
| amap (m : list (string * any)).

(** The dynamic type named in the message of a failed type assertion. *)
Definition typeName (x : any) : string :=
  match x with
  | anil => "nil"
  | abool _ => "bool"
  | afloat64 _ => "float64"
  | astring _ => "string"
  | aslice _ => "[]interface {}"
  | amap _ => "map[string]interface {}"
  end.

(** The unchecked assertion [x.(string)]. *)
Definition assertString (x : any) : result string :=
  match x with
  | astring s => Ok s
  | _ => Panic (TypeAssertion (typeName x) "string")
  end.

(** The unchecked assertion [x.(float64)]. *)
Definition assertFloat64 (x : any) : result float64 :=
  match x with
  | afloat64 f => Ok f
  | _ => Panic (TypeAssertion (typeName x) "float64")
  end.

(** The unchecked assertion [x.(map[string]interface{})]. *)
Definition assertMap (x : any) : result (list (string * any)) :=
  match x with
  | amap m => Ok m
  | _ => Panic (TypeAssertion (typeName x) "map[string]interface {}")
  end.

(** The index expression [m[k]] of a [map[string]interface{}]: the zero
    value [nil] for a missing key. *)
Definition index (m : list (string * any)) (k : string) : any :=
  match mapget m k with
  | Some x => x
  | None => anil
  end.

(** The index expression [m[k]] of a [map[string]string]. *)
Definition indexString (m : list (string * string)) (k : string) : string :=
  match mapget m k with
  | Some s => s
  | None => ""
  end.

(** ** Package encoding/json *)

Module json.

(** The value built for an [interface{}] target: objects become maps, a
    repeated key keeps its last value. *)
Fixpoint toAny (v : JSON) : any :=
  match v with
  | JNull => anil
  | JBool b => abool b
  | JNumber f => afloat64 f
  | JString s => astring s
  | JArray items => aslice (map toAny items)
  | JObject members =>
      amap (fold_left
              (fun (m : list (string * any)) (kv : string * JSON) =>
                 let (k, x) := kv in mapset m k (toAny x))
              members [])
  end.

(** [json.Unmarshal(data, &raw)] for [var raw map[string]interface{}]. *)
Definition UnmarshalMap (d : data) : result (list (string * any)) :=
  match d with
  | Invalid => Err UnmarshalError
  | Document JNull => Ok []
  | Document (JObject members) =>
      match toAny (JObject members) with
      | amap m => Ok m
      | _ => Err UnmarshalError
      end
  | Document _ => Err UnmarshalError
  end.

(** Object members in the order [json.Marshal] writes a map: by key. *)
Fixpoint insertByKey (kv : string * JSON) (l : list (string * JSON))
    : list (string * JSON) :=
  match l with
  | [] => [kv]
  | kv' :: l' =>
      if String.ltb (fst kv) (fst kv') then kv :: l
      else kv' :: insertByKey kv l'
  end.

Definition sortByKey (l : list (string * JSON)) : list (string * JSON) :=
  fold_right insertByKey [] l.

(** [json.Marshal(v)] of a value that came out of [toAny]. *)
Fixpoint Marshal (v : any) : JSON :=
  match v with
  | anil => JNull
  | abool b => JBool b
  | afloat64 f => JNumber f
  | astring s => JString s
  | aslice items => JArray (map Marshal items)
  | amap m =>
      JObject (sortByKey (map (fun kv : string * any => let (k, x) := kv in (k, Marshal x))
                          m))
  end.

(** An object key selects the struct field whose name it equals, if need be
    without regard to case.  The names of the decoders are ASCII, so the
    comparison folds the ASCII letters; the two letters outside ASCII that
    Unicode folds onto [k] and [s] are left out. *)
Definition equalFold (name key : string) : bool :=
  String.eqb (strconv.toLower name) (strconv.toLower key).

(** A field of type [string]. *)
Definition string_ (v : JSON) (old : string) : result string :=
  match v with
  | JNull => Ok old
  | JString s => Ok s
  | _ => Err UnmarshalError
  end.

(** A field of type [float64]. *)
Definition float64_ (v : JSON) (old : float64) : result float64 :=
  match v with
  | JNull => Ok old
  | JNumber f => Ok f
  | _ => Err UnmarshalError
  end.

(** The content of a quoted value must look like a number: [-] or a digit
    first. *)
Definition numberStart (s : string) : bool :=
  match s with
  | String c _ => Ascii.eqb c "-" || strconv.isDigit c
  | EmptyString => false
  end.

(** A field of type [float64] tagged [,string]. *)
Definition quotedFloat64 (v : JSON) (old : float64) : result float64 :=
  match v with
  | JNull => Ok old
  | JString s =>
      if String.eqb s "null" then Ok old
      else if numberStart s then
        match strconv.ParseFloat s with
        | (f, None) => Ok f
        | (_, Some _) => Err UnmarshalError
        end
      else Err UnmarshalError
  | _ => Err UnmarshalError
  end.

(** A field of type [int] or [int64] tagged [,string]. *)
Definition quotedInt (v : JSON) (old : Z) : result Z :=
  match v with
  | JNull => Ok old
  | JString s =>
      if String.eqb s "null" then Ok old
      else if numberStart s then
        match strconv.ParseInt s with
        | (n, None) => Ok n
        | (_, Some _) => Err UnmarshalError
        end
      else Err UnmarshalError
  | _ => Err UnmarshalError
  end.

(** A struct target: [null] leaves it as it is, an object stores each
    member whose key selects a field and skips the others, anything else is
    a type error. *)
Definition struct {S} (field : string -> JSON -> S -> result S)
    (v : JSON) (s : S) : result S :=
  match v with
  | JNull => Ok s
  | JObject members => forRange field members s
  | _ => Err UnmarshalError
  end.

(** A [map[string]E] target: [null] sets the map to nil; an object stores
    under each key the element decoded from the zero value [zero]. *)
Definition map_ {E} (elem : JSON -> E -> result E) (zero : E)
    (v : JSON) (m : list (string * E)) : result (list (string * E)) :=
  match v with
  | JNull => Ok []
  | JObject members =>
      forRange (fun k x m => e <- elem x zero ;; Ok (mapset m k e)) members m
  | _ => Err UnmarshalError
  end.

End json.

(** ** Package sort *)

Module sort.

(** [sort.SliceStable(x, less)]: the arrangement that is ordered by [less]
    and keeps elements that [less] does not separate in their original
    order.  It is computed by insertion, the way Go sorts each block. *)
Fixpoint insert {A} (less : A -> A -> bool) (x : A) (l : list A) : list A :=
  match l with
  | [] => [x]
  | y :: l' => if less y x then y :: insert less x l' else x :: l
  end.

Definition SliceStable {A} (x : list A) (less : A -> A -> bool) : list A :=
  fold_right (insert less) [] x.

End sort.

(** ** Package models: the records *)

(** [type TimeSeriesMetaData struct]. *)
Module TimeSeriesMetaData.
Record t := mk {
  Information : string;
  Symbol : string;
  LastRefreshed : string;
  Interval : string;
  OutputSize : string;
  TimeZone : string;
  TimePeriod : float64;
  SeriesType : string;
  VolumeFactor : string }.

Definition zero : t := mk "" "" "" "" "" "" float64_zero "" "".

Definition setInformation (v : string) (m : t) : t :=
  mk v (Symbol m) (LastRefreshed m) (Interval m) (OutputSize m) (TimeZone m)
     (TimePeriod m) (SeriesType m) (VolumeFactor m).
Definition setSymbol (v : string) (m : t) : t :=
  mk (Information m) v (LastRefreshed m) (Interval m) (OutputSize m)
     (TimeZone m) (TimePeriod m) (SeriesType m) (VolumeFactor m).
Definition setLastRefreshed (v : string) (m : t) : t :=
  mk (Information m) (Symbol m) v (Interval m) (OutputSize m) (TimeZone m)
     (TimePeriod m) (SeriesType m) (VolumeFactor m).
Definition setInterval (v : string) (m : t) : t :=
  mk (Information m) (Symbol m) (LastRefreshed m) v (OutputSize m)
     (TimeZone m) (TimePeriod m) (SeriesType m) (VolumeFactor m).
Definition setOutputSize (v : string) (m : t) : t :=
  mk (Information m) (Symbol m) (LastRefreshed m) (Interval m) v (TimeZone m)
     (TimePeriod m) (SeriesType m) (VolumeFactor m).
Definition setTimeZone (v : string) (m : t) : t :=
  mk (Information m) (Symbol m) (LastRefreshed m) (Interval m) (OutputSize m)
     v (TimePeriod m) (SeriesType m) (VolumeFactor m).
Definition setTimePeriod (v : float64) (m : t) : t :=
  mk (Information m) (Symbol m) (LastRefreshed m) (Interval m) (OutputSize m)
     (TimeZone m) v (SeriesType m) (VolumeFactor m).
Definition setSeriesType (v : string) (m : t) : t :=
  mk (Information m) (Symbol m) (LastRefreshed m) (Interval m) (OutputSize m)
     (TimeZone m) (TimePeriod m) v (VolumeFactor m).
Definition setVolumeFactor (v : string) (m : t) : t :=
  mk (Information m) (Symbol m) (LastRefreshed m) (Interval m) (OutputSize m)
     (TimeZone m) (TimePeriod m) (SeriesType m) v.
End TimeSeriesMetaData.

(** [type OHLCV struct]. *)
Module OHLCV.
Record t := mk {
  Timestamp : time.Time;
  Open : float64;
  High : float64;
  Low : float64;
  Close : float64;
  Volume : Z }.

(** The zero [time.Time] is 1 January of year 1. *)
Definition zero : t :=
  mk (time.Date 1 1 1 0 0 0 0) float64_zero float64_zero float64_zero
     float64_zero 0.

Definition setTimestamp (v : time.Time) (o : t) : t :=
  mk v (Open o) (High o) (Low o) (Close o) (Volume o).
Definition setOpen (v : float64) (o : t) : t :=
  mk (Timestamp o) v (High o) (Low o) (Close o) (Volume o).
Definition setHigh (v : float64) (o : t) : t :=
  mk (Timestamp o) (Open o) v (Low o) (Close o) (Volume o).
Definition setLow (v : float64) (o : t) : t :=
  mk (Timestamp o) (Open o) (High o) v (Close o) (Volume o).
Definition setClose (v : float64) (o : t) : t :=
  mk (Timestamp o) (Open o) (High o) (Low o) v (Volume o).
Definition setVolume (v : Z) (o : t) : t :=
  mk (Timestamp o) (Open o) (High o) (Low o) (Close o) v.
End OHLCV.

(** [type AdjustedOHLCV struct], which embeds [OHLCV]. *)
Module AdjustedOHLCV.
Record t := mk {
  OHLCV : OHLCV.t;
  AdjustedClose : float64;
  Dividend : float64 }.

Definition zero : t := mk OHLCV.zero float64_zero float64_zero.

Definition Timestamp (o : t) : time.Time := OHLCV.Timestamp (OHLCV o).
Definition setOHLCV (v : OHLCV.t) (o : t) : t :=
  mk v (AdjustedClose o) (Dividend o).
Definition setTimestamp (v : time.Time) (o : t) : t :=
  setOHLCV (OHLCV.setTimestamp v (OHLCV o)) o.
Definition setAdjustedClose (v : float64) (o : t) : t :=
  mk (OHLCV o) v (Dividend o).
Definition setDividend (v : float64) (o : t) : t :=
  mk (OHLCV o) (AdjustedClose o) v.
End AdjustedOHLCV.

(** The seven time-series responses ([TimeSeriesIntraday], [TimeSeriesDaily],
    [TimeSeriesDailyAdjusted], ...) share one shape: the metadata and a
    slice of bars. *)
Module TimeSeries.
Record t (T : Type) := mk {
  MetaData : TimeSeriesMetaData.t;
  TimeSeries : list T }.
Arguments mk {T} _ _.
Arguments MetaData {T} _.
Arguments TimeSeries {T} _.

Definition zero {T} : t T := mk TimeSeriesMetaData.zero [].
Definition setMetaData {T} (v : TimeSeriesMetaData.t) (r : t T) : t T :=
  mk v (TimeSeries r).
Definition setTimeSeries {T} (v : list T) (r : t T) : t T :=
  mk (MetaData r) v.
End TimeSeries.

Definition TimeSeriesIntraday := TimeSeries.t OHLCV.t.
Definition TimeSeriesDaily := TimeSeries.t OHLCV.t.
Definition TimeSeriesDailyAdjusted := TimeSeries.t AdjustedOHLCV.t.
Definition TimeSeriesWeekly := TimeSeries.t OHLCV.t.
Definition TimeSeriesWeeklyAdjusted := TimeSeries.t AdjustedOHLCV.t.
Definition TimeSeriesMonthly := TimeSeries.t OHLCV.t.
Definition TimeSeriesMonthlyAdjusted := TimeSeries.t AdjustedOHLCV.t.

(** [type Quote struct]. *)
Module Quote.
Record t := mk {
  Symbol : string;
  Open : float64;
  High : float64;
  Low : float64;
  Price : float64;
  Volume : Z;
  LatestTradingDay : time.Time;
  PreviousClose : float64;
  Change : float64;
  ChangePercent : string }.

Definition zero : t :=
  mk "" float64_zero float64_zero float64_zero float64_zero 0
     (time.Date 1 1 1 0 0 0 0) float64_zero float64_zero "".
End Quote.

(** [type IndicatorValue struct]; [Values] is a [map[string]float64]. *)
Module IndicatorValue.
Record t := mk {
  Timestamp : time.Time;
  Values : gmap string float64 }.
End IndicatorValue.

(** [type IndicatorResponse struct]. *)
Module IndicatorResponse.
Record t := mk {
  MetaData : TimeSeriesMetaData.t;
  IndicatorValues : list IndicatorValue.t }.

Definition zero : t := mk TimeSeriesMetaData.zero [].
Definition setMetaData (v : TimeSeriesMetaData.t) (r : t) : t :=
  mk v (IndicatorValues r).
Definition setIndicatorValues (v : list IndicatorValue.t) (r : t) : t :=
  mk (MetaData r) v.
End IndicatorResponse.

(** [type CryptoMetaData struct]. *)
Module CryptoMetaData.
Record t := mk {
  Information : string;
  DigitalCurrencyCode : string;
  DigitalCurrencyName : string;
  MarketCode : string;
  MarketName : string;
  LastRefreshed : string;
  TimeZone : string }.

Definition zero : t := mk "" "" "" "" "" "" "".

Definition setInformation (v : string) (m : t) : t :=
  mk v (DigitalCurrencyCode m) (DigitalCurrencyName m) (MarketCode m)
     (MarketName m) (LastRefreshed m) (TimeZone m).
Definition setDigitalCurrencyCode (v : string) (m : t) : t :=
  mk (Information m) v (DigitalCurrencyName m) (MarketCode m) (MarketName m)
     (LastRefreshed m) (TimeZone m).
Definition setDigitalCurrencyName (v : string) (m : t) : t :=
  mk (Information m) (DigitalCurrencyCode m) v (MarketCode m) (MarketName m)
     (LastRefreshed m) (TimeZone m).
Definition setMarketCode (v : string) (m : t) : t :=
  mk (Information m) (DigitalCurrencyCode m) (DigitalCurrencyName m) v
     (MarketName m) (LastRefreshed m) (TimeZone m).
Definition setMarketName (v : string) (m : t) : t :=
  mk (Information m) (DigitalCurrencyCode m) (DigitalCurrencyName m)
     (MarketCode m) v (LastRefreshed m) (TimeZone m).
Definition setLastRefreshed (v : string) (m : t) : t :=
  mk (Information m) (DigitalCurrencyCode m) (DigitalCurrencyName m)
     (MarketCode m) (MarketName m) v (TimeZone m).
Definition setTimeZone (v : string) (m : t) : t :=
  mk (Information m) (DigitalCurrencyCode m) (DigitalCurrencyName m)
     (MarketCode m) (MarketName m) (LastRefreshed m) v.
End CryptoMetaData.

(** [type CryptoTimeSeriesData struct]. *)
Module CryptoTimeSeriesData.
Record t := mk {
  Timestamp : time.Time;
  Open : float64;
  High : float64;
  Low : float64;
  Close : float64;
  Volume : float64;
  MarketCap : float64 }.
End CryptoTimeSeriesData.

(** [type CryptoSeriesResponse struct]. *)
Module CryptoSeriesResponse.
Record t := mk {
  MetaData : CryptoMetaData.t;
  TimeSeries : list CryptoTimeSeriesData.t;
  IntervalLabel : string }.

Definition zero : t := mk CryptoMetaData.zero [] "".
Definition setMetaData (v : CryptoMetaData.t) (r : t) : t :=
  mk v (TimeSeries r) (IntervalLabel r).
Definition setTimeSeries (v : list CryptoTimeSeriesData.t) (r : t) : t :=
  mk (MetaData r) v (IntervalLabel r).
Definition setIntervalLabel (v : string) (r : t) : t :=
  mk (MetaData r) (TimeSeries r) v.
End CryptoSeriesResponse.

(** ** Package models: the decoders *)

(** *** Time series *)

(** The fields of [OHLCV] by their [json] tags; [Timestamp] is tagged [-]. *)
Definition OHLCV_field (key : string) (v : JSON) (o : OHLCV.t)
    : result OHLCV.t :=
  if json.equalFold "1. open" key then
    f <- json.quotedFloat64 v (OHLCV.Open o) ;; Ok (OHLCV.setOpen f o)
  else if json.equalFold "2. high" key then
    f <- json.quotedFloat64 v (OHLCV.High o) ;; Ok (OHLCV.setHigh f o)
  else if json.equalFold "3. low" key then
    f <- json.quotedFloat64 v (OHLCV.Low o) ;; Ok (OHLCV.setLow f o)
  else if json.equalFold "4. close" key then
    f <- json.quotedFloat64 v (OHLCV.Close o) ;; Ok (OHLCV.setClose f o)
  else if json.equalFold "5. volume" key then
    n <- json.quotedInt v (OHLCV.Volume o) ;; Ok (OHLCV.setVolume n o)
  else Ok o.

(** The fields of [AdjustedOHLCV]: its own two and the promoted fields of
    the embedded [OHLCV]. *)
Definition AdjustedOHLCV_field (key : string) (v : JSON) (o : AdjustedOHLCV.t)
    : result AdjustedOHLCV.t :=
  if json.equalFold "5. adjusted close" key then
    f <- json.quotedFloat64 v (AdjustedOHLCV.AdjustedClose o) ;;
    Ok (AdjustedOHLCV.setAdjustedClose f o)
  else if json.equalFold "7. dividend amount" key then
    f <- json.quotedFloat64 v (AdjustedOHLCV.Dividend o) ;;
    Ok (AdjustedOHLCV.setDividend f o)
  else
    b <- OHLCV_field key v (AdjustedOHLCV.OHLCV o) ;;
    Ok (AdjustedOHLCV.setOHLCV b o).

(** The fields of [TimeSeriesMetaData] by their [json] tags. *)
Definition TimeSeriesMetaData_field (key : string) (v : JSON)
    (m : TimeSeriesMetaData.t) : result TimeSeriesMetaData.t :=
  if json.equalFold "1. Information" key then
    s <- json.string_ v (TimeSeriesMetaData.Information m) ;;
    Ok (TimeSeriesMetaData.setInformation s m)
  else if json.equalFold "2. Symbol" key then
    s <- json.string_ v (TimeSeriesMetaData.Symbol m) ;;
    Ok (TimeSeriesMetaData.setSymbol s m)
  else if json.equalFold "3. Last Refreshed" key then
    s <- json.string_ v (TimeSeriesMetaData.LastRefreshed m) ;;
    Ok (TimeSeriesMetaData.setLastRefreshed s m)
  else if json.equalFold "4. Interval" key then
    s <- json.string_ v (TimeSeriesMetaData.Interval m) ;;
    Ok (TimeSeriesMetaData.setInterval s m)
  else if json.equalFold "5. Output Size" key then
    s <- json.string_ v (TimeSeriesMetaData.OutputSize m) ;;
    Ok (TimeSeriesMetaData.setOutputSize s m)
  else if json.equalFold "6. Time Zone" key then
    s <- json.string_ v (TimeSeriesMetaData.TimeZone m) ;;
    Ok (TimeSeriesMetaData.setTimeZone s m)
  else if json.equalFold "5. Time Period" key then
    f <- json.float64_ v (TimeSeriesMetaData.TimePeriod m) ;;
    Ok (TimeSeriesMetaData.setTimePeriod f m)
  else if json.equalFold "6. Series Type" key then
    s <- json.string_ v (TimeSeriesMetaData.SeriesType m) ;;
    Ok (TimeSeriesMetaData.setSeriesType s m)
  else if json.equalFold "6. Volume Factor (vFactor)" key then
    s <- json.string_ v (TimeSeriesMetaData.VolumeFactor m) ;;
    Ok (TimeSeriesMetaData.setVolumeFactor s m)
  else Ok m.

(** [func (t *TimeSeriesIntraday) UnmarshalJSON(data []byte) error]: the
    statement that fills the metadata from a present ["Meta Data"] map. *)
Definition intradayMetaData (metaData : list (string * any))
    (m : TimeSeriesMetaData.t) : result TimeSeriesMetaData.t :=
  s <- assertString (index metaData "1. Information") ;;
  let m := TimeSeriesMetaData.setInformation s m in
  s <- assertString (index metaData "2. Symbol") ;;
  let m := TimeSeriesMetaData.setSymbol s m in
  s <- assertString (index metaData "3. Last Refreshed") ;;
  let m := TimeSeriesMetaData.setLastRefreshed s m in
  s <- assertString (index metaData "4. Interval") ;;
  let m := TimeSeriesMetaData.setInterval s m in
  s <- assertString (index metaData "5. Output Size") ;;
  let m := TimeSeriesMetaData.setOutputSize s m in
  s <- assertString (index metaData "6. Time Zone") ;;
  Ok (TimeSeriesMetaData.setTimeZone s m).

(** What the six decoders with a fixed series key need of their bar type:
    [OHLCV] for the plain kinds, [AdjustedOHLCV] for the adjusted ones. *)
Class Bar (T : Type) := {
  barZero : T;
  barField : string -> JSON -> T -> result T;
  barTimestamp : T -> time.Time;
  barSetTimestamp : time.Time -> T -> T;
  barTimestamp_set : forall t o, barTimestamp (barSetTimestamp t o) = t }.

#[export] Instance OHLCV_Bar : Bar OHLCV.t := {|
  barZero := OHLCV.zero;
  barField := OHLCV_field;
  barTimestamp := OHLCV.Timestamp;
  barSetTimestamp := OHLCV.setTimestamp;
  barTimestamp_set := fun _ _ => eq_refl |}.

#[export] Instance AdjustedOHLCV_Bar : Bar AdjustedOHLCV.t := {|
  barZero := AdjustedOHLCV.zero;
  barField := AdjustedOHLCV_field;
  barTimestamp := AdjustedOHLCV.Timestamp;
  barSetTimestamp := AdjustedOHLCV.setTimestamp;
  barTimestamp_set := fun _ _ => eq_refl |}.

(** What the decoders take from the Go runtime and library without fixing
    it:
    - the order in which a [range] statement visits a map, which is the
      runtime's choice: [mapiter m] is some arrangement of the entries;
    - [sort.Slice(x, less)], which orders the slice by [less] and promises
      nothing about the elements [less] does not separate;
    - the [UnmarshalJSON] method of [time.Time] on the text of a JSON
      string: whether the text is accepted as an RFC 3339 time. *)
Class Runtime := {
  mapiter : forall V : Type, list (string * V) -> list (string * V);
  sort_Slice : forall A : Type, list A -> (A -> A -> bool) -> list A;
  rfc3339 : string -> bool }.
Arguments mapiter {_} {V} _.
Arguments sort_Slice {_} {A} _ _.

(** What Go promises of them: [range] visits every entry once, and
    [sort.Slice] with a comparison of timestamps returns the same elements
    in non-decreasing order of timestamp. *)
Class RuntimeLaws (rt : Runtime) : Prop := {
  mapiter_perm : forall (V : Type) (m : list (string * V)), mapiter m ≡ₚ m;
  sort_Slice_perm :
    forall (A : Type) (key : A -> time.Time) (x : list A),
      sort_Slice x (fun a b => time.Before (key a) (key b)) ≡ₚ x;
  sort_Slice_sorted :
    forall (A : Type) (key : A -> time.Time) (x : list A),
      StronglySorted (fun a b => key a <= key b)
        (sort_Slice x (fun a b => time.Before (key a) (key b))) }.

Section Decoders.
Context {rt : Runtime}.

(** The inner loop of the intraday decoder: one bar per timestamp key. *)
Definition intradayEntry (k : string) (v : any) (t : TimeSeriesIntraday)
    : result TimeSeriesIntraday :=
  timestamp <- time.Parse "2006-01-02 15:04:05" k ;;
  let ohlcvData := json.Marshal v in
  let ohlcv := OHLCV.setTimestamp timestamp OHLCV.zero in
  ohlcv <- json.struct OHLCV_field ohlcvData ohlcv ;;
  Ok (TimeSeries.setTimeSeries (TimeSeries.TimeSeries t ++ [ohlcv]) t).

(** The outer loop: every top-level key that starts with [Time Series]. *)
Definition intradaySeries (key : string) (value : any) (t : TimeSeriesIntraday)
    : result TimeSeriesIntraday :=
  if String.prefix "Time Series" key then
    match value with
    | amap tsData => forRange intradayEntry (mapiter tsData) t
    | _ => Err (ErrorNew "expected map for time series data")
    end
  else Ok t.

(** The receiver as the two loops leave it, before the final sort. *)
Definition intradayAppend (t : TimeSeriesIntraday) (d : data)
    : result TimeSeriesIntraday :=
  raw <- json.UnmarshalMap d ;;
  t <- match index raw "Meta Data" with
       | amap metaData =>
           m <- intradayMetaData metaData (TimeSeries.MetaData t) ;;
           Ok (TimeSeries.setMetaData m t)
       | _ => Ok t
       end ;;
  forRange intradaySeries (mapiter raw) t.

Definition TimeSeriesIntraday_UnmarshalJSON (t : TimeSeriesIntraday)
    (d : data) : result TimeSeriesIntraday :=
  t <- intradayAppend t d ;;
  Ok (TimeSeries.setTimeSeries
        (sort.SliceStable (TimeSeries.TimeSeries t)
           (fun a b => time.Before (OHLCV.Timestamp a) (OHLCV.Timestamp b)))
        t).

Section FixedKey.
Context {T : Type} `{Bar T}.
(** The [json] tag of [RawTimeSeries] in the helper struct. *)
Variable seriesKey : string.

(** The fields of the helper struct [aux]: [RawTimeSeries] and, promoted
    from the embedded alias of the receiver, [MetaData] ([TimeSeries] is
    tagged [-]). *)
Definition auxField (key : string) (v : JSON)
    (aux : list (string * T) * TimeSeries.t T)
    : result (list (string * T) * TimeSeries.t T) :=
  if json.equalFold seriesKey key then
    raw <- json.map_ (json.struct barField) barZero v (fst aux) ;;
    Ok (raw, snd aux)
  else if json.equalFold "Meta Data" key then
    m <- json.struct TimeSeriesMetaData_field v
           (TimeSeries.MetaData (snd aux)) ;;
    Ok (fst aux, TimeSeries.setMetaData m (snd aux))
  else Ok aux.

(** [json.Unmarshal(data, &aux)]: a [null] document sets the pointer [aux]
    itself to nil ([None]). *)
Definition unmarshalAux (ts : TimeSeries.t T) (d : data)
    : result (option (list (string * T) * TimeSeries.t T)) :=
  match d with
  | Invalid => Err UnmarshalError
  | Document JNull => Ok None
  | Document v => aux <- json.struct auxField v ([], ts) ;; Ok (Some aux)
  end.

(** The loop that converts the map into a slice. *)
Definition seriesEntry (dateStr : string) (ohlcv : T) (ts : TimeSeries.t T)
    : result (TimeSeries.t T) :=
  t <- time.Parse "2006-01-02" dateStr ;;
  let ohlcv := barSetTimestamp t ohlcv in
  Ok (TimeSeries.setTimeSeries (TimeSeries.TimeSeries ts ++ [ohlcv]) ts).

(** The receiver as the conversion loop leaves it, before the final sort.
    A nil [aux] is dereferenced by [len(aux.RawTimeSeries)]. *)
Definition seriesAppend (ts : TimeSeries.t T) (d : data)
    : result (TimeSeries.t T) :=
  aux <- unmarshalAux ts d ;;
  match aux with
  | None => Panic NilDereference
  | Some (RawTimeSeries, ts) =>
      let ts := TimeSeries.setTimeSeries [] ts in
      forRange seriesEntry (mapiter RawTimeSeries) ts
  end.

(** The body shared by the [UnmarshalJSON] methods of [TimeSeriesDaily],
    [TimeSeriesDailyAdjusted], [TimeSeriesWeekly], [TimeSeriesWeeklyAdjusted],
    [TimeSeriesMonthly] and [TimeSeriesMonthlyAdjusted]. *)
Definition seriesUnmarshalJSON (ts : TimeSeries.t T) (d : data)
    : result (TimeSeries.t T) :=
  ts <- seriesAppend ts d ;;
  Ok (TimeSeries.setTimeSeries
        (sort_Slice (TimeSeries.TimeSeries ts)
           (fun a b => time.Before (barTimestamp a) (barTimestamp b)))
        ts).

End FixedKey.

Definition TimeSeriesDaily_UnmarshalJSON
    : TimeSeriesDaily -> data -> result TimeSeriesDaily :=
  seriesUnmarshalJSON "Time Series (Daily)".
Definition TimeSeriesDailyAdjusted_UnmarshalJSON
    : TimeSeriesDailyAdjusted -> data -> result TimeSeriesDailyAdjusted :=
  seriesUnmarshalJSON "Time Series (Daily Adjusted)".
Definition TimeSeriesWeekly_UnmarshalJSON
    : TimeSeriesWeekly -> data -> result TimeSeriesWeekly :=
  seriesUnmarshalJSON "Weekly Time Series".
Definition TimeSeriesWeeklyAdjusted_UnmarshalJSON
    : TimeSeriesWeeklyAdjusted -> data -> result TimeSeriesWeeklyAdjusted :=
  seriesUnmarshalJSON "Weekly Adjusted Time Series".
Definition TimeSeriesMonthly_UnmarshalJSON
    : TimeSeriesMonthly -> data -> result TimeSeriesMonthly :=
  seriesUnmarshalJSON "Monthly Time Series".
Definition TimeSeriesMonthlyAdjusted_UnmarshalJSON
    : TimeSeriesMonthlyAdjusted -> data -> result TimeSeriesMonthlyAdjusted :=
  seriesUnmarshalJSON "Monthly Adjusted Time Series".

(** *** Quote *)

(** The fields of the helper struct: [RawQuote], a [map[string]string], and
    the ten promoted fields of the alias of [Quote].  Each promoted field
    is assigned again from [RawQuote] before a successful return, so of
    their decoding only the failure is kept. *)
Definition quoteAuxField (key : string) (v : JSON)
    (RawQuote : list (string * string)) : result (list (string * string)) :=
  if json.equalFold "Global Quote" key then
    json.map_ json.string_ "" v RawQuote
  else if json.equalFold "01. symbol" key
          || json.equalFold "10. change percent" key then
    _ <- json.string_ v "" ;; Ok RawQuote
  else if json.equalFold "02. open" key || json.equalFold "03. high" key
          || json.equalFold "04. low" key || json.equalFold "05. price" key
          || json.equalFold "08. previous close" key
          || json.equalFold "09. change" key then
    _ <- json.quotedFloat64 v float64_zero ;; Ok RawQuote
  else if json.equalFold "06. volume" key then
    _ <- json.quotedInt v 0 ;; Ok RawQuote
  else if json.equalFold "07. latest trading day" key then
    match v with
    | JNull => Ok RawQuote
    | JString s => if rfc3339 s then Ok RawQuote else Err UnmarshalError
    | _ => Err UnmarshalError
    end
  else Ok RawQuote.

(** [json.Unmarshal(data, &aux)] of the quote decoder; [None] is the nil
    pointer a [null] document leaves in [aux]. *)
Definition unmarshalQuoteAux (d : data)
    : result (option (list (string * string))) :=
  match d with
  | Invalid => Err UnmarshalError
  | Document JNull => Ok None
  | Document v => raw <- json.struct quoteAuxField v [] ;; Ok (Some raw)
  end.

(** [if err != nil { return fmt.Errorf(prefix + "%v", err) }]. *)
Definition orErrorf {A} (r : A * option error) (prefix : string) : result A :=
  match r with
  | (a, None) => Ok a
  | (_, Some err) => Err (Errorf prefix err)
  end.

Definition wrapErrorf {A} (r : result A) (prefix : string) : result A :=
  match r with
  | Err err => Err (Errorf prefix err)
  | _ => r
  end.

(** The statements of [Quote.UnmarshalJSON] after the helper struct is
    filled. *)
Definition quoteFields (RawQuote : list (string * string)) : result Quote.t :=
  let symbol := indexString RawQuote "01. symbol" in
  open <- orErrorf (strconv.ParseFloat (indexString RawQuote "02. open"))
            "error parsing 'open': " ;;
  high <- orErrorf (strconv.ParseFloat (indexString RawQuote "03. high"))
            "error parsing 'high': " ;;
  low <- orErrorf (strconv.ParseFloat (indexString RawQuote "04. low"))
           "error parsing 'low': " ;;
  price <- orErrorf (strconv.ParseFloat (indexString RawQuote "05. price"))
             "error parsing 'price': " ;;
  volume <- orErrorf (strconv.ParseInt (indexString RawQuote "06. volume"))
              "error parsing 'volume': " ;;
  latestTradingDay <-
    wrapErrorf
      (time.Parse "2006-01-02" (indexString RawQuote "07. latest trading day"))
      "error parsing 'latest trading day': " ;;
  prevClose <-
    orErrorf (strconv.ParseFloat (indexString RawQuote "08. previous close"))
      "error parsing 'previous close': " ;;
  change <- orErrorf (strconv.ParseFloat (indexString RawQuote "09. change"))
              "error parsing 'change': " ;;
  Ok (Quote.mk symbol open high low price volume latestTradingDay prevClose
        change (indexString RawQuote "10. change percent")).

(** [func (q *Quote) UnmarshalJSON(data []byte) error].  Every field of the
    receiver is assigned on the way to a nil return. *)
Definition Quote_UnmarshalJSON (q : Quote.t) (d : data) : result Quote.t :=
  aux <- unmarshalQuoteAux d ;;
  match aux with
  | None => Panic NilDereference
  | Some RawQuote => quoteFields RawQuote
  end.

(** *** Technical indicators *)

(** [func extractMetaData(rawData map[string]interface{}) TimeSeriesMetaData]:
    a switch on the key inside a [range] over the map; every case is an
    unchecked type assertion. *)
Definition extractMetaDataCase (key : string) (value : any)
    (metaData : TimeSeriesMetaData.t) : result TimeSeriesMetaData.t :=
  if String.eqb key "1: Symbol" then
    s <- assertString value ;; Ok (TimeSeriesMetaData.setSymbol s metaData)
  else if String.eqb key "2: Indicator" then
    s <- assertString value ;;
    Ok (TimeSeriesMetaData.setInformation s metaData)
  else if String.eqb key "3: Last Refreshed" then
    s <- assertString value ;;
    Ok (TimeSeriesMetaData.setLastRefreshed s metaData)
  else if String.eqb key "4: Interval" then
    s <- assertString value ;; Ok (TimeSeriesMetaData.setInterval s metaData)
  else if String.eqb key "5: Time Period" then
    f <- assertFloat64 value ;;
    Ok (TimeSeriesMetaData.setTimePeriod f metaData)
  else if String.eqb key "6: Series Type" then
    s <- assertString value ;;
    Ok (TimeSeriesMetaData.setSeriesType s metaData)
  else if String.eqb key "7: Time Zone" then
    s <- assertString value ;; Ok (TimeSeriesMetaData.setTimeZone s metaData)
  else Ok metaData.

Definition extractMetaData (rawData : list (string * any))
    : result TimeSeriesMetaData.t :=
  forRange extractMetaDataCase (mapiter rawData) TimeSeriesMetaData.zero.

(** The innermost loop of [UnmarshalIndicatorJSON]: every sub-field whose
    value is a string is parsed and stored under its own name. *)
Definition indicatorValue (name : string) (rawValue : any)
    (valueMap : gmap string float64) : result (gmap string float64) :=
  match rawValue with
  | astring value =>
      match strconv.ParseFloat value with
      | (floatValue, None) => Ok (<[name := floatValue]> valueMap)
      | (_, Some err) => Err err
      end
  | _ => Ok valueMap
  end.

(** The loop over the timestamps of the value block. *)
Definition indicatorEntry (k : string) (v : any) (i : IndicatorResponse.t)
    : result IndicatorResponse.t :=
  timestamp <- time.Parse "2006-01-02 15:04" k ;;
  match v with
  | amap indicatorData =>
      valueMap <- forRange indicatorValue (mapiter indicatorData) ∅ ;;
      Ok (IndicatorResponse.setIndicatorValues
            (IndicatorResponse.IndicatorValues i
             ++ [IndicatorValue.mk timestamp valueMap]) i)
  | _ => Err (ErrorNew "expected map for each timestamp data")
  end.

(** The receiver as the loops leave it, before the final sort. *)
Definition indicatorAppend (i : IndicatorResponse.t) (d : data)
    (indicatorName : string) : result IndicatorResponse.t :=
  raw <- json.UnmarshalMap d ;;
  i <- match index raw "Meta Data" with
       | amap metaData =>
           m <- extractMetaData metaData ;;
           Ok (IndicatorResponse.setMetaData m i)
       | _ => Ok i
       end ;;
  let expectedKey := String.append "Technical Analysis: " indicatorName in
  match index raw expectedKey with
  | amap tsData => forRange indicatorEntry (mapiter tsData) i
  | _ => Ok i
  end.

(** [func UnmarshalIndicatorJSON(i *IndicatorResponse, data []byte,
    indicatorName string) error]. *)
Definition UnmarshalIndicatorJSON (i : IndicatorResponse.t) (d : data)
    (indicatorName : string) : result IndicatorResponse.t :=
  i <- indicatorAppend i d indicatorName ;;
  Ok (IndicatorResponse.setIndicatorValues
        (sort.SliceStable (IndicatorResponse.IndicatorValues i)
           (fun a b => time.Before (IndicatorValue.Timestamp a)
                         (IndicatorValue.Timestamp b)))
        i).

(** *** Crypto series *)

(** [func extractCryptoMetaData(rawData map[string]interface{})
    CryptoMetaData]. *)
Definition extractCryptoMetaDataCase (key : string) (value : any)
    (metaData : CryptoMetaData.t) : result CryptoMetaData.t :=
  if String.eqb key "1. Information" then
    s <- assertString value ;; Ok (CryptoMetaData.setInformation s metaData)
  else if String.eqb key "2. Digital Currency Code" then
    s <- assertString value ;;
    Ok (CryptoMetaData.setDigitalCurrencyCode s metaData)
  else if String.eqb key "3. Digital Currency Name" then
    s <- assertString value ;;
    Ok (CryptoMetaData.setDigitalCurrencyName s metaData)
  else if String.eqb key "4. Market Code" then
    s <- assertString value ;; Ok (CryptoMetaData.setMarketCode s metaData)
  else if String.eqb key "5. Market Name" then
    s <- assertString value ;; Ok (CryptoMetaData.setMarketName s metaData)
  else if String.eqb key "6. Last Refreshed" then
    s <- assertString value ;; Ok (CryptoMetaData.setLastRefreshed s metaData)
  else if String.eqb key "7. Time Zone" then
    s <- assertString value ;; Ok (CryptoMetaData.setTimeZone s metaData)
  else Ok metaData.

Definition extractCryptoMetaData (rawData : list (string * any))
    : result CryptoMetaData.t :=
  forRange extractCryptoMetaDataCase (mapiter rawData) CryptoMetaData.zero.

(** [x, _ := strconv.ParseFloat(valuesMap[name].(string), 64)]: the type
    assertion is unchecked and the error of the parse is discarded. *)
Definition cryptoNumber (valuesMap : list (string * any)) (name : string)
    : result float64 :=
  s <- assertString (index valuesMap name) ;;
  Ok (fst (strconv.ParseFloat s)).

(** The loop over the dates of the series object. *)
Definition cryptoEntry (date : string) (values : any)
    (c : CryptoSeriesResponse.t) : result CryptoSeriesResponse.t :=
  timestamp <- time.Parse "2006-01-02" date ;;
  match values with
  | amap valuesMap =>
      open <- cryptoNumber valuesMap "1a. open (USD)" ;;
      high <- cryptoNumber valuesMap "2a. high (USD)" ;;
      low <- cryptoNumber valuesMap "3a. low (USD)" ;;
      closeVal <- cryptoNumber valuesMap "4a. close (USD)" ;;
      volume <- cryptoNumber valuesMap "5. volume" ;;
      marketCap <- cryptoNumber valuesMap "6. market cap (USD)" ;;
      Ok (CryptoSeriesResponse.setTimeSeries
            (CryptoSeriesResponse.TimeSeries c
             ++ [CryptoTimeSeriesData.mk timestamp open high low closeVal
                   volume marketCap]) c)
  | _ => Err (ErrorNew "expected map for timestamp data")
  end.

(** The loop over the top-level keys that start with [Time Series]. *)
Definition cryptoSeries (tsKey : string) (tsData : any)
    (c : CryptoSeriesResponse.t) : result CryptoSeriesResponse.t :=
  if String.prefix "Time Series" tsKey then
    let c := CryptoSeriesResponse.setIntervalLabel tsKey c in
    timeSeriesMap <- assertMap tsData ;;
    forRange cryptoEntry (mapiter timeSeriesMap) c
  else Ok c.

(** The receiver as the loops leave it, before the final sort. *)
Definition cryptoAppend (c : CryptoSeriesResponse.t) (d : data)
    : result CryptoSeriesResponse.t :=
  raw <- json.UnmarshalMap d ;;
  c <- match index raw "Meta Data" with
       | amap metaData =>
           m <- extractCryptoMetaData metaData ;;
           Ok (CryptoSeriesResponse.setMetaData m c)
       | _ => Ok c
       end ;;
  forRange cryptoSeries (mapiter raw) c.

(** [func UnmarshalCryptoJSON(c *CryptoSeriesResponse, data []byte) error]. *)
Definition UnmarshalCryptoJSON (c : CryptoSeriesResponse.t) (d : data)
    : result CryptoSeriesResponse.t :=
  c <- cryptoAppend c d ;;
  Ok (CryptoSeriesResponse.setTimeSeries
        (sort.SliceStable (CryptoSeriesResponse.TimeSeries c)
           (fun a b => time.Before (CryptoTimeSeriesData.Timestamp a)
                         (CryptoTimeSeriesData.Timestamp b)))
        c).

End Decoders.

(** A runtime to evaluate the decoders with: it visits a map in the order
    of its entries, sorts with the stable sort and accepts times of the
    form [2006-01-02T15:04:05Z]. *)
Definition refRuntime : Runtime := {|
  mapiter := fun _ m => m;
  sort_Slice := fun A x less => sort.SliceStable x less;
  rfc3339 := fun s => isOk (time.Parse "2006-01-02T15:04:05Z" s) |}.

(** The six keys the intraday decoder reads from a present ["Meta Data"]
    map. *)
Definition intradayMetaDataKeys : list string :=
  ["1. Information"; "2. Symbol"; "3. Last Refreshed"; "4. Interval";
   "5. Output Size"; "6. Time Zone"].

(** [x.(string)] holds. *)
Definition isString (x : any) : bool :=
  match x with astring _ => true | _ => false end.

(** The eight fields [Quote.UnmarshalJSON] parses, in the order it parses
    them, with the key each is read from and the name it bears in the
    message of the error. *)
Inductive quoteField :=
| qOpen | qHigh | qLow | qPrice | qVolume | qLatestTradingDay
| qPreviousClose | qChange.

Definition quoteParsedFields : list quoteField :=
  [qOpen; qHigh; qLow; qPrice; qVolume; qLatestTradingDay; qPreviousClose;
   qChange].

Definition quoteKey (f : quoteField) : string :=
  match f with
  | qOpen => "02. open"
  | qHigh => "03. high"
  | qLow => "04. low"
  | qPrice => "05. price"
  | qVolume => "06. volume"
  | qLatestTradingDay => "07. latest trading day"
  | qPreviousClose => "08. previous close"
  | qChange => "09. change"
  end.

Definition quoteName (f : quoteField) : string :=
  match f with
  | qOpen => "open"
  | qHigh => "high"
  | qLow => "low"
  | qPrice => "price"
  | qVolume => "volume"
  | qLatestTradingDay => "latest trading day"
  | qPreviousClose => "previous close"
  | qChange => "change"
  end.

Definition noError (e : option error) : bool :=
  match e with None => true | Some _ => false end.

(** A field is malformed when the parser the decoder applies to its text
    reports an error; an absent field is read as the empty text. *)
Definition quoteMalformed (RawQuote : list (string * string))
    (f : quoteField) : bool :=
  let text := indexString RawQuote (quoteKey f) in
  match f with
  | qVolume => negb (noError (snd (strconv.ParseInt text)))
  | qLatestTradingDay => negb (isOk (time.Parse "2006-01-02" text))
  | _ => negb (noError (snd (strconv.ParseFloat text)))
  end.

(** The names of the sub-fields of a per-timestamp object that hold a
    string, in the order of the object. *)
Fixpoint stringSubFields (indicatorData : list (string * any)) : list string :=
  match indicatorData with
  | [] => []
  | (name, astring _) :: rest => name :: stringSubFields rest
  | _ :: rest => stringSubFields rest
  end.

(** Every map inside a value has pairwise distinct keys. *)
Fixpoint uniqueKeys (x : any) : Prop :=
  match x with
  | aslice items =>
      (fix all (l : list any) : Prop :=
         match l with
         | [] => True
         | y :: l' => uniqueKeys y /\ all l'
         end) items
  | amap m =>
      NoDup (keys m)
      /\ (fix all (l : list (string * any)) : Prop :=
            match l with
            | [] => True
            | kv :: l' => (let (_, y) := kv in uniqueKeys y) /\ all l'
            end) m
  | _ => True
  end.

(** What one timestamp of the value block contributes to the sequence. *)
Definition decodedFrom (kv : string * any) (v : IndicatorValue.t) : Prop :=
  exists indicatorData,
    kv.2 = amap indicatorData
    /\ time.Parse "2006-01-02 15:04" kv.1 = Ok (IndicatorValue.Timestamp v)
    /\ dom (IndicatorValue.Values v)
       = list_to_set (stringSubFields indicatorData)
    /\ size (IndicatorValue.Values v) = length (stringSubFields indicatorData).

(** The keys the two metadata extractors recognise. *)
Definition indicatorMetaDataKeys : list string :=
  ["1: Symbol"; "2: Indicator"; "3: Last Refreshed"; "4: Interval";
   "5: Time Period"; "6: Series Type"; "7: Time Zone"].

Definition cryptoMetaDataKeys : list string :=
  ["1. Information"; "2. Digital Currency Code"; "3. Digital Currency Name";
   "4. Market Code"; "5. Market Name"; "6. Last Refreshed"; "7. Time Zone"].

(** ** Payloads of the documented scenarios *)

(** A daily payload with one dated entry. *)
Definition dailyPayload : data :=
  Document (JObject [
    ("Meta Data", JObject [
       ("1. Information", JString "Daily Prices");
       ("2. Symbol", JString "MSFT");
       ("3. Last Refreshed", JString "2023-09-08");
       ("4. Interval", JString "Daily");
       ("5. Output Size", JString "Compact");
       ("6. Time Zone", JString "US/Eastern")]);
    ("Time Series (Daily)", JObject [
       ("2023-09-08", JObject [
          ("1. open", JString "330.00");
          ("2. high", JString "335.00");
          ("3. low", JString "329.00");
          ("4. close", JString "334.00");
          ("5. volume", JString "1000000")])])]).

(** Its six metadata fields, stored over the metadata [m] of the receiver. *)
Definition dailyMetaData (m : TimeSeriesMetaData.t) : TimeSeriesMetaData.t :=
  TimeSeriesMetaData.mk "Daily Prices" "MSFT" "2023-09-08" "Daily" "Compact"
    "US/Eastern" (TimeSeriesMetaData.TimePeriod m)
    (TimeSeriesMetaData.SeriesType m) (TimeSeriesMetaData.VolumeFactor m).

Definition dailyBar : OHLCV.t :=
  OHLCV.mk (time.Date 2023 9 8 0 0 0 0) (Finite 330) (Finite 335)
    (Finite 329) (Finite 334) 1000000.


(** A daily payload with two dated entries, the later one first, and one
    whose open price is no number. *)
Definition dailyBars (open : string) : JSON :=
  JObject [
    ("1. open", JString open);
    ("2. high", JString "335.00");
    ("3. low", JString "329.00");
    ("4. close", JString "334.00");
    ("5. volume", JString "1000000")].

Definition dailyPayloadTwo : data :=
  Document (JObject [
    ("Time Series (Daily)", JObject [
       ("2023-09-08", dailyBars "330.00");
       ("2023-09-07", dailyBars "328.00")])]).

Definition dailyPayloadNotANumber : data :=
  Document (JObject [
    ("Time Series (Daily)", JObject [("2023-09-08", dailyBars "N/A")])]).

(** The reply of the service when it declines a request: one ["Note"]
    and nothing else. *)
Definition notePayload : data :=
  Document (JObject [
    ("Note", JString "Thank you for using Alpha Vantage!")]).

(** An intraday payload with two entries, the later one first. *)
Definition intradayPayload : data :=
  Document (JObject [
    ("Meta Data", JObject [
       ("1. Information", JString "Intraday (5min) open, high, low, close prices and volume");
       ("2. Symbol", JString "MSFT");
       ("3. Last Refreshed", JString "2023-09-08 16:00:00");
       ("4. Interval", JString "5min");
       ("5. Output Size", JString "Compact");
       ("6. Time Zone", JString "US/Eastern")]);
    ("Time Series (5min)", JObject [
       ("2023-09-08 16:00:00", JObject [
          ("1. open", JString "334.10");
          ("2. high", JString "334.50");
          ("3. low", JString "333.90");
          ("4. close", JString "334.00");
          ("5. volume", JString "52000")]);
       ("2023-09-08 15:55:00", JObject [
          ("1. open", JString "333.80");
          ("2. high", JString "334.20");
          ("3. low", JString "333.70");
          ("4. close", JString "334.10");
          ("5. volume", JString "41000")])])]).

(** A bar a receiver may hold from an earlier decode. *)
Definition earlierBar : OHLCV.t :=
  OHLCV.mk (time.Date 2023 9 7 16 0 0 0) (Finite 331) (Finite 332)
    (Finite 330) (Finite 331) 48000.

(** A payload whose metadata holds, under [key], a number where a string
    belongs. *)
Definition badMetaDataPayload (key : string) : data :=
  Document (JObject [
    ("Meta Data", JObject [(key, JNumber (Finite 5))])]).

(** A Global Quote payload, and the same with a price that is no number. *)
Definition quoteMembers (price : string) : list (string * JSON) :=
  [("01. symbol", JString "MSFT");
   ("02. open", JString "330.00");
   ("03. high", JString "335.00");
   ("04. low", JString "329.00");
   ("05. price", JString price);
   ("06. volume", JString "1000000");
   ("07. latest trading day", JString "2023-09-08");
   ("08. previous close", JString "331.00");
   ("09. change", JString "3.00");
   ("10. change percent", JString "0.9063%")].

Definition quotePayload (price : string) : data :=
  Document (JObject [("Global Quote", JObject (quoteMembers price))]).

(** The text of the fields as the decoder finds it in [RawQuote]. *)
Definition quoteRaw (price : string) : list (string * string) :=
  [("01. symbol", "MSFT"); ("02. open", "330.00"); ("03. high", "335.00");
   ("04. low", "329.00"); ("05. price", price); ("06. volume", "1000000");
   ("07. latest trading day", "2023-09-08");
   ("08. previous close", "331.00"); ("09. change", "3.00");
   ("10. change percent", "0.9063%")].

(** Indicator payloads: EMA metadata, then a value block with one
    sub-field, with three sub-fields, and with a sub-field that is a JSON
    number instead of a quoted one. *)
Definition indicatorMetaData (indicator : string) : JSON :=
  JObject [
    ("1: Symbol", JString "MSFT");
    ("2: Indicator", JString indicator);
    ("3: Last Refreshed", JString "2023-09-08 16:00:00");
    ("4: Interval", JString "5min");
    ("5: Time Period", JNumber (Finite 60));
    ("6: Series Type", JString "close");
    ("7: Time Zone", JString "US/Eastern")].

Definition indicatorMetaDataOf (indicator : string) : TimeSeriesMetaData.t :=
  TimeSeriesMetaData.mk indicator "MSFT" "2023-09-08 16:00:00" "5min" ""
    "US/Eastern" (Finite 60) "close" "".


Definition smaPayload : data :=
  Document (JObject [
    ("Meta Data", indicatorMetaData "Simple Moving Average (SMA)");
    ("Technical Analysis: SMA", JObject [
       ("2023-09-08 16:00", JObject [("SMA", JString "330.5000")]);
       ("2023-09-08 15:55", JObject [("SMA", JString "330.2500")])])]).

Definition bbandsPayload : data :=
  Document (JObject [
    ("Meta Data", indicatorMetaData "Bollinger Bands (BBANDS)");
    ("Technical Analysis: BBANDS", JObject [
       ("2023-09-08 16:00", JObject [
          ("Real Upper Band", JString "335.5000");
          ("Real Middle Band", JString "330.5000");
          ("Real Lower Band", JString "325.5000")])])]).

Definition smaNumberPayload : data :=
  Document (JObject [
    ("Technical Analysis: SMA", JObject [
       ("2023-09-08 16:00", JObject [("SMA", JNumber (Finite 330))])])]).

(** A crypto payload with one dated entry; the members that give the open
    price are a parameter. *)
Definition cryptoValues (open : list (string * JSON)) : JSON :=
  JObject (open ++ [
    ("2a. high (USD)", JString "26500.00");
    ("3a. low (USD)", JString "25500.00");
    ("4a. close (USD)", JString "26000.00");
    ("5. volume", JString "1200.50");
    ("6. market cap (USD)", JString "1200.50")]).

Definition cryptoPayload (open : list (string * JSON)) : data :=
  Document (JObject [
    ("Time Series (Digital Currency Daily)", JObject [
       ("2023-09-08", cryptoValues open)])]).

Definition cryptoBar (open : float64) : CryptoTimeSeriesData.t :=
  CryptoTimeSeriesData.mk (time.Date 2023 9 8 0 0 0 0) open (Finite 26500)
    (Finite 25500) (Finite 26000) (Finite (2401 # 2)) (Finite (2401 # 2)).

(** What the intraday payload decodes to. *)
Definition intradayScenarioMetaData : TimeSeriesMetaData.t :=
  TimeSeriesMetaData.mk
    "Intraday (5min) open, high, low, close prices and volume" "MSFT"
    "2023-09-08 16:00:00" "5min" "Compact" "US/Eastern" float64_zero "" "".

Definition bar1555 : OHLCV.t :=
  OHLCV.mk (time.Date 2023 9 8 15 55 0 0) (Finite (1669 # 5))
    (Finite (1671 # 5)) (Finite (3337 # 10)) (Finite (3341 # 10)) 41000.

Definition bar1600 : OHLCV.t :=
  OHLCV.mk (time.Date 2023 9 8 16 0 0 0) (Finite (3341 # 10))
    (Finite (669 # 2)) (Finite (3339 # 10)) (Finite 334) 52000.

Definition intradayDecoded : TimeSeriesIntraday :=
  TimeSeries.mk intradayScenarioMetaData [bar1555; bar1600].

(** The value block of the SMA payload as [json.Unmarshal] stores it, and
    what the payload decodes to. *)
Definition smaBlock : list (string * any) :=
  [("2023-09-08 16:00", amap [("SMA", astring "330.5000")]);
   ("2023-09-08 15:55", amap [("SMA", astring "330.2500")])].

Definition smaRaw : list (string * any) :=
  [("Meta Data", amap [
      ("1: Symbol", astring "MSFT");
      ("2: Indicator", astring "Simple Moving Average (SMA)");
      ("3: Last Refreshed", astring "2023-09-08 16:00:00");
      ("4: Interval", astring "5min");
      ("5: Time Period", afloat64 (Finite 60));
      ("6: Series Type", astring "close");
      ("7: Time Zone", astring "US/Eastern")]);
   ("Technical Analysis: SMA", amap smaBlock)].

Definition smaDecoded : IndicatorResponse.t :=
  IndicatorResponse.mk (indicatorMetaDataOf "Simple Moving Average (SMA)")
    [IndicatorValue.mk (time.Date 2023 9 8 15 55 0 0)
       (<["SMA" := Finite (1321 # 4)]> ∅);
     IndicatorValue.mk (time.Date 2023 9 8 16 0 0 0)
       (<["SMA" := Finite (661 # 2)]> ∅)].

(** What the BBANDS payload decodes to. *)
Definition bbandsDecoded : IndicatorResponse.t :=
  IndicatorResponse.mk (indicatorMetaDataOf "Bollinger Bands (BBANDS)")
    [IndicatorValue.mk (time.Date 2023 9 8 16 0 0 0)
       (<["Real Lower Band" := Finite (651 # 2)]>
          (<["Real Middle Band" := Finite (661 # 2)]>
             (<["Real Upper Band" := Finite (671 # 2)]> ∅)))].

(** ** Package models: the [Length] methods *)

(** [func (t *TimeSeriesDaily) Length() int { return len(t.TimeSeries) }];
    the methods of the other kinds have the same body.
    [TimeSeriesMonthlyAdjusted] has no such method. *)
Definition seriesLength {T} (t : TimeSeries.t T) : Z :=
  Z.of_nat (length (TimeSeries.TimeSeries t)).

Definition TimeSeriesIntraday_Length : TimeSeriesIntraday -> Z := seriesLength.
Definition TimeSeriesDaily_Length : TimeSeriesDaily -> Z := seriesLength.
Definition TimeSeriesDailyAdjusted_Length : TimeSeriesDailyAdjusted -> Z :=
  seriesLength.
Definition TimeSeriesWeekly_Length : TimeSeriesWeekly -> Z := seriesLength.
Definition TimeSeriesWeeklyAdjusted_Length : TimeSeriesWeeklyAdjusted -> Z :=
  seriesLength.
Definition TimeSeriesMonthly_Length : TimeSeriesMonthly -> Z := seriesLength.

(** [func (t *Quote) Length() int { return 1 }]. *)
Definition Quote_Length (q : Quote.t) : Z := 1.

(** ** What the decoders make of a payload *)

(** The bar the conversion loop of a fixed-key decoder makes of one entry
    of [RawTimeSeries]: the decoded bar, stamped with the date of its
    key. *)
Definition stamped {T} `{Bar T} (kv : string * T) (o : T) : Prop :=
  exists t,
    time.Parse "2006-01-02" kv.1 = Ok t /\ o = barSetTimestamp t kv.2.

(** The members of a payload object that [encoding/json] stores in the
    field tagged [seriesKey] all hold the object [entries], and there is
    such a member. *)
Definition seriesObject (seriesKey : string) (members : list (string * JSON))
    (entries : list (string * JSON)) : Prop :=
  (exists k, (k, JObject entries) ∈ members
             /\ json.equalFold seriesKey k = true)
  /\ forall k v, (k, v) ∈ members -> json.equalFold seriesKey k = true ->
                 v = JObject entries.

(** The tags of the four prices of a bar. *)
Definition priceTags : list string :=
  ["1. open"; "2. high"; "3. low"; "4. close"].

(** What the two bar types share in the way their fields are decoded: no
    field panics, a field fails with the error of [encoding/json] only, and
    a key that selects one of the four prices is decoded as a quoted
    [float64]. *)
Class BarLaws (T : Type) `{Bar T} : Prop := {
  barField_noPanic : forall k v o, isPanic (barField k v o) = false;
  barField_error : forall k v o e, barField k v o = Err e -> e = UnmarshalError;
  barField_price :
    forall tag k v o, tag ∈ priceTags -> json.equalFold tag k = true ->
      isOk (barField k v o) = isOk (json.quotedFloat64 v float64_zero) }.

(** A runtime that visits a map from its last entry to its first. *)
Definition reverseRuntime : Runtime := {|
  mapiter := fun _ m => rev m;
  sort_Slice := fun A x less => sort.SliceStable x less;
  rfc3339 := fun s => isOk (time.Parse "2006-01-02T15:04:05Z" s) |}.

(** [x.(float64)] and [x.(map[string]interface{})] hold. *)
Definition isFloat64 (x : any) : bool :=
  match x with afloat64 _ => true | _ => false end.

Definition isMap (x : any) : bool :=
  match x with amap _ => true | _ => false end.

(** An entry of the metadata map on which [extractMetaData] fails its type
    assertion: a recognised key whose value has not the type of its field,
    [float64] for the time period and [string] for the others. *)
Definition indicatorMetaDataMismatch (kv : string * any) : bool :=
  if String.eqb kv.1 "5: Time Period" then negb (isFloat64 kv.2)
  else bool_decide (kv.1 ∈ indicatorMetaDataKeys) && negb (isString kv.2).

(** The same for [extractCryptoMetaData], whose seven fields are strings. *)
Definition cryptoMetaDataMismatch (kv : string * any) : bool :=
  bool_decide (kv.1 ∈ cryptoMetaDataKeys) && negb (isString kv.2).

(** The six sub-fields the crypto decoder reads of every dated object. *)
Definition cryptoNumberKeys : list string :=
  ["1a. open (USD)"; "2a. high (USD)"; "3a. low (USD)"; "4a. close (USD)";
   "5. volume"; "6. market cap (USD)"].

(** The string and the number a map of the payload holds under a key, the
    zero value when the key is missing or holds something else. *)
Definition stringAt (m : list (string * any)) (k : string) : string :=
  match index m k with astring s => s | _ => "" end.

Definition float64At (m : list (string * any)) (k : string) : float64 :=
  match index m k with afloat64 f => f | _ => float64_zero end.

(** The number of dated entries under the top-level keys that start with
    [Time Series]. *)
Definition seriesCount (raw : list (string * any)) : nat :=
  sum_list_with
    (fun kv : string * any =>
       if String.prefix "Time Series" kv.1 then
         match kv.2 with amap tsData => length tsData | _ => O end
       else O)
    raw.

(** The bar the intraday decoder makes of one entry of a series object:
    the fields of the entry, written back to JSON, are decoded into a bar
    that carries the timestamp of the key. *)
Definition intradayBar (kv : string * any) (o : OHLCV.t) : Prop :=
  exists t,
    time.Parse "2006-01-02 15:04:05" kv.1 = Ok t
    /\ json.struct OHLCV_field (json.Marshal kv.2)
         (OHLCV.setTimestamp t OHLCV.zero) = Ok o.

(** The value the crypto decoder stores for a sub-field: what
    [strconv.ParseFloat] returns for its text, error or not. *)
Definition cryptoValue (valuesMap : list (string * any)) (name : string)
    : float64 :=
  fst (strconv.ParseFloat (stringAt valuesMap name)).

(** The entry the crypto decoder makes of one dated object. *)
Definition cryptoEntryOf (kv : string * any) (bar : CryptoTimeSeriesData.t)
    : Prop :=
  exists t valuesMap,
    time.Parse "2006-01-02" kv.1 = Ok t
    /\ kv.2 = amap valuesMap
    /\ bar = CryptoTimeSeriesData.mk t
               (cryptoValue valuesMap "1a. open (USD)")
               (cryptoValue valuesMap "2a. high (USD)")
               (cryptoValue valuesMap "3a. low (USD)")
               (cryptoValue valuesMap "4a. close (USD)")
               (cryptoValue valuesMap "5. volume")
               (cryptoValue valuesMap "6. market cap (USD)").

(** A bar object in which the text of one of the four prices is no
    number: a text other than [null] that [strconv.ParseFloat] rejects. *)
Definition malformedPrice (fields : list (string * any)) : Prop :=
  exists f s tag,
    (f, astring s) ∈ fields /\ tag ∈ priceTags
    /\ json.equalFold tag f = true
    /\ s <> "null" /\ snd (strconv.ParseFloat s) <> None.

(** The metadata the two extractors build from a metadata map. *)
Definition indicatorMetaDataFrom (metaData : list (string * any))
    : TimeSeriesMetaData.t :=
  TimeSeriesMetaData.mk
    (stringAt metaData "2: Indicator") (stringAt metaData "1: Symbol")
    (stringAt metaData "3: Last Refreshed") (stringAt metaData "4: Interval")
    "" (stringAt metaData "7: Time Zone")
    (float64At metaData "5: Time Period")
    (stringAt metaData "6: Series Type") "".

Definition cryptoMetaDataFrom (metaData : list (string * any))
    : CryptoMetaData.t :=
  CryptoMetaData.mk
    (stringAt metaData "1. Information")
    (stringAt metaData "2. Digital Currency Code")
    (stringAt metaData "3. Digital Currency Name")
    (stringAt metaData "4. Market Code") (stringAt metaData "5. Market Name")
    (stringAt metaData "6. Last Refreshed") (stringAt metaData "7. Time Zone").

(** The metadata the intraday decoder stores over the metadata [m] of the
    receiver. *)
Definition intradayMetaDataFrom (metaData : list (string * any))
    (m : TimeSeriesMetaData.t) : TimeSeriesMetaData.t :=
  TimeSeriesMetaData.mk
    (stringAt metaData "1. Information") (stringAt metaData "2. Symbol")
    (stringAt metaData "3. Last Refreshed") (stringAt metaData "4. Interval")
    (stringAt metaData "5. Output Size") (stringAt metaData "6. Time Zone")
    (TimeSeriesMetaData.TimePeriod m) (TimeSeriesMetaData.SeriesType m)
    (TimeSeriesMetaData.VolumeFactor m).

(** ** Package models: the currency exchange rate *)

(** [type ExchangeRateInfo struct]: nine strings. *)
Module ExchangeRateInfo.
Record t := mk {
  FromCurrencyCode : string;
  FromCurrencyName : string;
  ToCurrencyCode : string;
  ToCurrencyName : string;
  ExchangeRate : string;
  LastRefreshed : string;
  TimeZone : string;
  BidPrice : string;
  AskPrice : string }.

Definition zero : t := mk "" "" "" "" "" "" "" "" "".

Definition setFromCurrencyCode (v : string) (e : t) : t :=
  mk v (FromCurrencyName e) (ToCurrencyCode e) (ToCurrencyName e)
    (ExchangeRate e) (LastRefreshed e) (TimeZone e) (BidPrice e) (AskPrice e).
Definition setFromCurrencyName (v : string) (e : t) : t :=
  mk (FromCurrencyCode e) v (ToCurrencyCode e) (ToCurrencyName e)
    (ExchangeRate e) (LastRefreshed e) (TimeZone e) (BidPrice e) (AskPrice e).
Definition setToCurrencyCode (v : string) (e : t) : t :=
  mk (FromCurrencyCode e) (FromCurrencyName e) v (ToCurrencyName e)
    (ExchangeRate e) (LastRefreshed e) (TimeZone e) (BidPrice e) (AskPrice e).
Definition setToCurrencyName (v : string) (e : t) : t :=
  mk (FromCurrencyCode e) (FromCurrencyName e) (ToCurrencyCode e) v
    (ExchangeRate e) (LastRefreshed e) (TimeZone e) (BidPrice e) (AskPrice e).
Definition setExchangeRate (v : string) (e : t) : t :=
  mk (FromCurrencyCode e) (FromCurrencyName e) (ToCurrencyCode e)
    (ToCurrencyName e) v (LastRefreshed e) (TimeZone e) (BidPrice e)
    (AskPrice e).
Definition setLastRefreshed (v : string) (e : t) : t :=
  mk (FromCurrencyCode e) (FromCurrencyName e) (ToCurrencyCode e)
    (ToCurrencyName e) (ExchangeRate e) v (TimeZone e) (BidPrice e)
    (AskPrice e).
Definition setTimeZone (v : string) (e : t) : t :=
  mk (FromCurrencyCode e) (FromCurrencyName e) (ToCurrencyCode e)
    (ToCurrencyName e) (ExchangeRate e) (LastRefreshed e) v (BidPrice e)
    (AskPrice e).
Definition setBidPrice (v : string) (e : t) : t :=
  mk (FromCurrencyCode e) (FromCurrencyName e) (ToCurrencyCode e)
    (ToCurrencyName e) (ExchangeRate e) (LastRefreshed e) (TimeZone e) v
    (AskPrice e).
Definition setAskPrice (v : string) (e : t) : t :=
  mk (FromCurrencyCode e) (FromCurrencyName e) (ToCurrencyCode e)
    (ToCurrencyName e) (ExchangeRate e) (LastRefreshed e) (TimeZone e)
    (BidPrice e) v.
End ExchangeRateInfo.

(** [type CurrencyExchangeRateResponse struct]. *)
Module CurrencyExchangeRateResponse.
Record t := mk { ExchangeRateInfo : ExchangeRateInfo.t }.
Definition zero : t := mk ExchangeRateInfo.zero.
End CurrencyExchangeRateResponse.

(** The fields of [ExchangeRateInfo] by their [json] tags. *)
Definition ExchangeRateInfo_field (key : string) (v : JSON)
    (e : ExchangeRateInfo.t) : result ExchangeRateInfo.t :=
  if json.equalFold "1. From_Currency Code" key then
    s <- json.string_ v (ExchangeRateInfo.FromCurrencyCode e) ;;
    Ok (ExchangeRateInfo.setFromCurrencyCode s e)
  else if json.equalFold "2. From_Currency Name" key then
    s <- json.string_ v (ExchangeRateInfo.FromCurrencyName e) ;;
    Ok (ExchangeRateInfo.setFromCurrencyName s e)
  else if json.equalFold "3. To_Currency Code" key then
    s <- json.string_ v (ExchangeRateInfo.ToCurrencyCode e) ;;
    Ok (ExchangeRateInfo.setToCurrencyCode s e)
  else if json.equalFold "4. To_Currency Name" key then
    s <- json.string_ v (ExchangeRateInfo.ToCurrencyName e) ;;
    Ok (ExchangeRateInfo.setToCurrencyName s e)
  else if json.equalFold "5. Exchange Rate" key then
    s <- json.string_ v (ExchangeRateInfo.ExchangeRate e) ;;
    Ok (ExchangeRateInfo.setExchangeRate s e)
  else if json.equalFold "6. Last Refreshed" key then
    s <- json.string_ v (ExchangeRateInfo.LastRefreshed e) ;;
    Ok (ExchangeRateInfo.setLastRefreshed s e)
  else if json.equalFold "7. Time Zone" key then
    s <- json.string_ v (ExchangeRateInfo.TimeZone e) ;;
    Ok (ExchangeRateInfo.setTimeZone s e)
  else if json.equalFold "8. Bid Price" key then
    s <- json.string_ v (ExchangeRateInfo.BidPrice e) ;;
    Ok (ExchangeRateInfo.setBidPrice s e)
  else if json.equalFold "9. Ask Price" key then
    s <- json.string_ v (ExchangeRateInfo.AskPrice e) ;;
    Ok (ExchangeRateInfo.setAskPrice s e)
  else Ok e.

(** The one field of [CurrencyExchangeRateResponse]. *)
Definition CurrencyExchangeRateResponse_field (key : string) (v : JSON)
    (r : CurrencyExchangeRateResponse.t)
    : result CurrencyExchangeRateResponse.t :=
  if json.equalFold "Realtime Currency Exchange Rate" key then
    e <- json.struct ExchangeRateInfo_field v
           (CurrencyExchangeRateResponse.ExchangeRateInfo r) ;;
    Ok (CurrencyExchangeRateResponse.mk e)
  else Ok r.

(** [json.Unmarshal(data, exchangeRateData)] for a non-nil
    [*CurrencyExchangeRateResponse]: the type has no decoder of its own. *)
Definition CurrencyExchangeRateResponse_Unmarshal
    (r : CurrencyExchangeRateResponse.t) (d : data)
    : result CurrencyExchangeRateResponse.t :=
  match d with
  | Invalid => Err UnmarshalError
  | Document v => json.struct CurrencyExchangeRateResponse_field v r
  end.

(** ** Package client *)

(** Of each method, the statements that follow the request.  [fetched] is
    what the request returned, the body or an error; an [Err] of the result
    is the return of the zero value (or nil) together with that error. *)
Section Client.
Context {rt : Runtime}.

Definition GetIntraday (fetched : result data) : result TimeSeriesIntraday :=
  body <- fetched ;; TimeSeriesIntraday_UnmarshalJSON TimeSeries.zero body.

Definition GetDaily (fetched : result data) : result TimeSeriesDaily :=
  body <- fetched ;; TimeSeriesDaily_UnmarshalJSON TimeSeries.zero body.

Definition GetDailyAdjusted (fetched : result data)
    : result TimeSeriesDailyAdjusted :=
  body <- fetched ;; TimeSeriesDailyAdjusted_UnmarshalJSON TimeSeries.zero body.

Definition GetWeekly (fetched : result data) : result TimeSeriesWeekly :=
  body <- fetched ;; TimeSeriesWeekly_UnmarshalJSON TimeSeries.zero body.

(** [GetWeeklyAdjusted] declares its result as a [models.TimeSeriesWeekly]. *)
Definition GetWeeklyAdjusted (fetched : result data) : result TimeSeriesWeekly :=
  body <- fetched ;; TimeSeriesWeekly_UnmarshalJSON TimeSeries.zero body.

Definition GetMonthly (fetched : result data) : result TimeSeriesMonthly :=
  body <- fetched ;; TimeSeriesMonthly_UnmarshalJSON TimeSeries.zero body.

Definition GetMonthlyAdjusted (fetched : result data)
    : result TimeSeriesMonthlyAdjusted :=
  body <- fetched ;;
  TimeSeriesMonthlyAdjusted_UnmarshalJSON TimeSeries.zero body.

Definition GetQuoteEndpoint (fetched : result data) : result Quote.t :=
  body <- fetched ;; Quote_UnmarshalJSON Quote.zero body.

Definition getIndicator (indicatorName : string) (fetched : result data)
    : result IndicatorResponse.t :=
  body <- fetched ;;
  UnmarshalIndicatorJSON IndicatorResponse.zero body indicatorName.

Definition getCryptoData (fetched : result data)
    : result CryptoSeriesResponse.t :=
  body <- fetched ;; UnmarshalCryptoJSON CryptoSeriesResponse.zero body.

Definition GetCurrencyExchangeRate (fetched : result data)
    : result CurrencyExchangeRateResponse.t :=
  body <- fetched ;;
  CurrencyExchangeRateResponse_Unmarshal CurrencyExchangeRateResponse.zero body.

End Client.

(** The payload that carries the nine texts of [e] under the nine keys of
    the service. *)
Definition exchangeRatePayload (e : ExchangeRateInfo.t) : data :=
  Document (JObject [
    ("Realtime Currency Exchange Rate", JObject [
       ("1. From_Currency Code", JString (ExchangeRateInfo.FromCurrencyCode e));
       ("2. From_Currency Name", JString (ExchangeRateInfo.FromCurrencyName e));
       ("3. To_Currency Code", JString (ExchangeRateInfo.ToCurrencyCode e));
       ("4. To_Currency Name", JString (ExchangeRateInfo.ToCurrencyName e));
       ("5. Exchange Rate", JString (ExchangeRateInfo.ExchangeRate e));
       ("6. Last Refreshed", JString (ExchangeRateInfo.LastRefreshed e));
       ("7. Time Zone", JString (ExchangeRateInfo.TimeZone e));
       ("8. Bid Price", JString (ExchangeRateInfo.BidPrice e));
       ("9. Ask Price", JString (ExchangeRateInfo.AskPrice e))])]).

(** A weekly adjusted payload with one dated entry. *)
Definition weeklyAdjustedMembers : list (string * JSON) :=
  [("Meta Data", JObject [
      ("1. Information", JString "Weekly Adjusted Prices and Volumes");
      ("2. Symbol", JString "MSFT");
      ("3. Last Refreshed", JString "2023-09-08");
      ("4. Time Zone", JString "US/Eastern")]);
   ("Weekly Adjusted Time Series", JObject [
      ("2023-09-08", JObject [
         ("1. open", JString "330.00");
         ("2. high", JString "335.00");
         ("3. low", JString "329.00");
         ("4. close", JString "334.00");
         ("5. adjusted close", JString "334.00");
         ("6. volume", JString "1000000");
         ("7. dividend amount", JString "0.0000")])])].

Definition weeklyAdjustedPayload : data :=
  Document (JObject weeklyAdjustedMembers).

(** ** Payloads the further properties are exercised on *)

(** The series object of the daily payload with two entries, and what the
    payload decodes to. *)
Definition dailyTwoEntries : list (string * JSON) :=
  [("2023-09-08", dailyBars "330.00"); ("2023-09-07", dailyBars "328.00")].

Definition dailyTwoDecoded : TimeSeriesDaily :=
  TimeSeries.mk TimeSeriesMetaData.zero
    [OHLCV.mk (time.Date 2023 9 7 0 0 0 0) (Finite 328) (Finite 335)
       (Finite 329) (Finite 334) 1000000;
     OHLCV.mk (time.Date 2023 9 8 0 0 0 0) (Finite 330) (Finite 335)
       (Finite 329) (Finite 334) 1000000].

(** A series object with a key that is no date. *)
Definition dailyBadDateEntries : list (string * JSON) :=
  [("2023-09-08", dailyBars "330.00"); ("2023-13-40", dailyBars "328.00")].

(** The top-level maps [json.Unmarshal] builds for the intraday payload
    and for the crypto payload whose open price is no number. *)
Definition intradayRaw : list (string * any) := Eval vm_compute in
    match json.UnmarshalMap intradayPayload with Ok raw => raw | _ => [] end.

Definition cryptoRaw : list (string * any) := Eval vm_compute in
    match json.UnmarshalMap (cryptoPayload [("1a. open (USD)", JString "N/A")])
    with Ok raw => raw | _ => [] end.

(** A crypto payload with metadata and one dated entry. *)
Definition cryptoMetaDataPayload : data :=
  Document (JObject [
    ("Meta Data", JObject [
       ("1. Information", JString "Daily Prices and Volumes for Digital Currency");
       ("2. Digital Currency Code", JString "BTC");
       ("3. Digital Currency Name", JString "Bitcoin");
       ("4. Market Code", JString "USD");
       ("5. Market Name", JString "United States Dollar");
       ("6. Last Refreshed", JString "2023-09-08 00:00:00");
       ("7. Time Zone", JString "UTC")]);
    ("Time Series (Digital Currency Daily)", JObject [
       ("2023-09-08", cryptoValues [("1a. open (USD)", JString "26000.00")])])]).

Definition cryptoMetaDataRaw : list (string * any) := Eval vm_compute in
    match json.UnmarshalMap cryptoMetaDataPayload with
    | Ok raw => raw
    | _ => []
    end.

Definition cryptoMetaDataDecoded : CryptoSeriesResponse.t :=
  CryptoSeriesResponse.mk
    (CryptoMetaData.mk "Daily Prices and Volumes for Digital Currency" "BTC"
       "Bitcoin" "USD" "United States Dollar" "2023-09-08 00:00:00" "UTC")
    [cryptoBar (Finite 26000)] "Time Series (Digital Currency Daily)".

(** An intraday payload with a timestamp whose hour is out of range. *)
Definition intradayBadHourPayload : data :=
  Document (JObject [
    ("Time Series (5min)", JObject [("2023-09-08 25:00:00", JObject [])])]).

(** What [GetWeeklyAdjusted] returns for the weekly adjusted payload. *)
Definition weeklyAdjustedReturned : TimeSeriesWeekly :=
  TimeSeries.mk
    (TimeSeriesMetaData.mk "Weekly Adjusted Prices and Volumes" "MSFT"
       "2023-09-08" "" "" "" float64_zero "" "")
    [].

(** What one timestamp of the value block contributes to the sequence,
    values included: under each name the number [strconv.ParseFloat] reads
    from the text of the sub-field. *)
Definition indicatorValueOf (kv : string * any) (v : IndicatorValue.t)
    : Prop :=
  exists indicatorData,
    kv.2 = amap indicatorData
    /\ time.Parse "2006-01-02 15:04" kv.1 = Ok (IndicatorValue.Timestamp v)
    /\ forall name f,
         IndicatorValue.Values v !! name = Some f
         <-> exists s, (name, astring s) ∈ indicatorData
                       /\ strconv.ParseFloat s = (f, None).

(** An intraday payload with two entries of one and the same time of day,
    written once with a one-digit hour and once with two digits: the layout
    of the intraday decoder reads both keys as half past nine. *)
Definition intradayTiePayload : data :=
  Document (JObject [
    ("Time Series (5min)", JObject [
       ("2023-09-08 9:30:00", dailyBars "330.00");
       ("2023-09-08 09:30:00", dailyBars "331.00")])]).

(** The bars of its two entries; they differ in the open price only. *)
Definition tieBar1 : OHLCV.t :=
  OHLCV.mk (time.Date 2023 9 8 9 30 0 0) (Finite 330) (Finite 335)
    (Finite 329) (Finite 334) 1000000.

Definition tieBar2 : OHLCV.t :=
  OHLCV.mk (time.Date 2023 9 8 9 30 0 0) (Finite 331) (Finite 335)
    (Finite 329) (Finite 334) 1000000.

(** The payload whose one member is the Global Quote object [fields]. *)
Definition quoteGlobalPayload (fields : list (string * JSON)) : data :=
  Document (JObject [("Global Quote", JObject fields)]).

(** A Global Quote object whose open price is no number and whose price is
    a JSON number where the service sends a string. *)
Definition quoteNumberPriceMembers : list (string * JSON) :=
  [("01. symbol", JString "MSFT");
   ("02. open", JString "abc");
   ("05. price", JNumber (Finite 334))].

Definition quoteNumberPricePayload : data :=
  quoteGlobalPayload quoteNumberPriceMembers.

(** A JSON value that [encoding/json] stores in a Go [string]: a string,
    or [null], which leaves the fresh element of the map empty. *)
Definition isStringOrNull (v : JSON) : bool :=
  match v with JString _ | JNull => true | _ => false end.

Definition textOf (v : JSON) : string :=
  match v with JString s => s | _ => "" end.

(** The map [json.Unmarshal] makes of a Global Quote object whose members
    are strings or [null]: a later member of a key replaces the earlier
    one. *)
Definition quoteStored (fields : list (string * JSON))
    : list (string * string) :=
  fold_left (fun m kv => mapset m kv.1 (textOf kv.2)) fields [].

(** * Properties *)

(** ** The library models at concrete inputs *)

Example ParseFloat_330 : strconv.ParseFloat "330.00" = (Finite 330, None).
Proof. reflexivity. Qed.

Example ParseFloat_NA : fst (strconv.ParseFloat "N/A") = float64_zero.
Proof. reflexivity. Qed.

Example ParseInt_1000000 : strconv.ParseInt "1000000" = (1000000, None).
Proof. reflexivity. Qed.

Example Parse_date :
  time.Parse "2006-01-02" "2023-09-08" = Ok (1694131200 * 1000000000).
Proof. reflexivity. Qed.

Example Parse_date_is_Date :
  time.Parse "2006-01-02" "2023-09-08" = Ok (time.Date 2023 9 8 0 0 0 0).
Proof. reflexivity. Qed.

Example Parse_bad_day :
  time.Parse "2006-01-02" "2023-02-29"
  = Err (ParseError "2006-01-02" "2023-02-29").
Proof. reflexivity. Qed.

Example Parse_one_digit_hour :
  time.Parse "2006-01-02 15:04:05" "2023-09-08 9:30:00"
  = time.Parse "2006-01-02 15:04:05" "2023-09-08 09:30:00".
Proof. reflexivity. Qed.

Example Parse_minutes :
  time.Parse "2006-01-02 15:04" "2023-09-08 16:00"
  = Ok (time.Date 2023 9 8 16 0 0 0).
Proof. reflexivity. Qed.

(** ** The result monad *)

Lemma bind_Ok {A B} (r : result A) (k : A -> result B) (b : B) :
  bind r k = Ok b -> exists a, r = Ok a /\ k a = Ok b.
Proof. destruct r; simpl; intros; [eauto | discriminate | discriminate]. Qed.

Lemma bind_Panic {A B} (r : result A) (k : A -> result B) :
  isPanic (bind r k) = true ->
  isPanic r = true \/ exists a, r = Ok a /\ isPanic (k a) = true.
Proof. destruct r; simpl; intros; eauto; discriminate. Qed.

(** A loop whose body only appends: the state after the loop, when no
    iteration returned early. *)
Lemma forRange_app {K V S} (body : K -> V -> S -> result S)
    (m1 m2 : list (K * V)) (s : S) :
  forRange body (m1 ++ m2) s = bind (forRange body m1 s) (forRange body m2).
Proof.
  revert s; induction m1 as [|[k v] m1 IH]; intros s; simpl; [done|].
  destruct (body k v s); simpl; auto.
Qed.

Lemma forRange_skip {K V S} (body : K -> V -> S -> result S)
    (m : list (K * V)) (s : S) :
  Forall (fun kv => forall s, body kv.1 kv.2 s = Ok s) m ->
  forRange body m s = Ok s.
Proof.
  induction 1 as [|[k v] m Hkv _ IH]; simpl; [done|].
  simpl in Hkv. by rewrite Hkv.
Qed.

(** ** Sorting *)

Section Sorting.
Context {A : Type} (key : A -> time.Time).

Definition byKey : A -> A -> bool :=
  fun a b => time.Before (key a) (key b).

(** Adjacent entries are in non-decreasing order of their keys. *)
Definition nondecreasing (l : list A) : Prop :=
  forall (i : nat) (a b : A),
    l !! i = Some a -> l !! (S i) = Some b -> key a <= key b.

Lemma insert_perm (x : A) (l : list A) : sort.insert byKey x l ≡ₚ x :: l.
Proof.
  induction l as [|y l IH]; simpl; [done|].
  destruct (byKey y x); [|done].
  rewrite IH. apply Permutation_swap.
Qed.

Lemma SliceStable_perm (l : list A) : sort.SliceStable l byKey ≡ₚ l.
Proof.
  induction l as [|x l IH]; simpl; [done|].
  unfold sort.SliceStable in *. simpl. by rewrite insert_perm, IH.
Qed.

Lemma insert_sorted (x : A) (l : list A) :
  StronglySorted (fun a b => key a <= key b) l ->
  StronglySorted (fun a b => key a <= key b) (sort.insert byKey x l).
Proof.
  induction 1 as [|y l Hl IH Hy]; simpl.
  - repeat constructor.
  - unfold byKey at 1, time.Before. destruct (Z.ltb_spec (key y) (key x)).
    + constructor; [done|].
      rewrite insert_perm. constructor; [lia | done].
    + constructor; [by constructor|].
      constructor; [lia|].
      eapply Forall_impl; [exact Hy|]. simpl. intros; lia.
Qed.

Lemma SliceStable_sorted (l : list A) :
  StronglySorted (fun a b => key a <= key b) (sort.SliceStable l byKey).
Proof.
  induction l as [|x l IH]; [constructor|].
  unfold sort.SliceStable in *. simpl. by apply insert_sorted.
Qed.

(** Insertion keeps the entries of any one key in their order: the new
    entry moves only past entries with a strictly smaller key. *)
Lemma insert_stable (t : time.Time) (x : A) (l : list A) :
  filter (fun a => key a = t) (sort.insert byKey x l)
  = filter (fun a => key a = t) (x :: l).
Proof.
  induction l as [|y l IH]; simpl; [done|].
  unfold byKey at 1, time.Before. destruct (Z.ltb_spec (key y) (key x)); [|done].
  rewrite !filter_cons in *.
  destruct (decide (key y = t)), (decide (key x = t)); try lia;
    rewrite IH; done.
Qed.

Lemma SliceStable_stable (t : time.Time) (l : list A) :
  filter (fun a => key a = t) (sort.SliceStable l byKey)
  = filter (fun a => key a = t) l.
Proof.
  induction l as [|x l IH]; [done|].
  unfold sort.SliceStable in *. simpl.
  rewrite insert_stable, !filter_cons, IH. done.
Qed.

Lemma sorted_nondecreasing (l : list A) :
  StronglySorted (fun a b => key a <= key b) l -> nondecreasing l.
Proof.
  induction 1 as [|x l Hl IH Hx]; intros i a b Ha Hb; [done|].
  destruct i as [|i]; simpl in *.
  - injection Ha as <-. rewrite Forall_forall in Hx.
    apply Hx. eapply list_elem_of_lookup_2. exact Hb.
  - eauto.
Qed.

(** When no two entries share a key, the ordered arrangement is unique, so
    any correct sort is a stable one. *)
Lemma filter_perm_NoDup (t : time.Time) (l l' : list A) :
  l' ≡ₚ l -> NoDup (map key l) ->
  filter (fun a => key a = t) l' = filter (fun a => key a = t) l.
Proof.
  intros Hp Hnd.
  assert (Hlen : forall l0, NoDup (map key l0) ->
            (length (filter (fun a => key a = t) l0) <= 1)%nat).
  { induction l0 as [|x l0 IH]; simpl; intros Hn; [lia|].
    apply NoDup_cons in Hn as [Hx Hn]. rewrite filter_cons.
    destruct (decide (key x = t)) as [Hk|]; [|auto].
    simpl. assert (filter (fun a => key a = t) l0 = []) as ->; [|simpl; lia].
    destruct (filter (fun a => key a = t) l0) as [|y r] eqn:E; [done|].
    exfalso. assert (Hy : y ∈ filter (fun a => key a = t) l0)
      by (rewrite E; left).
    apply list_elem_of_filter in Hy as [Hyt Hy].
    apply Hx. rewrite Hk, <- Hyt. by apply list_elem_of_fmap_2. }
  assert (Hp' : filter (fun a => key a = t) l' ≡ₚ filter (fun a => key a = t) l)
    by (by rewrite Hp).
  pose proof (Hlen l Hnd) as H1.
  destruct (filter (fun a => key a = t) l) as [|x [|y r]] eqn:E; simpl in H1; try lia.
  - by apply Permutation_nil_r in Hp'.
  - by apply Permutation_singleton_r in Hp'.
Qed.

End Sorting.

(** ** The reference runtime keeps the promises *)

Lemma refRuntime_laws : RuntimeLaws refRuntime.
Proof.
  split.
  - intros V m. reflexivity.
  - intros A key x. apply SliceStable_perm.
  - intros A key x. apply SliceStable_sorted.
Qed.

Section RuntimeFacts.
Context {rt : Runtime} {laws : RuntimeLaws rt}.

Lemma mapiter_nil {V} : mapiter (V:=V) [] = [].
Proof. apply Permutation_nil_r, mapiter_perm. Qed.

Lemma mapiter_singleton {V} (kv : string * V) : mapiter [kv] = [kv].
Proof. apply Permutation_singleton_r, mapiter_perm. Qed.

Lemma sort_Slice_nil {A} (key : A -> time.Time) :
  sort_Slice [] (fun a b => time.Before (key a) (key b)) = [].
Proof. apply Permutation_nil_r, (sort_Slice_perm A key). Qed.

Lemma sort_Slice_singleton {A} (key : A -> time.Time) (a : A) :
  sort_Slice [a] (fun a b => time.Before (key a) (key b)) = [a].
Proof. apply Permutation_singleton_r, (sort_Slice_perm A key). Qed.

End RuntimeFacts.

(** ** The concrete daily payload (C9) *)

(** C9.  Decoding the daily payload with the single entry dated
    2023-09-08, open 330.00 and volume 1000000 succeeds, whatever the
    receiver held and whatever order the runtime picks: the result carries
    the six metadata fields of the payload and a series of exactly one bar,
    with timestamp 2023-09-08T00:00:00 UTC, Open 330 and Volume 1000000. *)
Theorem daily_scenario_decodes (rt : Runtime) (laws : RuntimeLaws rt) (ts : TimeSeriesDaily) :
  TimeSeriesDaily_UnmarshalJSON ts dailyPayload
  = Ok (TimeSeries.mk (dailyMetaData (TimeSeries.MetaData ts)) [dailyBar])
  /\ OHLCV.Timestamp dailyBar = time.Date 2023 9 8 0 0 0 0
  /\ OHLCV.Timestamp dailyBar = 1694131200 * 1000000000
  /\ OHLCV.Open dailyBar = Finite 330
  /\ OHLCV.Volume dailyBar = 1000000.
Proof.
  split; [|by repeat split].
  unfold TimeSeriesDaily_UnmarshalJSON, seriesUnmarshalJSON, seriesAppend.
  assert (unmarshalAux "Time Series (Daily)" ts dailyPayload
          = Ok (Some ([("2023-09-08", OHLCV.setTimestamp (OHLCV.Timestamp OHLCV.zero) dailyBar)],
                      TimeSeries.mk (dailyMetaData (TimeSeries.MetaData ts))
                        (TimeSeries.TimeSeries ts)))) as ->.
  { destruct ts as [[] ?]. reflexivity. }
  simpl. rewrite mapiter_singleton. simpl.
  rewrite (sort_Slice_singleton OHLCV.Timestamp). reflexivity.
Qed.

(** ** The decoders end with a sort *)

Section SortedResult.
Context {rt : Runtime} {laws : RuntimeLaws rt}.

Lemma intraday_result (t t' : TimeSeriesIntraday) (d : data) :
  TimeSeriesIntraday_UnmarshalJSON t d = Ok t' ->
  exists t1, intradayAppend t d = Ok t1
    /\ TimeSeries.MetaData t' = TimeSeries.MetaData t1
    /\ TimeSeries.TimeSeries t'
       = sort.SliceStable (TimeSeries.TimeSeries t1) (byKey OHLCV.Timestamp).
Proof.
  unfold TimeSeriesIntraday_UnmarshalJSON. intros H.
  apply bind_Ok in H as (t1 & H1 & H2). injection H2 as <-. eauto.
Qed.

Lemma indicator_result (i i' : IndicatorResponse.t) (d : data)
    (name : string) :
  UnmarshalIndicatorJSON i d name = Ok i' ->
  exists i1, indicatorAppend i d name = Ok i1
    /\ IndicatorResponse.MetaData i' = IndicatorResponse.MetaData i1
    /\ IndicatorResponse.IndicatorValues i'
       = sort.SliceStable (IndicatorResponse.IndicatorValues i1)
           (byKey IndicatorValue.Timestamp).
Proof.
  unfold UnmarshalIndicatorJSON. intros H.
  apply bind_Ok in H as (i1 & H1 & H2). injection H2 as <-. eauto.
Qed.

Lemma crypto_result (c c' : CryptoSeriesResponse.t) (d : data) :
  UnmarshalCryptoJSON c d = Ok c' ->
  exists c1, cryptoAppend c d = Ok c1
    /\ CryptoSeriesResponse.MetaData c' = CryptoSeriesResponse.MetaData c1
    /\ CryptoSeriesResponse.IntervalLabel c'
       = CryptoSeriesResponse.IntervalLabel c1
    /\ CryptoSeriesResponse.TimeSeries c'
       = sort.SliceStable (CryptoSeriesResponse.TimeSeries c1)
           (byKey CryptoTimeSeriesData.Timestamp).
Proof.
  unfold UnmarshalCryptoJSON. intros H.
  apply bind_Ok in H as (c1 & H1 & H2). injection H2 as <-. eauto.
Qed.

Lemma series_result {T} `{Bar T} (seriesKey : string)
    (ts ts' : TimeSeries.t T) (d : data) :
  seriesUnmarshalJSON seriesKey ts d = Ok ts' ->
  exists ts1, seriesAppend seriesKey ts d = Ok ts1
    /\ TimeSeries.MetaData ts' = TimeSeries.MetaData ts1
    /\ TimeSeries.TimeSeries ts'
       = sort_Slice (TimeSeries.TimeSeries ts1) (byKey barTimestamp).
Proof.
  unfold seriesUnmarshalJSON. intros H1.
  apply bind_Ok in H1 as (ts1 & H1 & H2). injection H2 as <-. eauto.
Qed.

End SortedResult.

(** ** Chronological order (C3) *)

(** C3.  Whenever a decode succeeds, the sequence of the result is in
    non-decreasing order of timestamp: each entry is at or before the entry
    that follows it.  This holds for the intraday decoder, for the six
    decoders with a fixed series key (any key, plain or adjusted bars), for
    the indicator decoder and for the crypto decoder, whatever the receiver
    held before the call. *)
Theorem decoded_sequence_nondecreasing (rt : Runtime) (laws : RuntimeLaws rt) :
  (forall (t t' : TimeSeriesIntraday) (d : data),
      TimeSeriesIntraday_UnmarshalJSON t d = Ok t' ->
      nondecreasing OHLCV.Timestamp (TimeSeries.TimeSeries t'))
  /\ (forall (T : Type) (B : Bar T) (seriesKey : string)
        (ts ts' : TimeSeries.t T) (d : data),
      seriesUnmarshalJSON seriesKey ts d = Ok ts' ->
      nondecreasing barTimestamp (TimeSeries.TimeSeries ts'))
  /\ (forall (i i' : IndicatorResponse.t) (d : data) (name : string),
      UnmarshalIndicatorJSON i d name = Ok i' ->
      nondecreasing IndicatorValue.Timestamp
        (IndicatorResponse.IndicatorValues i'))
  /\ (forall (c c' : CryptoSeriesResponse.t) (d : data),
      UnmarshalCryptoJSON c d = Ok c' ->
      nondecreasing CryptoTimeSeriesData.Timestamp
        (CryptoSeriesResponse.TimeSeries c')).
Proof.
  repeat split.
  - intros t t' d (t1 & _ & _ & ->)%intraday_result.
    apply sorted_nondecreasing, SliceStable_sorted.
  - intros T B seriesKey ts ts' d (ts1 & _ & _ & ->)%series_result.
    apply sorted_nondecreasing, sort_Slice_sorted.
  - intros i i' d name (i1 & _ & _ & ->)%indicator_result.
    apply sorted_nondecreasing, SliceStable_sorted.
  - intros c c' d (c1 & _ & _ & _ & ->)%crypto_result.
    apply sorted_nondecreasing, SliceStable_sorted.
Qed.

(** The six decoders with a fixed series key are instances of the second
    part. *)
Corollary daily_sequence_nondecreasing (rt : Runtime)
    (laws : RuntimeLaws rt) (ts ts' : TimeSeriesDaily) (d : data) :
  TimeSeriesDaily_UnmarshalJSON ts d = Ok ts' ->
  nondecreasing OHLCV.Timestamp (TimeSeries.TimeSeries ts').
Proof.
  intros Hd. apply series_result in Hd as (ts1 & _ & _ & ->).
  apply sorted_nondecreasing, (sort_Slice_sorted _ OHLCV.Timestamp).
Qed.

(** ** Calendar dates *)

Section Calendar.

(** A date as [time.Parse] accepts it for the layout [2006-01-02]. *)
Definition validDate (y m d : Z) : Prop :=
  1 <= m <= 12 /\ 1 <= d <= time.daysIn m y.

Lemma leapsBefore_succ (y : Z) :
  time.leapsBefore (y + 1)
  = time.leapsBefore y + (if time.isLeap y then 1 else 0).
Proof.
  unfold time.leapsBefore, time.isLeap.
  replace (y + 1 - 1) with y by lia.
  destruct (Z.eqb_spec (y mod 4) 0), (Z.eqb_spec (y mod 100) 0),
    (Z.eqb_spec (y mod 400) 0); simpl; Z.div_mod_to_equations; lia.
Qed.

Lemma leapsBefore_mono (y y' : Z) :
  y < y' -> 365 * y + time.leapsBefore y < 365 * y' + time.leapsBefore y'.
Proof. unfold time.leapsBefore. Z.div_mod_to_equations. lia. Qed.

(** The first day of a month comes after the last day of every earlier
    month of the year. *)
Lemma month_start_mono (y m m' : Z) :
  1 <= m -> m < m' -> m' <= 12 ->
  time.daysBefore m + (if time.isLeap y && (2 <? m) then 1 else 0)
    + time.daysIn m y
  <= time.daysBefore m' + (if time.isLeap y && (2 <? m') then 1 else 0).
Proof.
  intros Hm Hlt Hm'.
  assert (Hc : m = 1 \/ m = 2 \/ m = 3 \/ m = 4 \/ m = 5 \/ m = 6 \/ m = 7
               \/ m = 8 \/ m = 9 \/ m = 10 \/ m = 11) by lia.
  assert (Hc' : m' = 2 \/ m' = 3 \/ m' = 4 \/ m' = 5 \/ m' = 6 \/ m' = 7
                \/ m' = 8 \/ m' = 9 \/ m' = 10 \/ m' = 11 \/ m' = 12) by lia.
  unfold time.daysIn. destruct (time.isLeap y);
    repeat (destruct Hc as [-> | Hc]); try subst m;
    repeat (destruct Hc' as [-> | Hc']); try subst m';
    simpl; lia.
Qed.

Lemma daysSinceEpoch_lt_day (y m d d' : Z) :
  d < d' -> time.daysSinceEpoch y m d < time.daysSinceEpoch y m d'.
Proof. unfold time.daysSinceEpoch. lia. Qed.

Lemma daysSinceEpoch_lt_month (y m d m' d' : Z) :
  validDate y m d -> validDate y m' d' -> m < m' ->
  time.daysSinceEpoch y m d < time.daysSinceEpoch y m' d'.
Proof.
  intros [Hm Hd] [Hm' Hd'] Hlt. unfold time.daysSinceEpoch.
  pose proof (month_start_mono y m m' ltac:(lia) Hlt ltac:(lia)). lia.
Qed.

Lemma daysSinceEpoch_lt_year (y m d y' m' d' : Z) :
  validDate y m d -> validDate y' m' d' -> y < y' ->
  time.daysSinceEpoch y m d < time.daysSinceEpoch y' m' d'.
Proof.
  intros [Hm Hd] [Hm' Hd'] Hlt. unfold time.daysSinceEpoch.
  assert (Hend : time.daysBefore m
                 + (if time.isLeap y && (2 <? m) then 1 else 0) + d
                 <= 365 + (if time.isLeap y then 1 else 0)).
  { destruct (Z.eq_dec m 12) as [->|Hne].
    - unfold time.daysIn in Hd. simpl in *.
      destruct (time.isLeap y); simpl; lia.
    - pose proof (month_start_mono y m 12 ltac:(lia) ltac:(lia) ltac:(lia)) as H.
      simpl in H. destruct (time.isLeap y); simpl in *; lia. }
  assert (Hstart : 0 <= time.daysBefore m'
                        + (if time.isLeap y' && (2 <? m') then 1 else 0)).
  { assert (Hc' : m' = 1 \/ m' = 2 \/ m' = 3 \/ m' = 4 \/ m' = 5 \/ m' = 6
                  \/ m' = 7 \/ m' = 8 \/ m' = 9 \/ m' = 10 \/ m' = 11
                  \/ m' = 12) by lia.
    destruct (time.isLeap y');
      repeat (destruct Hc' as [-> | Hc']); try subst m'; simpl; lia. }
  pose proof (leapsBefore_succ y) as Hs.
  assert (Hmono : 365 * (y + 1) + time.leapsBefore (y + 1)
                  <= 365 * y' + time.leapsBefore y').
  { destruct (Z.eq_dec (y + 1) y') as [<-|]; [lia|].
    pose proof (leapsBefore_mono (y + 1) y' ltac:(lia)). lia. }
  lia.
Qed.

Lemma daysSinceEpoch_inj (y m d y' m' d' : Z) :
  validDate y m d -> validDate y' m' d' ->
  time.daysSinceEpoch y m d = time.daysSinceEpoch y' m' d' ->
  y = y' /\ m = m' /\ d = d'.
Proof.
  intros Hv Hv' Heq.
  destruct (Z.lt_trichotomy y y') as [Hy | [-> | Hy]].
  - pose proof (daysSinceEpoch_lt_year _ _ _ _ _ _ Hv Hv' Hy). lia.
  - destruct (Z.lt_trichotomy m m') as [Hm | [-> | Hm]].
    + pose proof (daysSinceEpoch_lt_month _ _ _ _ _ Hv Hv' Hm). lia.
    + destruct (Z.lt_trichotomy d d') as [Hd | [-> | Hd]]; [|done|].
      * pose proof (daysSinceEpoch_lt_day y' m' _ _ Hd). lia.
      * pose proof (daysSinceEpoch_lt_day y' m' _ _ Hd). lia.
    + pose proof (daysSinceEpoch_lt_month _ _ _ _ _ Hv' Hv Hm). lia.
  - pose proof (daysSinceEpoch_lt_year _ _ _ _ _ _ Hv' Hv Hy). lia.
Qed.

Lemma Date_inj (y m d y' m' d' : Z) :
  validDate y m d -> validDate y' m' d' ->
  time.Date y m d 0 0 0 0 = time.Date y' m' d' 0 0 0 0 ->
  y = y' /\ m = m' /\ d = d'.
Proof.
  intros Hv Hv' Heq. apply daysSinceEpoch_inj; [done..|].
  unfold time.Date in Heq. lia.
Qed.

End Calendar.

(** ** The date layout reads each date from one spelling only *)

Section DateLayout.

Lemma digit_inj (a b : ascii) : strconv.digit a = strconv.digit b -> a = b.
Proof.
  unfold strconv.digit. intros H.
  assert (Hn : nat_of_ascii a = nat_of_ascii b) by lia.
  rewrite <- (ascii_nat_embedding a), <- (ascii_nat_embedding b). by rewrite Hn.
Qed.

Lemma isDigit_range (c : ascii) :
  strconv.isDigit c = true -> 0 <= strconv.digit c <= 9.
Proof. unfold strconv.isDigit, strconv.digit. lia. Qed.

Lemma getyear_Some (s r : string) (y : Z) :
  time.getyear s = Some (y, r) ->
  exists a b c d,
    s = String a (String b (String c (String d r)))
    /\ Forall (fun c => strconv.isDigit c = true) [a; b; c; d]
    /\ y = ((strconv.digit a * 10 + strconv.digit b) * 10
            + strconv.digit c) * 10 + strconv.digit d.
Proof.
  destruct s as [|a [|b [|c [|d s]]]]; try discriminate. simpl.
  destruct (strconv.isDigit a) eqn:Ea, (strconv.isDigit b) eqn:Eb,
    (strconv.isDigit c) eqn:Ec, (strconv.isDigit d) eqn:Ed; try discriminate.
  simpl. intros [= <- <-]. exists a, b, c, d. repeat split; auto.
Qed.

Lemma getnum_fixed_Some (s r : string) (n : Z) :
  time.getnum s true = Some (n, r) ->
  exists a b,
    s = String a (String b r)
    /\ Forall (fun c => strconv.isDigit c = true) [a; b]
    /\ n = strconv.digit a * 10 + strconv.digit b.
Proof.
  destruct s as [|a [|b s]]; simpl; try discriminate.
  - destruct (strconv.isDigit a); discriminate.
  - destruct (strconv.isDigit a) eqn:Ea, (strconv.isDigit b) eqn:Eb;
      try discriminate.
    intros [= <- <-]. exists a, b. repeat split; auto.
Qed.

Lemma skip_hyphen_Some (s r : string) :
  time.skip "-" s = Some r -> s = String "-" r.
Proof.
  destruct s as [|c s]; [discriminate|].
  unfold time.skip. change (Ascii.eqb "-" " ") with false. cbv iota.
  destruct (Ascii.eqb_spec c "-") as [->|]; [|discriminate].
  by intros [= <-].
Qed.

(** [time.Parse] with the layout [2006-01-02], chunk by chunk. *)
Lemma Parse_date_unfold (s : string) :
  time.Parse "2006-01-02" s
  = match time.getyear s with
    | Some (y, v1) =>
        match time.skip "-" v1 with
        | Some v2 =>
            match time.getnum v2 true with
            | Some (m, v3) =>
                if (m <=? 0) || (12 <? m) then Err (ParseError "2006-01-02" s)
                else
                  match time.skip "-" v3 with
                  | Some v4 =>
                      match time.getnum v4 true with
                      | Some (d, EmptyString) =>
                          if (d <? 1) || (time.daysIn m y <? d)
                          then Err (ParseError "2006-01-02" s)
                          else Ok (time.Date y m d 0 0 0 0)
                      | _ => Err (ParseError "2006-01-02" s)
                      end
                  | None => Err (ParseError "2006-01-02" s)
                  end
            | None => Err (ParseError "2006-01-02" s)
            end
        | None => Err (ParseError "2006-01-02" s)
        end
    | None => Err (ParseError "2006-01-02" s)
    end.
Proof.
  unfold time.Parse. cbn [time.chunks time.parse].
  destruct (time.getyear s) as [[y v1]|]; [|done].
  destruct (time.skip "-" v1) as [v2|]; [|done].
  destruct (time.getnum v2 true) as [[m v3]|]; [|done].
  destruct ((m <=? 0) || (12 <? m)) eqn:Em; [done|].
  destruct (time.skip "-" v3) as [v4|]; [|done].
  destruct (time.getnum v4 true) as [[d [|c r]]|] eqn:Ed; [|done..].
  apply getnum_fixed_Some in Ed as (a & b & _ & Hab & ->).
  apply Forall_cons in Hab as [Ha%isDigit_range Hab].
  apply Forall_cons in Hab as [Hb%isDigit_range _].
  cbn.
  assert (Hm0 : (m <? 0) = false) by lia.
  assert (Hd0 : (strconv.digit a * 10 + strconv.digit b <? 0) = false) by lia.
  rewrite Hm0, Hd0. done.
Qed.



(** The value of a date key: ten characters, digits around two hyphens. *)
Definition dateOf (y1 y2 y3 y4 m1 m2 d1 d2 : ascii) : string :=
  String y1 (String y2 (String y3 (String y4 (String "-"
    (String m1 (String m2 (String "-" (String d1 (String d2 ""))))))))).

Lemma Parse_date_Ok (s : string) (t : time.Time) :
  time.Parse "2006-01-02" s = Ok t ->
  exists y1 y2 y3 y4 m1 m2 d1 d2 : ascii,
    s = dateOf y1 y2 y3 y4 m1 m2 d1 d2
    /\ Forall (fun c => strconv.isDigit c = true)
         [y1; y2; y3; y4; m1; m2; d1; d2]
    /\ validDate
         (((strconv.digit y1 * 10 + strconv.digit y2) * 10
           + strconv.digit y3) * 10 + strconv.digit y4)
         (strconv.digit m1 * 10 + strconv.digit m2)
         (strconv.digit d1 * 10 + strconv.digit d2)
    /\ t = time.Date
             (((strconv.digit y1 * 10 + strconv.digit y2) * 10
               + strconv.digit y3) * 10 + strconv.digit y4)
             (strconv.digit m1 * 10 + strconv.digit m2)
             (strconv.digit d1 * 10 + strconv.digit d2) 0 0 0 0.
Proof.
  rewrite Parse_date_unfold. intros H0.
  destruct (time.getyear s) as [[y v1]|] eqn:Ey; [|discriminate].
  destruct (time.skip "-" v1) as [v2|] eqn:E1; [|discriminate].
  destruct (time.getnum v2 true) as [[m v3]|] eqn:Em; [|discriminate].
  destruct ((m <=? 0) || (12 <? m)) eqn:Hm; [discriminate|].
  destruct (time.skip "-" v3) as [v4|] eqn:E2; [|discriminate].
  destruct (time.getnum v4 true) as [[d [|c r]]|] eqn:Ed; [|discriminate..].
  destruct ((d <? 1) || (time.daysIn m y <? d)) eqn:Hd; [discriminate|].
  injection H0 as <-.
  apply getyear_Some in Ey as (y1 & y2 & y3 & y4 & -> & Hy & ->).
  apply skip_hyphen_Some in E1 as ->.
  apply getnum_fixed_Some in Em as (m1 & m2 & -> & Hmd & ->).
  apply skip_hyphen_Some in E2 as ->.
  apply getnum_fixed_Some in Ed as (d1 & d2 & -> & Hdd & ->).
  exists y1, y2, y3, y4, m1, m2, d1, d2. split; [done|]. split.
  { inversion Hy as [|? ? ? Hy1]; inversion Hy1 as [|? ? ? Hy2];
      inversion Hy2 as [|? ? ? Hy3]; inversion Hy3; subst.
    inversion Hmd as [|? ? ? Hm1]; inversion Hm1; subst.
    inversion Hdd as [|? ? ? Hd1]; inversion Hd1; subst.
    repeat constructor; done. }
  split; [|done]. unfold validDate. lia.
Qed.

(** Two keys that [time.Parse] reads as the same date are the same key. *)
Lemma Parse_date_inj (s s' : string) (t : time.Time) :
  time.Parse "2006-01-02" s = Ok t ->
  time.Parse "2006-01-02" s' = Ok t ->
  s = s'.
Proof.
  intros (y1 & y2 & y3 & y4 & m1 & m2 & d1 & d2 & -> & Hdig & Hv & ->)
    %Parse_date_Ok
    (z1 & z2 & z3 & z4 & n1 & n2 & e1 & e2 & -> & Hdig' & Hv' & Ht)
    %Parse_date_Ok.
  apply Date_inj in Ht as (Hy & Hm & Hd); [|done..].
  repeat match goal with
         | H : Forall _ (_ :: _) |- _ =>
             apply Forall_cons in H as [?%isDigit_range H]
         end.
  unfold dateOf.
  assert (y1 = z1) as -> by (apply digit_inj; lia).
  assert (y2 = z2) as -> by (apply digit_inj; lia).
  assert (y3 = z3) as -> by (apply digit_inj; lia).
  assert (y4 = z4) as -> by (apply digit_inj; lia).
  assert (m1 = n1) as -> by (apply digit_inj; lia).
  assert (m2 = n2) as -> by (apply digit_inj; lia).
  assert (d1 = e1) as -> by (apply digit_inj; lia).
  assert (d2 = e2) as -> by (apply digit_inj; lia).
  done.
Qed.

End DateLayout.

(** ** Maps keep their keys apart *)

Section Maps.
Context {V : Type}.
Implicit Types m : list (string * V).

Lemma keys_mapset m (k : string) (v : V) :
  keys (mapset m k v) = if decide (k ∈ keys m) then keys m else (keys m ++ [k])%list.
Proof.
  unfold keys. induction m as [|[k' v'] m IH].
  - rewrite decide_False; [done | apply not_elem_of_nil].
  - cbn [mapset]. destruct (String.eqb_spec k' k) as [->|Hne].
    + rewrite decide_True; [done | left].
    + cbn [map fst]. rewrite IH. case_decide as Hin.
      * rewrite decide_True; [done | by right].
      * rewrite decide_False; [done|].
        intros [?|?]%elem_of_cons; [congruence | done].
Qed.

Lemma NoDup_mapset m (k : string) (v : V) :
  NoDup (keys m) -> NoDup (keys (mapset m k v)).
Proof.
  intros Hnd. rewrite keys_mapset. case_decide; [done|].
  apply NoDup_app. split; [done|]. split; [|apply NoDup_singleton].
  intros x Hx ->%list_elem_of_singleton. done.
Qed.

Lemma mapget_None m (k : string) : mapget m k = None <-> k ∉ keys m.
Proof.
  induction m as [|[k' v'] m IH]; simpl.
  - split; [intros _; apply not_elem_of_nil | done].
  - destruct (String.eqb_spec k' k) as [->|Hne].
    + split; [discriminate | intros []; left].
    + rewrite IH. split.
      * intros Hnin [?|?]%elem_of_cons; [congruence | done].
      * intros Hnin Hin. apply Hnin. by right.
Qed.

Lemma mapget_mapset m (k k' : string) (v : V) :
  mapget (mapset m k v) k' = if String.eqb k k' then Some v else mapget m k'.
Proof.
  induction m as [|[k0 v0] m IH]; simpl; [done|].
  destruct (String.eqb_spec k0 k) as [->|Hne]; simpl.
  - destruct (String.eqb_spec k k'); done.
  - rewrite IH. destruct (String.eqb_spec k0 k') as [->|];
      destruct (String.eqb_spec k k') as [->|]; done.
Qed.

End Maps.

Lemma forRange_inv {K V S} (P : S -> Prop) (body : K -> V -> S -> result S)
    (m : list (K * V)) (s s' : S) :
  (forall k v s s', body k v s = Ok s' -> P s -> P s') ->
  forRange body m s = Ok s' -> P s -> P s'.
Proof.
  intros Hbody. revert s. induction m as [|[k v] m IH]; simpl; intros s.
  - by intros [= <-].
  - intros (s1 & H1 & H2)%bind_Ok Hs. eauto.
Qed.

Lemma json_map_NoDup {E} (elem : JSON -> E -> result E) (zero : E)
    (v : JSON) (m m' : list (string * E)) :
  json.map_ elem zero v m = Ok m' -> NoDup (keys m) -> NoDup (keys m').
Proof.
  destruct v; simpl; try discriminate.
  - intros [= <-] _. constructor.
  - apply (forRange_inv (fun m => NoDup (keys m))).
    intros k x s s' (e & _ & [= <-])%bind_Ok. apply NoDup_mapset.
Qed.

(** ** Stability of the final sort (C5) *)

Section Stability.
Context {rt : Runtime} {laws : RuntimeLaws rt}.

Lemma seriesAux_NoDup {T} `{Bar T} (seriesKey : string)
    (ts ts0 : TimeSeries.t T) (d : data) (raw : list (string * T)) :
  unmarshalAux seriesKey ts d = Ok (Some (raw, ts0)) -> NoDup (keys raw).
Proof.
  unfold unmarshalAux. destruct d as [|v]; [discriminate|].
  assert (Hstruct : forall aux,
    json.struct (auxField seriesKey) v ([], ts) = Ok aux -> NoDup (keys aux.1)).
  { intros aux. destruct v; simpl; try discriminate.
    - by intros [= <-]; constructor.
    - intros Hloop.
      eapply (forRange_inv (fun aux => NoDup (keys aux.1))); [|exact Hloop|constructor].
      intros k x [m0 t0] s'. unfold auxField. simpl.
      destruct (json.equalFold seriesKey k).
      + intros (m1 & Hm & [= <-])%bind_Ok. simpl. eapply json_map_NoDup, Hm.
      + destruct (json.equalFold "Meta Data" k).
        * by intros (m1 & _ & [= <-])%bind_Ok.
        * by intros [= <-]. }
  destruct v; try discriminate;
    intros (aux & Haux & [= ->])%bind_Ok; apply (Hstruct _ Haux).
Qed.

(** The conversion loop appends one bar per entry of the map, stamped with
    the date its key spells. *)
Lemma seriesEntry_loop {T} `{Bar T} (l : list (string * T))
    (ts ts1 : TimeSeries.t T) :
  forRange seriesEntry l ts = Ok ts1 ->
  TimeSeries.MetaData ts1 = TimeSeries.MetaData ts
  /\ exists new,
      TimeSeries.TimeSeries ts1 = (TimeSeries.TimeSeries ts ++ new)%list
      /\ Forall2 (fun kv o =>
                    time.Parse "2006-01-02" kv.1 = Ok (barTimestamp o)) l new.
Proof.
  revert ts. induction l as [|[k o] l IH]; simpl; intros ts.
  - intros [= <-]. split; [done|]. exists []. by rewrite app_nil_r.
  - intros (s1 & H1 & H2)%bind_Ok. unfold seriesEntry in H1.
    apply bind_Ok in H1 as (t & Ht & [= <-]).
    apply IH in H2 as (Hmd & new & Hts & Hall). simpl in *.
    split; [done|]. exists (barSetTimestamp t o :: new).
    rewrite Hts, <- app_assoc. split; [done|].
    constructor; [|done]. simpl. by rewrite barTimestamp_set.
Qed.

Lemma parsed_keys_NoDup {T} `{Bar T} (l : list (string * T)) (new : list T) :
  Forall2 (fun kv o => time.Parse "2006-01-02" kv.1 = Ok (barTimestamp o))
    l new ->
  NoDup (keys l) -> NoDup (map barTimestamp new).
Proof.
  induction 1 as [|[k o] b l new Hkb Hall IH]; simpl; [constructor|].
  intros [Hk Hnd]%NoDup_cons. apply NoDup_cons. split; [|auto].
  intros Hin. apply Hk. clear IH Hnd Hk.
  induction Hall as [|[k' o'] b' l new Hkb' Hall IH]; simpl in *.
  - by apply elem_of_nil in Hin.
  - apply elem_of_cons in Hin as [Heq|Hin].
    + rewrite <- Heq in Hkb'. rewrite (Parse_date_inj _ _ _ Hkb Hkb'). left.
    + right. auto.
Qed.

(** The bars a fixed-key decoder appends carry pairwise distinct
    timestamps. *)
Lemma seriesAppend_NoDup {T} `{Bar T} (seriesKey : string)
    (ts ts1 : TimeSeries.t T) (d : data) :
  seriesAppend seriesKey ts d = Ok ts1 ->
  NoDup (map barTimestamp (TimeSeries.TimeSeries ts1)).
Proof.
  unfold seriesAppend.
  intros ([[raw ts0]|] & Haux & Hloop)%bind_Ok; [|discriminate].
  apply seriesAux_NoDup in Haux.
  apply seriesEntry_loop in Hloop as (_ & new & -> & Hall). simpl.
  eapply parsed_keys_NoDup; [exact Hall|].
  unfold keys. rewrite (mapiter_perm _ raw). exact Haux.
Qed.

End Stability.

(** C5.  The final sort of every time-series decode is stable: in the
    decoded sequence the entries of any one timestamp stand in the order in
    which the decoder appended them.  For the intraday decoder this is the
    stable sort at work, and it decides the order where two keys of the
    payload are read as one time.  For the six decoders with a fixed series
    key the sort carries no such promise, but the date keys of a map are
    distinct and the date layout reads distinct keys as distinct days: no
    two appended bars share a timestamp, so there is no tie whose order the
    sort could change. *)
Theorem final_sort_stable (rt : Runtime) (laws : RuntimeLaws rt) :
  (forall (t t' : TimeSeriesIntraday) (d : data),
      TimeSeriesIntraday_UnmarshalJSON t d = Ok t' ->
      exists t1, intradayAppend t d = Ok t1
        /\ forall ts : time.Time,
             filter (fun o => OHLCV.Timestamp o = ts) (TimeSeries.TimeSeries t')
             = filter (fun o => OHLCV.Timestamp o = ts)
                 (TimeSeries.TimeSeries t1))
  /\ (forall (T : Type) (B : Bar T) (seriesKey : string)
        (ts ts' : TimeSeries.t T) (d : data),
      seriesUnmarshalJSON seriesKey ts d = Ok ts' ->
      exists ts1, seriesAppend seriesKey ts d = Ok ts1
        /\ NoDup (map barTimestamp (TimeSeries.TimeSeries ts1))
        /\ forall t : time.Time,
             filter (fun o => barTimestamp o = t) (TimeSeries.TimeSeries ts')
             = filter (fun o => barTimestamp o = t)
                 (TimeSeries.TimeSeries ts1)).
Proof.
  split.
  - intros t t' d (t1 & Happ & _ & ->)%intraday_result.
    exists t1. split; [done|]. intros ts. apply SliceStable_stable.
  - intros T B seriesKey ts ts' d (ts1 & Happ & _ & ->)%series_result.
    pose proof (seriesAppend_NoDup _ _ _ _ Happ) as Hnd.
    exists ts1. split; [done|]. split; [done|]. intros t.
    by apply filter_perm_NoDup; [apply sort_Slice_perm|].
Qed.

(** ** Where the decoders can panic *)

Section Panics.
Context {rt : Runtime}.

Lemma forRange_noPanic {K V S} (body : K -> V -> S -> result S)
    (m : list (K * V)) (s : S) :
  (forall k v s, isPanic (body k v s) = false) ->
  isPanic (forRange body m s) = false.
Proof.
  intros Hbody. revert s. induction m as [|[k v] m IH]; simpl; intros s; [done|].
  specialize (Hbody k v s). destruct (body k v s); simpl; auto.
Qed.

Lemma Parse_noPanic (layout value : string) :
  isPanic (time.Parse layout value) = false.
Proof. unfold time.Parse. repeat case_match; done. Qed.

Lemma UnmarshalMap_noPanic (d : data) : isPanic (json.UnmarshalMap d) = false.
Proof. unfold json.UnmarshalMap. repeat case_match; done. Qed.

Lemma quotedFloat64_noPanic (v : JSON) (old : float64) :
  isPanic (json.quotedFloat64 v old) = false.
Proof. unfold json.quotedFloat64. repeat case_match; done. Qed.

Lemma quotedInt_noPanic (v : JSON) (old : Z) :
  isPanic (json.quotedInt v old) = false.
Proof. unfold json.quotedInt. repeat case_match; done. Qed.

Lemma OHLCV_field_noPanic (key : string) (v : JSON) (o : OHLCV.t) :
  isPanic (OHLCV_field key v o) = false.
Proof.
  unfold OHLCV_field.
  repeat case_match; try done;
    match goal with
    | |- context [json.quotedFloat64 ?v ?old] =>
        pose proof (quotedFloat64_noPanic v old);
        destruct (json.quotedFloat64 v old); done
    | |- context [json.quotedInt ?v ?old] =>
        pose proof (quotedInt_noPanic v old);
        destruct (json.quotedInt v old); done
    end.
Qed.

Lemma intradayEntry_noPanic (k : string) (v : any) (t : TimeSeriesIntraday) :
  isPanic (intradayEntry k v t) = false.
Proof.
  unfold intradayEntry.
  pose proof (Parse_noPanic "2006-01-02 15:04:05" k) as Hp.
  destruct (time.Parse "2006-01-02 15:04:05" k) as [ts| |]; try done. simpl.
  set (o := OHLCV.setTimestamp ts OHLCV.zero).
  assert (Hs : isPanic (json.struct OHLCV_field (json.Marshal v) o) = false).
  { unfold json.struct. destruct (json.Marshal v); try done.
    apply forRange_noPanic, OHLCV_field_noPanic. }
  destruct (json.struct OHLCV_field (json.Marshal v) o); done.
Qed.

Lemma intradaySeries_noPanic (key : string) (value : any)
    (t : TimeSeriesIntraday) :
  isPanic (intradaySeries key value t) = false.
Proof.
  unfold intradaySeries. destruct (String.prefix _ _); [|done].
  destruct value; try done. apply forRange_noPanic, intradayEntry_noPanic.
Qed.

(** The metadata statements panic exactly when one of the six keys does
    not hold a string. *)
Lemma intradayMetaData_panics (metaData : list (string * any))
    (m : TimeSeriesMetaData.t) :
  isPanic (intradayMetaData metaData m) = true
  <-> exists key, key ∈ intradayMetaDataKeys
        /\ isString (index metaData key) = false.
Proof.
  unfold intradayMetaData, intradayMetaDataKeys.
  split.
  - intros Hp.
    destruct (index metaData "1. Information") eqn:E1;
      try (exists "1. Information"; rewrite E1; split; [set_solver|done]).
    destruct (index metaData "2. Symbol") eqn:E2;
      try (exists "2. Symbol"; rewrite E2; split; [set_solver|done]).
    destruct (index metaData "3. Last Refreshed") eqn:E3;
      try (exists "3. Last Refreshed"; rewrite E3; split; [set_solver|done]).
    destruct (index metaData "4. Interval") eqn:E4;
      try (exists "4. Interval"; rewrite E4; split; [set_solver|done]).
    destruct (index metaData "5. Output Size") eqn:E5;
      try (exists "5. Output Size"; rewrite E5; split; [set_solver|done]).
    destruct (index metaData "6. Time Zone") eqn:E6;
      try (exists "6. Time Zone"; rewrite E6; split; [set_solver|done]).
    all: discriminate Hp.
  - intros (key & Hin & Hns).
    repeat (apply elem_of_cons in Hin as [->|Hin]);
      [..|by apply elem_of_nil in Hin];
      repeat match goal with
             | |- context [assertString ?x] =>
                 destruct x; simpl in *; try done
             end.
Qed.

End Panics.

(** ** Panics of the intraday decoder (C10) *)

(** C10.  The intraday decoder panics exactly on the payloads that carry a
    ["Meta Data"] object in which one of the six keys ["1. Information"],
    ["2. Symbol"], ["3. Last Refreshed"], ["4. Interval"],
    ["5. Output Size"], ["6. Time Zone"] is missing or holds a value that is
    not a string: there the unchecked type assertion unwinds the call and
    no error is returned; on every other payload the call returns. *)
Theorem intraday_panics_on_incomplete_metadata (rt : Runtime)
    (t : TimeSeriesIntraday) (d : data) :
  isPanic (TimeSeriesIntraday_UnmarshalJSON t d) = true
  <-> exists raw metaData,
        json.UnmarshalMap d = Ok raw
        /\ index raw "Meta Data" = amap metaData
        /\ exists key, key ∈ intradayMetaDataKeys
             /\ isString (index metaData key) = false.
Proof.
  unfold TimeSeriesIntraday_UnmarshalJSON, intradayAppend.
  pose proof (UnmarshalMap_noPanic d) as Hnp.
  destruct (json.UnmarshalMap d) as [raw| |] eqn:Hraw; simpl; [| |done].
  2: split; [intros [=] | intros (? & ? & [=] & _)].
  assert (Hloop : forall t0,
    isPanic (t1 <- forRange intradaySeries (mapiter raw) t0 ;;
             Ok (TimeSeries.setTimeSeries
                   (sort.SliceStable (TimeSeries.TimeSeries t1)
                      (fun a b => time.Before (OHLCV.Timestamp a)
                                    (OHLCV.Timestamp b))) t1)) = false).
  { intros t0.
    pose proof (forRange_noPanic intradaySeries (mapiter raw) t0
                  intradaySeries_noPanic) as Hn.
    destruct (forRange intradaySeries (mapiter raw) t0); done. }
  destruct (index raw "Meta Data") as [| | | | |metaData] eqn:Hmd; simpl;
    try (rewrite Hloop; split; [intros [=]|];
         intros (? & ? & [= <-] & ? & _); congruence).
  pose proof (intradayMetaData_panics metaData (TimeSeries.MetaData t)) as Hiff.
  destruct (intradayMetaData metaData (TimeSeries.MetaData t)) as [m| |] eqn:Hm;
    simpl in *.
  - rewrite Hloop. split; [intros [=]|].
    intros (raw' & md' & [= <-] & Hmd' & Hkey).
    rewrite Hmd in Hmd'. injection Hmd' as <-. by apply Hiff in Hkey.
  - split; [intros [=]|].
    intros (raw' & md' & [= <-] & Hmd' & Hkey).
    rewrite Hmd in Hmd'. injection Hmd' as <-. by apply Hiff in Hkey.
  - split; [|done]. intros _. exists raw, metaData.
    split; [done|]. split; [done|]. by apply Hiff.
Qed.

(** ** Payloads without the expected key (C1) *)

Section MissingKey.
Context {rt : Runtime} {laws : RuntimeLaws rt}.




Lemma mapiter_keys {V} (m : list (string * V)) (k : string) :
  k ∈ keys (mapiter m) <-> k ∈ keys m.
Proof. unfold keys. by rewrite (mapiter_perm V m). Qed.

(** A loop over the top-level keys does nothing when no key passes its
    test. *)
Lemma forRange_mapiter_skip {V S} (body : string -> V -> S -> result S)
    (m : list (string * V)) (s : S) :
  (forall k v s, k ∈ keys m -> body k v s = Ok s) ->
  forRange body (mapiter m) s = Ok s.
Proof.
  intros Hbody. apply forRange_skip, Forall_forall. intros [k v] Hin s0.
  apply Hbody, mapiter_keys. by apply (list_elem_of_fmap_2 fst) in Hin.
Qed.

Lemma forRange_noErr {K V S} (body : K -> V -> S -> result S)
    (m : list (K * V)) (s : S) :
  (forall k v s, isErr (body k v s) = false) ->
  isErr (forRange body m s) = false.
Proof.
  intros Hbody. revert s. induction m as [|[k v] m IH]; simpl; intros s; [done|].
  specialize (Hbody k v s). destruct (body k v s); simpl; auto.
Qed.

Lemma extractMetaData_noErr (rawData : list (string * any)) :
  isErr (extractMetaData rawData) = false.
Proof.
  apply forRange_noErr. intros k v s. unfold extractMetaDataCase.
  repeat case_match; try done; destruct v; done.
Qed.

End MissingKey.


(** ** Values decoded by [encoding/json] have key-unique maps *)

Section JSONInduction.
Variable P : JSON -> Prop.
Hypothesis Hnull : P JNull.
Hypothesis Hbool : forall b, P (JBool b).
Hypothesis Hnumber : forall f, P (JNumber f).
Hypothesis Hstring : forall s, P (JString s).
Hypothesis Harray : forall items, Forall P items -> P (JArray items).
Hypothesis Hobject :
  forall members, Forall (fun kv => P kv.2) members -> P (JObject members).

Fixpoint JSON_nested_ind (v : JSON) : P v :=
  match v with
  | JNull => Hnull
  | JBool b => Hbool b
  | JNumber f => Hnumber f
  | JString s => Hstring s
  | JArray items =>
      Harray items
        ((fix go (l : list JSON) : Forall P l :=
            match l with
            | [] => @List.Forall_nil _ P
            | x :: l' => @List.Forall_cons _ P x l' (JSON_nested_ind x) (go l')
            end) items)
  | JObject members =>
      Hobject members
        ((fix go (l : list (string * JSON)) : Forall (fun kv => P kv.2) l :=
            match l with
            | [] => @List.Forall_nil _ (fun kv => P kv.2)
            | kv :: l' =>
                @List.Forall_cons _ (fun kv => P kv.2) kv l'
                  (match kv as kv0 return P kv0.2 with
                   | (_, x) => JSON_nested_ind x
                   end)
                  (go l')
            end) members)
  end.

End JSONInduction.

Lemma uniqueKeys_aslice (items : list any) :
  uniqueKeys (aslice items) <-> Forall uniqueKeys items.
Proof.
  simpl. induction items as [|y items IH]; [by split; [constructor|]|].
  rewrite Forall_cons, IH. done.
Qed.

Lemma uniqueKeys_amap (m : list (string * any)) :
  uniqueKeys (amap m)
  <-> NoDup (keys m) /\ Forall (fun kv => uniqueKeys kv.2) m.
Proof.
  simpl. apply and_iff_compat_l.
  induction m as [|[k y] m IH]; [by split; [constructor|]|].
  rewrite Forall_cons, IH. done.
Qed.

Lemma Forall_mapset {V} (Q : V -> Prop) (m : list (string * V))
    (k : string) (v : V) :
  Forall (fun kv => Q kv.2) m -> Q v ->
  Forall (fun kv => Q kv.2) (mapset m k v).
Proof.
  intros Hm Hv. induction Hm as [|[k' v'] m Hkv Hm IH]; simpl.
  - by repeat constructor.
  - destruct (String.eqb k' k); constructor; done.
Qed.

Lemma toAny_uniqueKeys (v : JSON) : uniqueKeys (json.toAny v).
Proof.
  induction v as [| | | |items IH|members IH] using JSON_nested_ind;
    try exact I.
  - change (uniqueKeys (aslice (map json.toAny items))).
    apply uniqueKeys_aslice, Forall_fmap. exact IH.
  - cbn [json.toAny].
    assert (Hacc : forall acc : list (string * any),
              NoDup (keys acc) /\ Forall (fun kv => uniqueKeys kv.2) acc ->
              uniqueKeys
                (amap (fold_left
                         (fun (m : list (string * any)) (kv : string * JSON) =>
                            let (k, x) := kv in mapset m k (json.toAny x))
                         members acc))).
    { induction IH as [|[k x] members Hx _ IHm]; intros acc Hacc.
      - by apply uniqueKeys_amap.
      - simpl. apply IHm. destruct Hacc as [Hnd Hall].
        split; [by apply NoDup_mapset | by apply Forall_mapset]. }
    apply Hacc. split; constructor.
Qed.

Lemma UnmarshalMap_uniqueKeys (d : data) (raw : list (string * any)) :
  json.UnmarshalMap d = Ok raw -> uniqueKeys (amap raw).
Proof.
  destruct d as [|v]; [discriminate|].
  destruct v; try discriminate.
  - intros [= <-]. apply uniqueKeys_amap. split; constructor.
  - unfold json.UnmarshalMap.
    pose proof (toAny_uniqueKeys (JObject members)) as Hu.
    destruct (json.toAny (JObject members)); try discriminate.
    by intros [= <-].
Qed.

Lemma uniqueKeys_index (m : list (string * any)) (k : string) :
  uniqueKeys (amap m) -> uniqueKeys (index m k).
Proof.
  intros [_ Hall]%uniqueKeys_amap. unfold index.
  induction Hall as [|[k' x] m Hx _ IH]; simpl; [done|].
  destruct (String.eqb k' k); done.
Qed.

(** ** The open set of indicator sub-fields (C8) *)

Section SubFields.
Context {rt : Runtime} {laws : RuntimeLaws rt}.

Lemma stringSubFields_perm (l l' : list (string * any)) :
  l ≡ₚ l' -> stringSubFields l ≡ₚ stringSubFields l'.
Proof.
  induction 1 as [|[k x] l l' _ IH|[k x] [k' x'] l|l l' l'' _ IH _ IH'].
  - done.
  - destruct x; simpl; by rewrite ?IH.
  - destruct x, x'; simpl; try done. apply Permutation_swap.
  - by rewrite IH.
Qed.

Lemma stringSubFields_sub (l : list (string * any)) (k : string) :
  k ∈ stringSubFields l -> k ∈ keys l.
Proof.
  induction l as [|[k' x] l IH]; simpl; [done|].
  destruct x; simpl; set_solver.
Qed.

Lemma stringSubFields_NoDup (l : list (string * any)) :
  NoDup (keys l) -> NoDup (stringSubFields l).
Proof.
  induction l as [|[k x] l IH]; simpl; [done|].
  intros [Hk Hnd]%NoDup_cons. destruct x; auto.
  apply NoDup_cons. split; [|auto].
  intros Hin. by apply Hk, stringSubFields_sub.
Qed.

(** The innermost loop stores exactly the string-valued sub-fields. *)
Lemma indicatorValue_loop (l : list (string * any))
    (acc vm : gmap string float64) :
  forRange indicatorValue l acc = Ok vm ->
  dom vm = dom acc ∪ list_to_set (stringSubFields l).
Proof.
  revert acc. induction l as [|[k x] l IH]; simpl; intros acc.
  - intros [= <-]. set_solver.
  - intros (acc1 & H1 & H2)%bind_Ok. apply IH in H2 as ->.
    unfold indicatorValue in H1. destruct x; try (injection H1 as <-; done).
    destruct (strconv.ParseFloat s) as [f [e|]]; [discriminate|].
    injection H1 as <-. rewrite dom_insert_L. simpl. set_solver.
Qed.

Lemma indicatorValues_of (indicatorData : list (string * any))
    (vm : gmap string float64) :
  NoDup (keys indicatorData) ->
  forRange indicatorValue (mapiter indicatorData) ∅ = Ok vm ->
  dom vm = list_to_set (stringSubFields indicatorData)
  /\ size vm = length (stringSubFields indicatorData).
Proof.
  intros Hnd Hloop. apply indicatorValue_loop in Hloop.
  rewrite dom_empty_L, (left_id_L ∅ (∪)) in Hloop.
  assert (Hp : stringSubFields (mapiter indicatorData)
               ≡ₚ stringSubFields indicatorData)
    by apply stringSubFields_perm, mapiter_perm.
  assert (Hdom : dom vm = list_to_set (stringSubFields indicatorData)).
  { rewrite Hloop. apply set_eq. intros k.
    rewrite !elem_of_list_to_set. by rewrite Hp. }
  split; [done|].
  rewrite <- size_dom, Hdom.
  rewrite size_list_to_set; [done|]. by apply stringSubFields_NoDup.
Qed.

Lemma indicatorEntry_loop (l : list (string * any))
    (i i1 : IndicatorResponse.t) :
  Forall (fun kv => uniqueKeys kv.2) l ->
  forRange indicatorEntry l i = Ok i1 ->
  IndicatorResponse.MetaData i1 = IndicatorResponse.MetaData i
  /\ exists new,
      IndicatorResponse.IndicatorValues i1
      = (IndicatorResponse.IndicatorValues i ++ new)%list
      /\ Forall2 decodedFrom l new.
Proof.
  intros Hwf. revert i.
  induction Hwf as [|[k x] l Hx _ IH]; simpl; intros i.
  - intros [= <-]. split; [done|]. exists []. by rewrite app_nil_r.
  - intros (i0 & H1 & H2)%bind_Ok. unfold indicatorEntry in H1.
    apply bind_Ok in H1 as (ts & Hts & H1).
    destruct x as [| | | | |indicatorData]; try discriminate.
    apply bind_Ok in H1 as (vm & Hvm & [= <-]).
    apply IH in H2 as (Hmd & new & Hnew & Hall). simpl in *.
    split; [done|]. exists (IndicatorValue.mk ts vm :: new).
    rewrite Hnew, <- app_assoc. split; [done|].
    constructor; [|done]. exists indicatorData. simpl.
    apply uniqueKeys_amap in Hx as [Hnd _].
    destruct (indicatorValues_of _ _ Hnd Hvm). done.
Qed.

End SubFields.

(** C8, as the code has it.  The indicator decoder has no schema of
    sub-fields: for every timestamp of the value block it appends one
    entry whose [Values] hold exactly the sub-fields of that timestamp's
    object whose value is a JSON string, each under its own name; a
    sub-field with any other value is passed over.  So an object with one
    string-valued sub-field gives a map of one entry, an object with three
    gives a map of three.  The decoded sequence is the entries the receiver
    held together with these new ones. *)
Theorem indicator_values_follow_payload (rt : Runtime)
    (laws : RuntimeLaws rt) (i i' : IndicatorResponse.t) (d : data) (indicatorName : string)
    (raw tsData : list (string * any)) :
  json.UnmarshalMap d = Ok raw ->
  index raw (String.append "Technical Analysis: " indicatorName)
  = amap tsData ->
  UnmarshalIndicatorJSON i d indicatorName = Ok i' ->
  exists new,
    IndicatorResponse.IndicatorValues i'
    ≡ₚ (IndicatorResponse.IndicatorValues i ++ new)%list
    /\ Forall2 decodedFrom (mapiter tsData) new.
Proof.
  intros Hraw Hts (i1 & Happ & _ & ->)%indicator_result.
  unfold indicatorAppend in Happ. rewrite Hraw in Happ. simpl in Happ.
  apply bind_Ok in Happ as (i0 & Hmd & Hloop).
  assert (Hi0 : IndicatorResponse.IndicatorValues i0
                = IndicatorResponse.IndicatorValues i).
  { destruct (index raw "Meta Data"); try (by injection Hmd as <-).
    by apply bind_Ok in Hmd as (m0 & _ & [= <-]). }
  rewrite Hts in Hloop.
  apply indicatorEntry_loop in Hloop as (_ & new & Hnew & Hall).
  - exists new. split; [|done].
    rewrite SliceStable_perm, Hnew, Hi0. done.
  - apply UnmarshalMap_uniqueKeys in Hraw.
    apply (uniqueKeys_index _ (String.append "Technical Analysis: "
                                 indicatorName)) in Hraw.
    rewrite Hts in Hraw. apply uniqueKeys_amap in Hraw as [_ Hall].
    apply Forall_forall. intros kv Hkv. rewrite Forall_forall in Hall.
    apply Hall. by rewrite <- (mapiter_perm _ tsData).
Qed.

(** ** The scenarios, decoded *)

Example intraday_scenario :
  TimeSeriesIntraday_UnmarshalJSON (rt:=refRuntime) TimeSeries.zero
    intradayPayload = Ok intradayDecoded.
Proof. vm_compute. reflexivity. Qed.

Example sma_scenario :
  UnmarshalIndicatorJSON (rt:=refRuntime) IndicatorResponse.zero smaPayload
    "SMA" = Ok smaDecoded
  /\ Forall (fun v => size (IndicatorValue.Values v) = 1%nat)
       (IndicatorResponse.IndicatorValues smaDecoded).
Proof. split; [vm_compute; reflexivity | repeat constructor]. Qed.

Example bbands_scenario :
  UnmarshalIndicatorJSON (rt:=refRuntime) IndicatorResponse.zero bbandsPayload
    "BBANDS" = Ok bbandsDecoded
  /\ Forall (fun v => size (IndicatorValue.Values v) = 3%nat)
       (IndicatorResponse.IndicatorValues bbandsDecoded).
Proof. split; [vm_compute; reflexivity | repeat constructor]. Qed.

Example quote_scenario :
  Quote_UnmarshalJSON (rt:=refRuntime) Quote.zero (quotePayload "334.00")
  = Ok (Quote.mk "MSFT" (Finite 330) (Finite 335) (Finite 329) (Finite 334)
          1000000 (time.Date 2023 9 8 0 0 0 0) (Finite 331) (Finite 3)
          "0.9063%").
Proof. vm_compute. reflexivity. Qed.

(** Two dated entries come out in chronological order; a quoted field that
    is no number fails the decode; incomplete metadata makes the intraday
    decoder panic. *)
Example daily_two_entries_scenario :
  TimeSeriesDaily_UnmarshalJSON (rt:=refRuntime) TimeSeries.zero dailyPayloadTwo
  = Ok (TimeSeries.mk TimeSeriesMetaData.zero
          [OHLCV.mk (time.Date 2023 9 7 0 0 0 0) (Finite 328) (Finite 335)
             (Finite 329) (Finite 334) 1000000;
           OHLCV.mk (time.Date 2023 9 8 0 0 0 0) (Finite 330) (Finite 335)
             (Finite 329) (Finite 334) 1000000]).
Proof. vm_compute. reflexivity. Qed.

Example daily_not_a_number_scenario :
  TimeSeriesDaily_UnmarshalJSON (rt:=refRuntime) TimeSeries.zero
    dailyPayloadNotANumber = Err UnmarshalError.
Proof. vm_compute. reflexivity. Qed.

Example intraday_incomplete_metadata_scenario :
  TimeSeriesIntraday_UnmarshalJSON (rt:=refRuntime) TimeSeries.zero
    (badMetaDataPayload "2. Symbol") = Panic (TypeAssertion "nil" "string").
Proof. vm_compute. reflexivity. Qed.

(** ** The claims at concrete inputs *)



Lemma decoded_sequence_nondecreasing_witness :
  RuntimeLaws refRuntime
  /\ TimeSeriesIntraday_UnmarshalJSON (rt:=refRuntime) TimeSeries.zero
    intradayPayload = Ok intradayDecoded
  /\ nondecreasing OHLCV.Timestamp (TimeSeries.TimeSeries intradayDecoded).
Proof.
  assert (Hd : TimeSeriesIntraday_UnmarshalJSON (rt:=refRuntime) TimeSeries.zero
                 intradayPayload = Ok intradayDecoded)
    by (vm_compute; reflexivity).
  split; [exact refRuntime_laws|]. split; [exact Hd|].
  exact (proj1 (decoded_sequence_nondecreasing refRuntime refRuntime_laws)
           _ _ _ Hd).
Defined.

Lemma daily_scenario_decodes_witness :
  RuntimeLaws refRuntime
  /\ TimeSeriesDaily_UnmarshalJSON (rt:=refRuntime) TimeSeries.zero dailyPayload
     = Ok (TimeSeries.mk (dailyMetaData TimeSeriesMetaData.zero) [dailyBar]).
Proof.
  split; [exact refRuntime_laws|].
  exact (proj1 (daily_scenario_decodes refRuntime refRuntime_laws
                  TimeSeries.zero)).
Defined.

(** A sub-field that is a JSON number is passed over: the object of the
    timestamp has one key, the decoded map has none. *)
Lemma number_sub_field_is_dropped :
  UnmarshalIndicatorJSON (rt:=refRuntime) IndicatorResponse.zero
    smaNumberPayload "SMA"
  = Ok (IndicatorResponse.mk TimeSeriesMetaData.zero
          [IndicatorValue.mk (time.Date 2023 9 8 16 0 0 0) ∅])
  /\ size (∅ : gmap string float64) = 0%nat.
Proof. split; [vm_compute; reflexivity | apply map_size_empty]. Qed.

Lemma indicator_values_follow_payload_witness :
  (RuntimeLaws refRuntime
   /\ json.UnmarshalMap smaPayload = Ok smaRaw
   /\ index smaRaw (String.append "Technical Analysis: " "SMA") = amap smaBlock
   /\ UnmarshalIndicatorJSON (rt:=refRuntime) IndicatorResponse.zero
        smaPayload "SMA" = Ok smaDecoded)
  /\ exists new,
       IndicatorResponse.IndicatorValues smaDecoded
       ≡ₚ (IndicatorResponse.IndicatorValues IndicatorResponse.zero ++ new)%list
       /\ Forall2 decodedFrom (@mapiter refRuntime _ smaBlock) new.
Proof.
  assert (H1 : json.UnmarshalMap smaPayload = Ok smaRaw)
    by (vm_compute; reflexivity).
  assert (H2 : index smaRaw (String.append "Technical Analysis: " "SMA")
               = amap smaBlock) by reflexivity.
  assert (H3 : UnmarshalIndicatorJSON (rt:=refRuntime) IndicatorResponse.zero
                 smaPayload "SMA" = Ok smaDecoded)
    by (vm_compute; reflexivity).
  split; [exact (conj refRuntime_laws (conj H1 (conj H2 H3)))|].
  exact (indicator_values_follow_payload refRuntime refRuntime_laws
           _ _ _ _ _ _ H1 H2 H3).
Defined.

(** ** Where the code departs from its description *)

Section Departures.
Context {rt : Runtime} {laws : RuntimeLaws rt}.

(** The extractors pass over the keys they do not recognise. *)
Lemma extractMetaData_ignores_unknown_keys (rawData : list (string * any)) :
  (forall k, k ∈ keys rawData -> k ∉ indicatorMetaDataKeys) ->
  extractMetaData rawData = Ok TimeSeriesMetaData.zero.
Proof.
  intros Hk. apply forRange_mapiter_skip. intros k v s Hin.
  apply Hk in Hin. unfold extractMetaDataCase, indicatorMetaDataKeys in *.
  repeat match goal with
         | |- context [String.eqb k ?s] =>
             destruct (String.eqb_spec k s) as [->|?];
               [exfalso; apply Hin; set_solver|]
         end.
  done.
Qed.

Lemma extractCryptoMetaData_ignores_unknown_keys
    (rawData : list (string * any)) :
  (forall k, k ∈ keys rawData -> k ∉ cryptoMetaDataKeys) ->
  extractCryptoMetaData rawData = Ok CryptoMetaData.zero.
Proof.
  intros Hk. apply forRange_mapiter_skip. intros k v s Hin.
  apply Hk in Hin. unfold extractCryptoMetaDataCase, cryptoMetaDataKeys in *.
  repeat match goal with
         | |- context [String.eqb k ?s] =>
             destruct (String.eqb_spec k s) as [->|?];
               [exfalso; apply Hin; set_solver|]
         end.
  done.
Qed.

(** The loops of the intraday decoder only append to the sequence of the
    receiver. *)
Lemma intradayAppend_prefix (t t1 : TimeSeriesIntraday) (d : data) :
  intradayAppend t d = Ok t1 ->
  TimeSeries.TimeSeries t `prefix_of` TimeSeries.TimeSeries t1.
Proof.
  unfold intradayAppend.
  intros (raw & _ & (t0 & Hmd & Hloop)%bind_Ok)%bind_Ok.
  assert (Ht0 : TimeSeries.TimeSeries t0 = TimeSeries.TimeSeries t).
  { destruct (index raw "Meta Data"); try (by injection Hmd as <-).
    by apply bind_Ok in Hmd as (m0 & _ & [= <-]). }
  rewrite <- Ht0.
  eapply (forRange_inv
            (fun s => TimeSeries.TimeSeries t0 `prefix_of` TimeSeries.TimeSeries s));
    [|exact Hloop|done].
  intros key value s s' Hbody Hs. unfold intradaySeries in Hbody.
  destruct (String.prefix "Time Series" key); [|by injection Hbody as <-].
  destruct value; try discriminate.
  eapply (forRange_inv
            (fun s => TimeSeries.TimeSeries t0 `prefix_of` TimeSeries.TimeSeries s));
    [|exact Hbody|done].
  intros k v s0 s1 Hentry Hs0. unfold intradayEntry in Hentry.
  apply bind_Ok in Hentry as (ts & _ & (o & _ & [= <-])%bind_Ok). simpl.
  by apply prefix_app_r.
Qed.

(** Whatever the receiver of the intraday decoder held is in the result. *)
Lemma intraday_keeps_prior_entries (t t' : TimeSeriesIntraday) (d : data)
    (o : OHLCV.t) :
  TimeSeriesIntraday_UnmarshalJSON t d = Ok t' ->
  o ∈ TimeSeries.TimeSeries t -> o ∈ TimeSeries.TimeSeries t'.
Proof.
  intros (t1 & Happ & _ & ->)%intraday_result Hin.
  rewrite SliceStable_perm.
  apply intradayAppend_prefix in Happ as [new ->]. set_solver.
Qed.

(** The decoders with a fixed series key start from an empty slice: what
    the receiver held in [TimeSeries] has no part in the result. *)
Lemma auxField_prior {T} `{Bar T} (seriesKey key : string) (v : JSON)
    (l : list T) (raw : list (string * T)) (ts : TimeSeries.t T) :
  auxField seriesKey key v (raw, TimeSeries.setTimeSeries l ts)
  = bind (auxField seriesKey key v (raw, ts))
      (fun aux => Ok (aux.1, TimeSeries.setTimeSeries l aux.2)).
Proof.
  unfold auxField. simpl.
  destruct (json.equalFold seriesKey key).
  - destruct (json.map_ _ _ _ _); done.
  - destruct (json.equalFold "Meta Data" key); [|done].
    destruct (json.struct _ _ _); done.
Qed.

Lemma series_ignores_prior_entries {T} `{Bar T} (seriesKey : string)
    (ts : TimeSeries.t T) (l : list T) (d : data) :
  seriesUnmarshalJSON seriesKey (TimeSeries.setTimeSeries l ts) d
  = seriesUnmarshalJSON seriesKey ts d.
Proof.
  unfold seriesUnmarshalJSON, seriesAppend. f_equal.
  assert (Haux : unmarshalAux seriesKey (TimeSeries.setTimeSeries l ts) d
                 = bind (unmarshalAux seriesKey ts d)
                     (fun aux =>
                        Ok (match aux with
                            | Some a =>
                                Some (a.1, TimeSeries.setTimeSeries l a.2)
                            | None => None
                            end))).
  { unfold unmarshalAux. destruct d as [|v]; [done|].
    assert (Hloop : forall members raw ts0,
              forRange (auxField seriesKey) members
                (raw, TimeSeries.setTimeSeries l ts0)
              = bind (forRange (auxField seriesKey) members (raw, ts0))
                  (fun aux => Ok (aux.1, TimeSeries.setTimeSeries l aux.2))).
    { induction members as [|[k x] members IH]; intros raw ts0; [done|].
      simpl. rewrite auxField_prior.
      destruct (auxField seriesKey k x (raw, ts0)) as [[raw1 ts1]| |]; [|done..].
      simpl. apply IH. }
    destruct v; try done. simpl. rewrite Hloop.
    destruct (forRange _ _ _); done. }
  rewrite Haux.
  destruct (unmarshalAux seriesKey ts d) as [[[raw ts0]|]| |]; done.
Qed.

End Departures.

(** C2 at the failing inputs.  A crypto payload whose open price is the
    text [N/A] decodes without error, the open price defaulted to zero; a
    payload without the open price, or with a number in its place, makes
    the decoder panic.  In no case is an error returned. *)
Theorem crypto_number_errors_are_dropped (rt : Runtime) (laws : RuntimeLaws rt) :
  UnmarshalCryptoJSON CryptoSeriesResponse.zero
    (cryptoPayload [("1a. open (USD)", JString "N/A")])
  = Ok (CryptoSeriesResponse.mk CryptoMetaData.zero
          [cryptoBar float64_zero] "Time Series (Digital Currency Daily)")
  /\ UnmarshalCryptoJSON CryptoSeriesResponse.zero (cryptoPayload [])
     = Panic (TypeAssertion "nil" "string")
  /\ UnmarshalCryptoJSON CryptoSeriesResponse.zero
       (cryptoPayload [("1a. open (USD)", JNumber (Finite 26000))])
     = Panic (TypeAssertion "float64" "string").
Proof.
  split; [|split]; unfold UnmarshalCryptoJSON, cryptoAppend; simpl.
  all: rewrite mapiter_singleton; unfold forRange at 1, cryptoSeries; simpl.
  all: rewrite mapiter_singleton; reflexivity.
Qed.

(** C4 at the failing inputs.  Metadata in which a recognised key holds a
    number makes the indicator and the crypto decoder panic on the
    unchecked type assertion of the extractor; the decoders with a fixed
    series key return an error for the same metadata. *)
Theorem metadata_type_mismatch_panics (rt : Runtime)
    (laws : RuntimeLaws rt) (i : IndicatorResponse.t) (indicatorName : string)
    (c : CryptoSeriesResponse.t) (ts : TimeSeriesDaily) :
  UnmarshalIndicatorJSON i (badMetaDataPayload "1: Symbol") indicatorName
  = Panic (TypeAssertion "float64" "string")
  /\ UnmarshalCryptoJSON c (badMetaDataPayload "1. Information")
     = Panic (TypeAssertion "float64" "string")
  /\ TimeSeriesDaily_UnmarshalJSON ts (badMetaDataPayload "2. Symbol")
     = Err UnmarshalError.
Proof.
  split; [|split].
  - unfold UnmarshalIndicatorJSON, indicatorAppend, extractMetaData. simpl.
    rewrite mapiter_singleton. reflexivity.
  - unfold UnmarshalCryptoJSON, cryptoAppend, extractCryptoMetaData. simpl.
    rewrite mapiter_singleton. reflexivity.
  - reflexivity.
Qed.

(** C6 at the failing input.  An intraday receiver that holds a bar from an
    earlier decode keeps it: the bar of 7 September, which the payload does
    not contain, is in the decoded sequence. *)
Theorem prior_entries_survive_decode :
  TimeSeriesIntraday_UnmarshalJSON (rt:=refRuntime)
    (TimeSeries.mk TimeSeriesMetaData.zero [earlierBar]) intradayPayload
  = Ok (TimeSeries.mk intradayScenarioMetaData [earlierBar; bar1555; bar1600])
  /\ TimeSeriesIntraday_UnmarshalJSON (rt:=refRuntime) TimeSeries.zero
       intradayPayload
     = Ok (TimeSeries.mk intradayScenarioMetaData [bar1555; bar1600]).
Proof. split; vm_compute; reflexivity. Qed.

Lemma crypto_number_errors_are_dropped_witness :
  RuntimeLaws refRuntime
  /\ UnmarshalCryptoJSON (rt:=refRuntime) CryptoSeriesResponse.zero
       (cryptoPayload [("1a. open (USD)", JString "N/A")])
     = Ok (CryptoSeriesResponse.mk CryptoMetaData.zero
             [cryptoBar float64_zero] "Time Series (Digital Currency Daily)").
Proof.
  split; [exact refRuntime_laws|].
  exact (proj1 (crypto_number_errors_are_dropped refRuntime refRuntime_laws)).
Defined.

Lemma metadata_type_mismatch_panics_witness :
  RuntimeLaws refRuntime
  /\ UnmarshalIndicatorJSON (rt:=refRuntime) IndicatorResponse.zero
       (badMetaDataPayload "1: Symbol") "SMA"
     = Panic (TypeAssertion "float64" "string").
Proof.
  split; [exact refRuntime_laws|].
  exact (proj1 (metadata_type_mismatch_panics refRuntime refRuntime_laws
                  IndicatorResponse.zero "SMA" CryptoSeriesResponse.zero
                  TimeSeries.zero)).
Defined.

(** * Further properties of the decoders *)

(** ** Loops that return early *)

Lemma forRange_not_Ok {K V S} (body : K -> V -> S -> result S)
    (m : list (K * V)) (s : S) (k : K) (v : V) :
  (k, v) ∈ m -> (forall s, isOk (body k v s) = false) ->
  isOk (forRange body m s) = false.
Proof.
  intros Hin Hbad. revert s.
  induction m as [|[k' v'] m IH]; intros s; [by apply elem_of_nil in Hin|].
  simpl. apply elem_of_cons in Hin as [[= <- <-]|Hin].
  - specialize (Hbad s). destruct (body k v s); done.
  - destruct (body k' v' s); simpl; auto.
Qed.

Lemma forRange_Err {K V S} (Q : error -> Prop) (body : K -> V -> S -> result S)
    (m : list (K * V)) (s : S) (e : error) :
  (forall k v s e, (k, v) ∈ m -> body k v s = Err e -> Q e) ->
  forRange body m s = Err e -> Q e.
Proof.
  revert s. induction m as [|[k v] m IH]; simpl; intros s Hbody; [done|].
  destruct (body k v s) as [s1|e1|p] eqn:E; simpl; [|intros [= <-]|done].
  - apply IH. intros k' v' s' e' Hin. apply Hbody. by right.
  - eapply Hbody; [left|exact E].
Qed.

Lemma forRange_inv_in {K V S} (P : S -> Prop) (body : K -> V -> S -> result S)
    (m : list (K * V)) (s s' : S) :
  (forall k v s s', (k, v) ∈ m -> body k v s = Ok s' -> P s -> P s') ->
  forRange body m s = Ok s' -> P s -> P s'.
Proof.
  revert s. induction m as [|[k v] m IH]; simpl; intros s Hbody.
  - by intros [= <-].
  - intros (s1 & H1 & H2)%bind_Ok Hs.
    eapply IH; [|exact H2|].
    + intros k' v' s0 s0' Hin. apply Hbody. by right.
    + eapply Hbody; [left|exact H1|exact Hs].
Qed.

Lemma not_Ok_cases {A} (r : result A) :
  isOk r = false -> isPanic r = false -> exists e, r = Err e.
Proof. destruct r; intros; try done. by eexists. Qed.

(** ** The errors and panics of the library calls *)

Lemma Parse_Err (layout value : string) (e : error) :
  time.Parse layout value = Err e -> e = ParseError layout value.
Proof. unfold time.Parse. repeat case_match; congruence. Qed.

Lemma ParseFloat_error (s : string) (f : float64) (e : error) :
  strconv.ParseFloat s = (f, Some e) ->
  exists cause, e = NumError "ParseFloat" s cause.
Proof.
  unfold strconv.ParseFloat. repeat case_match; intros [= <- <-]; by eexists.
Qed.

Lemma ParseInt_error (s : string) (n : Z) (e : error) :
  strconv.ParseInt s = (n, Some e) ->
  exists cause, e = NumError "ParseInt" s cause.
Proof.
  unfold strconv.ParseInt. repeat case_match; intros [= <- <-]; by eexists.
Qed.

Lemma string_Err (v : JSON) (old : string) (e : error) :
  json.string_ v old = Err e -> e = UnmarshalError.
Proof. destruct v; simpl; congruence. Qed.

Lemma float64_Err (v : JSON) (old : float64) (e : error) :
  json.float64_ v old = Err e -> e = UnmarshalError.
Proof. destruct v; simpl; congruence. Qed.

Lemma quotedFloat64_Err (v : JSON) (old : float64) (e : error) :
  json.quotedFloat64 v old = Err e -> e = UnmarshalError.
Proof. unfold json.quotedFloat64. repeat case_match; congruence. Qed.

Lemma quotedInt_Err (v : JSON) (old : Z) (e : error) :
  json.quotedInt v old = Err e -> e = UnmarshalError.
Proof. unfold json.quotedInt. repeat case_match; congruence. Qed.

Lemma string_noPanic (v : JSON) (old : string) :
  isPanic (json.string_ v old) = false.
Proof. by destruct v. Qed.

Lemma float64_noPanic (v : JSON) (old : float64) :
  isPanic (json.float64_ v old) = false.
Proof. by destruct v. Qed.

(** Whether a quoted number is accepted does not depend on what the field
    held. *)
Lemma quotedFloat64_isOk (v : JSON) (old old' : float64) :
  isOk (json.quotedFloat64 v old) = isOk (json.quotedFloat64 v old').
Proof. unfold json.quotedFloat64. repeat case_match; done. Qed.

(** A text that [strconv.ParseFloat] rejects is rejected as a quoted
    number. *)
Lemma quotedFloat64_rejects (s : string) (old : float64) :
  s <> "null" -> snd (strconv.ParseFloat s) <> None ->
  isOk (json.quotedFloat64 (JString s) old) = false.
Proof.
  intros Hnull Hbad. unfold json.quotedFloat64.
  destruct (String.eqb_spec s "null"); [done|].
  destruct (json.numberStart s); [|done].
  destruct (strconv.ParseFloat s) as [f [e|]]; [done|]. by destruct Hbad.
Qed.

Lemma bind_Err {A B} (r : result A) (k : A -> result B) (e : error) :
  bind r k = Err e -> r = Err e \/ exists a, r = Ok a /\ k a = Err e.
Proof.
  destruct r as [a|e0|p]; simpl; intros H;
    [right; eauto | injection H as ->; by left | done].
Qed.

Lemma struct_Err {S} (field : string -> JSON -> S -> result S) (v : JSON)
    (s : S) (e : error) :
  (forall k x s e, field k x s = Err e -> e = UnmarshalError) ->
  json.struct field v s = Err e -> e = UnmarshalError.
Proof.
  intros Hf. destruct v; simpl; try congruence.
  apply (forRange_Err (fun e => e = UnmarshalError)). eauto.
Qed.

Lemma struct_noPanic {S} (field : string -> JSON -> S -> result S) (v : JSON)
    (s : S) :
  (forall k x s, isPanic (field k x s) = false) ->
  isPanic (json.struct field v s) = false.
Proof. intros Hf. destruct v; simpl; try done. by apply forRange_noPanic. Qed.

Lemma map_Err {E} (elem : JSON -> E -> result E) (zero : E) (v : JSON)
    (m : list (string * E)) (e : error) :
  (forall x e, elem x zero = Err e -> e = UnmarshalError) ->
  json.map_ elem zero v m = Err e -> e = UnmarshalError.
Proof.
  intros He. destruct v; simpl; try congruence.
  apply (forRange_Err (fun e => e = UnmarshalError)).
  intros k x s0 e0 _ [H|(a & _ & [=])]%bind_Err. eauto.
Qed.

Lemma map_noPanic {E} (elem : JSON -> E -> result E) (zero : E) (v : JSON)
    (m : list (string * E)) :
  (forall x, isPanic (elem x zero) = false) ->
  isPanic (json.map_ elem zero v m) = false.
Proof.
  intros He. destruct v; simpl; try done. apply forRange_noPanic.
  intros k x s. specialize (He x). destruct (elem x zero); done.
Qed.

(** The keys of a decoded map: those it held and those of the object. *)
Lemma map_keys {E} (elem : JSON -> E -> result E) (zero : E)
    (entries : list (string * JSON)) (m m' : list (string * E)) :
  json.map_ elem zero (JObject entries) m = Ok m' ->
  forall k, k ∈ keys m' <-> k ∈ keys m \/ k ∈ keys entries.
Proof.
  simpl. revert m. induction entries as [|[k0 x] entries IH]; simpl; intros m.
  - intros [= <-] k. set_solver.
  - intros (m1 & (e & _ & [= <-])%bind_Ok & H2)%bind_Ok k.
    rewrite (IH _ H2), keys_mapset. case_decide; set_solver.
Qed.

Lemma TimeSeriesMetaData_field_Err (key : string) (v : JSON)
    (m : TimeSeriesMetaData.t) (e : error) :
  TimeSeriesMetaData_field key v m = Err e -> e = UnmarshalError.
Proof.
  unfold TimeSeriesMetaData_field.
  repeat case_match; try done;
    intros [?|(? & _ & [=])]%bind_Err;
    first [by eapply string_Err | by eapply float64_Err].
Qed.

Lemma TimeSeriesMetaData_field_noPanic (key : string) (v : JSON)
    (m : TimeSeriesMetaData.t) :
  isPanic (TimeSeriesMetaData_field key v m) = false.
Proof.
  unfold TimeSeriesMetaData_field.
  repeat case_match; try done;
    match goal with
    | |- context [json.string_ ?v ?old] =>
        pose proof (string_noPanic v old); destruct (json.string_ v old); done
    | |- context [json.float64_ ?v ?old] =>
        pose proof (float64_noPanic v old); destruct (json.float64_ v old); done
    end.
Qed.

(** ** The two bar types *)

Lemma OHLCV_field_Err (key : string) (v : JSON) (o : OHLCV.t) (e : error) :
  OHLCV_field key v o = Err e -> e = UnmarshalError.
Proof.
  unfold OHLCV_field.
  repeat case_match; try done;
    intros [?|(? & _ & [=])]%bind_Err;
    first [by eapply quotedFloat64_Err | by eapply quotedInt_Err].
Qed.

Lemma equalFold_tag (tag k : string) :
  json.equalFold tag k = true -> strconv.toLower k = strconv.toLower tag.
Proof. unfold json.equalFold. by intros ->%String.eqb_eq. Qed.

Lemma OHLCV_field_price (tag k : string) (v : JSON) (o : OHLCV.t) :
  tag ∈ priceTags -> json.equalFold tag k = true ->
  isOk (OHLCV_field k v o) = isOk (json.quotedFloat64 v float64_zero).
Proof.
  intros Htag Hk%equalFold_tag. unfold OHLCV_field, json.equalFold.
  rewrite Hk. unfold priceTags in Htag.
  repeat (apply elem_of_cons in Htag as [->|Htag]);
    [..|by apply elem_of_nil in Htag]; simpl;
    match goal with
    | |- context [json.quotedFloat64 v ?old] =>
        rewrite (quotedFloat64_isOk v float64_zero old);
          destruct (json.quotedFloat64 v old); done
    end.
Qed.

#[export] Instance OHLCV_BarLaws : BarLaws OHLCV.t.
Proof.
  split.
  - apply OHLCV_field_noPanic.
  - apply OHLCV_field_Err.
  - apply OHLCV_field_price.
Qed.

#[export] Instance AdjustedOHLCV_BarLaws : BarLaws AdjustedOHLCV.t.
Proof.
  split.
  - intros k v o. simpl. unfold AdjustedOHLCV_field.
    repeat case_match; try done.
    1,2: match goal with
         | |- context [json.quotedFloat64 ?v ?old] =>
             pose proof (quotedFloat64_noPanic v old);
             destruct (json.quotedFloat64 v old); done
         end.
    pose proof (OHLCV_field_noPanic k v (AdjustedOHLCV.OHLCV o)).
    destruct (OHLCV_field k v (AdjustedOHLCV.OHLCV o)); done.
  - intros k v o e. simpl. unfold AdjustedOHLCV_field.
    repeat case_match; intros [?|(? & _ & [=])]%bind_Err;
      first [by eapply quotedFloat64_Err | by eapply OHLCV_field_Err].
  - intros tag k v o Htag Hk. simpl. unfold AdjustedOHLCV_field.
    rewrite <- (OHLCV_field_price tag k v (AdjustedOHLCV.OHLCV o) Htag Hk).
    apply equalFold_tag in Hk. unfold json.equalFold. rewrite Hk.
    unfold priceTags in Htag.
    repeat (apply elem_of_cons in Htag as [->|Htag]);
      [..|by apply elem_of_nil in Htag]; simpl;
      destruct (OHLCV_field k v (AdjustedOHLCV.OHLCV o)); done.
Qed.

(** ** The decoders with a fixed series key, from payload to bars *)

Section FixedKeyFacts.
Context {rt : Runtime} {laws : RuntimeLaws rt}.
Context {T : Type} `{Bar T}.

(** The conversion loop succeeds exactly when every date key parses; it
    then appends the stamped bars in the order visited. *)
Lemma seriesEntry_stamped (l : list (string * T)) (ts ts1 : TimeSeries.t T) :
  forRange seriesEntry l ts = Ok ts1
  <-> exists new,
        Forall2 stamped l new
        /\ ts1 = TimeSeries.setTimeSeries
                   (TimeSeries.TimeSeries ts ++ new)%list ts.
Proof.
  revert ts. induction l as [|[k o] l IH]; simpl; intros ts.
  - split.
    + intros [= <-]. exists []. split; [constructor|].
      destruct ts. simpl. by rewrite app_nil_r.
    + intros (new & Hall & ->). apply Forall2_nil_inv_l in Hall as ->.
      destruct ts. simpl. by rewrite app_nil_r.
  - split.
    + intros (s1 & H1 & H2)%bind_Ok. unfold seriesEntry in H1.
      apply bind_Ok in H1 as (t & Ht & [= <-]).
      apply IH in H2 as (new & Hall & ->). simpl.
      exists (barSetTimestamp t o :: new). split.
      * constructor; [by exists t|done].
      * by rewrite <- app_assoc.
    + intros (new & Hall & ->).
      apply Forall2_cons_inv_l in Hall as (b & new' & (t & Ht & ->) & Hall & ->).
      unfold seriesEntry at 1. simpl in Ht. rewrite Ht. simpl.
      apply IH. exists new'. split; [done|]. simpl. by rewrite <- app_assoc.
Qed.

Lemma stamped_timestamp (l : list (string * T)) (new : list T) :
  Forall2 stamped l new ->
  Forall2 (fun kv o => time.Parse "2006-01-02" kv.1 = Ok (barTimestamp o))
    l new.
Proof.
  intros Hall. eapply Forall2_impl; [exact Hall|].
  intros kv o (t & Ht & ->). by rewrite barTimestamp_set.
Qed.

Lemma seriesEntry_noPanic (k : string) (o : T) (ts : TimeSeries.t T) :
  isPanic (seriesEntry k o ts) = false.
Proof.
  unfold seriesEntry. pose proof (Parse_noPanic "2006-01-02" k).
  destruct (time.Parse "2006-01-02" k); done.
Qed.

(** A decode succeeds exactly when the helper struct is filled and every
    date key parses. *)
Lemma series_success (seriesKey : string) (ts ts' : TimeSeries.t T)
    (d : data) :
  seriesUnmarshalJSON seriesKey ts d = Ok ts'
  <-> exists RawTimeSeries ts0 new,
        unmarshalAux seriesKey ts d = Ok (Some (RawTimeSeries, ts0))
        /\ Forall2 stamped (mapiter RawTimeSeries) new
        /\ ts' = TimeSeries.mk (TimeSeries.MetaData ts0)
                   (sort_Slice new (byKey barTimestamp)).
Proof.
  unfold seriesUnmarshalJSON, seriesAppend. split.
  - intros (ts1 & (aux & Haux & Hloop)%bind_Ok & [= <-])%bind_Ok.
    destruct aux as [[raw ts0]|]; [|discriminate].
    apply seriesEntry_stamped in Hloop as (new & Hall & ->).
    by exists raw, ts0, new.
  - intros (raw & ts0 & new & -> & Hall & ->). simpl.
    assert (forRange seriesEntry (mapiter raw) (TimeSeries.setTimeSeries [] ts0)
            = Ok (TimeSeries.setTimeSeries new ts0)) as ->; [|done].
    apply seriesEntry_stamped. by exists new.
Qed.

End FixedKeyFacts.

Lemma sorted_strict {A} (key : A -> time.Time) (l : list A) :
  StronglySorted (fun a b => key a <= key b) l ->
  NoDup (map key l) ->
  StronglySorted (fun a b => key a < key b) l.
Proof.
  induction 1 as [|x l Hl IH Hx]; [constructor|].
  simpl. intros [Hnin Hn]%NoDup_cons. constructor; [auto|].
  rewrite Forall_forall in Hx. apply Forall_forall. intros y Hy.
  assert (key x <> key y)
    by (intros Heq; apply Hnin; rewrite Heq; by apply list_elem_of_fmap_2).
  specialize (Hx y Hy). simpl in Hx. lia.
Qed.

Lemma sorted_increasing {A} (key : A -> time.Time) (l : list A)
    (i : nat) (a b : A) :
  StronglySorted (fun a b => key a < key b) l ->
  l !! i = Some a -> l !! (S i) = Some b -> key a < key b.
Proof.
  intros Hs. revert i. induction Hs as [|x l Hl IH Hx]; intros i Ha Hb; [done|].
  destruct i as [|i]; simpl in *.
  - injection Ha as <-. rewrite Forall_forall in Hx.
    apply Hx. by eapply list_elem_of_lookup_2.
  - eauto.
Qed.

(** An arrangement in non-decreasing order of pairwise distinct timestamps
    is the only one. *)
Lemma sorted_unique {A} (key : A -> time.Time) (l1 l2 : list A) :
  StronglySorted (fun a b => key a <= key b) l1 ->
  StronglySorted (fun a b => key a <= key b) l2 ->
  l1 ≡ₚ l2 -> NoDup (map key l1) -> l1 = l2.
Proof.
  intros H1 H2 Hp Hnd.
  assert (AntiSymm (=) (fun a b : A => key a < key b))
    by (intros a b ? ?; lia).
  apply (StronglySorted_unique (fun a b => key a < key b)); [..|done].
  - by apply sorted_strict.
  - apply sorted_strict; [done|]. by rewrite <- Hp.
Qed.

Section FixedKeyPayload.
Context {T : Type} `{BarLaws T}.

Lemma auxField_Err (seriesKey key : string) (v : JSON)
    (aux : list (string * T) * TimeSeries.t T) (e : error) :
  auxField seriesKey key v aux = Err e -> e = UnmarshalError.
Proof.
  unfold auxField. repeat case_match; try done;
    intros [?|(? & _ & [=])]%bind_Err.
  - eapply map_Err; [|done]. intros x e0. apply struct_Err.
    intros ? ? ? ?. apply barField_error.
  - eapply struct_Err; [|done]. apply TimeSeriesMetaData_field_Err.
Qed.

Lemma auxField_noPanic (seriesKey key : string) (v : JSON)
    (aux : list (string * T) * TimeSeries.t T) :
  isPanic (auxField seriesKey key v aux) = false.
Proof.
  unfold auxField. repeat case_match; try done.
  - assert (Hm : isPanic (json.map_ (json.struct barField) barZero v aux.1)
                 = false).
    { apply map_noPanic. intros x. apply struct_noPanic, barField_noPanic. }
    destruct (json.map_ _ _ _ _); done.
  - assert (Hm : isPanic (json.struct TimeSeriesMetaData_field v
                            (TimeSeries.MetaData aux.2)) = false)
      by apply struct_noPanic, TimeSeriesMetaData_field_noPanic.
    destruct (json.struct _ _ _); done.
Qed.

Lemma unmarshalAux_Err (seriesKey : string) (ts : TimeSeries.t T) (d : data)
    (e : error) :
  unmarshalAux seriesKey ts d = Err e -> e = UnmarshalError.
Proof.
  unfold unmarshalAux. destruct d as [|v]; [congruence|].
  assert (Hs : forall e, json.struct (auxField seriesKey) v ([], ts) = Err e ->
                         e = UnmarshalError)
    by (intros e0; apply struct_Err; intros ? ? ? ?; apply auxField_Err).
  destruct v; try done;
    intros [?|(? & _ & [=])]%bind_Err; by apply Hs.
Qed.

Lemma unmarshalAux_noPanic (seriesKey : string) (ts : TimeSeries.t T)
    (d : data) :
  isPanic (unmarshalAux seriesKey ts d) = false.
Proof.
  unfold unmarshalAux. destruct d as [|v]; [done|].
  assert (Hs : isPanic (json.struct (auxField seriesKey) v ([], ts)) = false)
    by apply struct_noPanic, auxField_noPanic.
  destruct v; try done; destruct (json.struct _ _ _); done.
Qed.

End FixedKeyPayload.

Section FixedKeyKeys.
Context {T : Type} `{Bar T}.

(** The dates [RawTimeSeries] holds after the helper struct is filled are
    the dates of the series object. *)
Lemma unmarshalAux_keys (seriesKey : string) (ts ts0 : TimeSeries.t T)
    (members entries : list (string * JSON)) (raw : list (string * T)) :
  seriesObject seriesKey members entries ->
  unmarshalAux seriesKey ts (Document (JObject members)) = Ok (Some (raw, ts0)) ->
  forall k, k ∈ keys raw <-> k ∈ keys entries.
Proof.
  intros [(k0 & Hin & Hk0) Hall]. unfold unmarshalAux, json.struct.
  intros (aux & Hloop & [= ->])%bind_Ok.
  assert (Hstep : forall k v (s s' : list (string * T) * TimeSeries.t T),
            (k, v) ∈ members -> auxField seriesKey k v s = Ok s' ->
            (json.equalFold seriesKey k = false /\ s'.1 = s.1)
            \/ (forall x, x ∈ keys s'.1 <-> x ∈ keys s.1 \/ x ∈ keys entries)).
  { intros k v s s' Hkv. unfold auxField.
    destruct (json.equalFold seriesKey k) eqn:Ek.
    - rewrite (Hall k v Hkv Ek).
      intros (m1 & Hm & [= <-])%bind_Ok. right. simpl.
      by apply (map_keys _ _ _ _ _ Hm).
    - intros Hb. left. split; [done|].
      destruct (json.equalFold "Meta Data" k); [|by injection Hb as <-].
      by apply bind_Ok in Hb as (m & _ & [= <-]). }
  intros k. split.
  - revert k. change (forall k, k ∈ keys (raw, ts0).1 -> k ∈ keys entries).
    eapply (forRange_inv_in
              (fun s => forall k, k ∈ keys s.1 -> k ∈ keys entries));
      [|exact Hloop|by intros k ?%elem_of_nil].
    intros k v s s' Hkv Hbody Hs x.
    destruct (Hstep k v s s' Hkv Hbody) as [[_ ->]|Hx]; [auto|].
    rewrite Hx. intros [?|?]; auto.
  - apply list_elem_of_split in Hin as (pre & post & ->).
    rewrite forRange_app in Hloop.
    apply bind_Ok in Hloop as (s1 & _ & Hloop). simpl in Hloop.
    apply bind_Ok in Hloop as (s2 & Hbody & Hloop).
    assert (Hs2 : forall x, x ∈ keys entries -> x ∈ keys s2.1).
    { intros x Hx.
      destruct (Hstep k0 (JObject entries) s1 s2) as [[Hf _]|Hs2];
        [set_solver|done|congruence|].
      rewrite Hs2. by right. }
    revert k. change (forall k, k ∈ keys entries -> k ∈ keys (raw, ts0).1).
    eapply (forRange_inv_in
              (fun s => forall k, k ∈ keys entries -> k ∈ keys s.1));
      [|exact Hloop|done].
    intros k v s s' Hkv Hb Hs x Hx.
    destruct (Hstep k v s s') as [[_ ->]|Hs'];
      [set_solver|done|auto|].
    rewrite Hs'. by right.
Qed.

End FixedKeyKeys.

Lemma reverseRuntime_laws : RuntimeLaws reverseRuntime.
Proof.
  split.
  - intros V m. simpl. by rewrite <- Permutation_rev.
  - intros A key x. apply SliceStable_perm.
  - intros A key x. apply SliceStable_sorted.
Qed.

(** ** One bar per date *)

(** X1.  In a successful decode of a kind with a fixed series key the decoded
    sequence holds, in some order, exactly one bar for each entry of the
    map [RawTimeSeries] of the helper struct: the bar decoded for that
    entry, stamped with the date its key spells.  No entry is dropped and
    none is added, so [Length] returns the number of entries of the map;
    the metadata is that of the helper struct. *)
Theorem series_one_bar_per_entry (rt : Runtime) (laws : RuntimeLaws rt)
    (T : Type) (B : Bar T) (seriesKey : string) (ts ts' : TimeSeries.t T)
    (d : data) :
  seriesUnmarshalJSON seriesKey ts d = Ok ts' ->
  exists RawTimeSeries ts0 bars,
    unmarshalAux seriesKey ts d = Ok (Some (RawTimeSeries, ts0))
    /\ TimeSeries.MetaData ts' = TimeSeries.MetaData ts0
    /\ Forall2 stamped RawTimeSeries bars
    /\ TimeSeries.TimeSeries ts' ≡ₚ bars
    /\ seriesLength ts' = Z.of_nat (length RawTimeSeries).
Proof.
  intros (raw & ts0 & new & Haux & Hall & ->)%series_success.
  destruct (Permutation_Forall2 (mapiter_perm _ raw) Hall)
    as (bars & Hperm & Hbars).
  exists raw, ts0, bars. split; [done|]. split; [done|]. split; [done|].
  simpl. unfold byKey. split.
  - by rewrite (sort_Slice_perm _ barTimestamp), Hperm.
  - unfold seriesLength. simpl. f_equal.
    rewrite (sort_Slice_perm _ barTimestamp), Hperm.
    symmetry. by eapply Forall2_length.
Qed.

(** X2.  For a payload object whose series member is the object [entries], a
    successful decode returns as many bars as [entries] has distinct date
    keys, and the timestamps of the bars are exactly the dates those keys
    spell: every date of the payload has its bar and every bar its date. *)
Theorem series_dates_of_payload (rt : Runtime) (laws : RuntimeLaws rt)
    (T : Type) (B : Bar T) (seriesKey : string) (ts ts' : TimeSeries.t T)
    (members entries : list (string * JSON)) :
  seriesObject seriesKey members entries ->
  seriesUnmarshalJSON seriesKey ts (Document (JObject members)) = Ok ts' ->
  seriesLength ts' = Z.of_nat (length (remove_dups (keys entries)))
  /\ forall date,
       date ∈ keys entries
       <-> exists bar,
             bar ∈ TimeSeries.TimeSeries ts'
             /\ time.Parse "2006-01-02" date = Ok (barTimestamp bar).
Proof.
  intros Hobj (raw & ts0 & new & Haux & Hall & ->)%series_success.
  pose proof (unmarshalAux_keys _ _ _ _ _ _ Hobj Haux) as Hkeys.
  pose proof (seriesAux_NoDup _ _ _ _ _ Haux) as Hnd.
  apply stamped_timestamp in Hall.
  assert (Hlen : length new = length raw).
  { rewrite <- (Forall2_length _ _ _ Hall). by rewrite (mapiter_perm _ raw). }
  unfold byKey. split.
  - unfold seriesLength. simpl. f_equal.
    rewrite (sort_Slice_perm _ barTimestamp), Hlen.
    rewrite <- (length_map fst raw). apply Permutation_length.
    apply NoDup_Permutation; [done|apply NoDup_remove_dups|].
    intros k. rewrite elem_of_remove_dups. apply Hkeys.
  - intros date. simpl. rewrite <- Hkeys, <- mapiter_keys. split.
    + intros ([k o] & -> & Hin)%list_elem_of_fmap. simpl.
      apply list_elem_of_lookup in Hin as (i & Hi).
      destruct (Forall2_lookup_l _ _ _ _ _ Hall Hi) as (bar & Hbar & Hp).
      exists bar. split; [|done].
      rewrite (sort_Slice_perm _ barTimestamp).
      by eapply list_elem_of_lookup_2.
    + intros (bar & Hin & Hp).
      rewrite (sort_Slice_perm _ barTimestamp) in Hin.
      apply list_elem_of_lookup in Hin as (i & Hi).
      destruct (Forall2_lookup_r _ _ _ _ _ Hall Hi) as ([k o] & Hkv & Hp').
      simpl in Hp'. rewrite (Parse_date_inj _ _ _ Hp Hp').
      apply (list_elem_of_fmap_2 fst _ (k, o)). by eapply list_elem_of_lookup_2.
Qed.

(** ** The result does not depend on the order of the map *)

(** X3.  A successful decode of a kind with a fixed series key returns the same
    value whatever order the runtime visits the map in and whichever
    ordered arrangement the unstable sort picks: the date keys of the map
    are distinct, the layout reads distinct keys as distinct days, so the
    bars have only one arrangement in order of time. *)
Theorem series_decode_is_order_independent (rt1 rt2 : Runtime)
    (laws1 : RuntimeLaws rt1) (laws2 : RuntimeLaws rt2)
    (T : Type) (B : Bar T) (seriesKey : string) (ts ts' : TimeSeries.t T)
    (d : data) :
  seriesUnmarshalJSON (rt:=rt1) seriesKey ts d = Ok ts' ->
  seriesUnmarshalJSON (rt:=rt2) seriesKey ts d = Ok ts'.
Proof.
  intros (raw & ts0 & new & Haux & Hall & ->)%series_success.
  assert (Hp : mapiter (Runtime:=rt1) raw ≡ₚ mapiter (Runtime:=rt2) raw)
    by (by rewrite !mapiter_perm).
  destruct (Permutation_Forall2 Hp Hall) as (new2 & Hperm & Hall2).
  apply series_success. exists raw, ts0, new2. split; [done|]. split; [done|].
  f_equal. apply (sorted_unique barTimestamp).
  - apply sort_Slice_sorted.
  - apply sort_Slice_sorted.
  - unfold byKey. by rewrite !(sort_Slice_perm _ barTimestamp).
  - unfold byKey. rewrite (sort_Slice_perm _ barTimestamp).
    eapply parsed_keys_NoDup; [exact (stamped_timestamp _ _ Hall)|].
    unfold keys. rewrite (mapiter_perm _ raw).
    by eapply seriesAux_NoDup.
Qed.

(** ** All or nothing *)

(** X4.  A date key that does not parse fails the whole decode: for a payload
    object whose series member is the object [entries], one key of
    [entries] that is no date of the form [2006-01-02] makes the decoder
    return an error, either the error of [encoding/json] or the parse error
    of a key of [entries]; no bar of the other entries is returned. *)
Theorem series_rejects_malformed_date (rt : Runtime) (laws : RuntimeLaws rt)
    (T : Type) (B : Bar T) (BL : BarLaws T) (seriesKey : string)
    (ts : TimeSeries.t T) (members entries : list (string * JSON))
    (date : string) :
  seriesObject seriesKey members entries ->
  date ∈ keys entries ->
  isOk (time.Parse "2006-01-02" date) = false ->
  exists e,
    seriesUnmarshalJSON seriesKey ts (Document (JObject members)) = Err e
    /\ (e = UnmarshalError
        \/ exists k, k ∈ keys entries /\ e = ParseError "2006-01-02" k).
Proof.
  intros Hobj Hdate Hbad. unfold seriesUnmarshalJSON, seriesAppend.
  pose proof (unmarshalAux_noPanic seriesKey ts (Document (JObject members)))
    as Hnp.
  destruct (unmarshalAux seriesKey ts (Document (JObject members)))
    as [[[raw ts0]|]|e|p] eqn:Haux; try done.
  - pose proof (unmarshalAux_keys _ _ _ _ _ _ Hobj Haux) as Hkeys.
    simpl.
    assert (Hin : date ∈ keys (mapiter raw))
      by (by rewrite mapiter_keys, Hkeys).
    apply list_elem_of_fmap in Hin as ([k o] & -> & Hin).
    destruct (not_Ok_cases
                (forRange seriesEntry (mapiter raw)
                   (TimeSeries.setTimeSeries [] ts0))) as (e & He).
    + eapply forRange_not_Ok; [exact Hin|]. intros s. unfold seriesEntry.
      simpl in Hbad. destruct (time.Parse "2006-01-02" k); done.
    + apply forRange_noPanic. apply seriesEntry_noPanic.
    + rewrite He. simpl. exists e. split; [done|]. right.
      eapply (forRange_Err
                (fun e => exists k, k ∈ keys entries
                                    /\ e = ParseError "2006-01-02" k));
        [|exact He].
      intros k' o' s e' Hin' Hb. unfold seriesEntry in Hb.
      apply bind_Err in Hb as [Hb|(? & _ & [=])].
      exists k'. split; [|by eapply Parse_Err].
      apply Hkeys, mapiter_keys. by apply (list_elem_of_fmap_2 fst _ (k', o')).
  - unfold unmarshalAux in Haux. by apply bind_Ok in Haux as (? & _ & [=]).
  - simpl. exists e. split; [done|]. left. by eapply unmarshalAux_Err.
Qed.

(** X5.  A price that is no number fails the whole decode: when, in the series
    object of the payload, the object of some date holds under the key of
    one of the four prices a text other than [null] that
    [strconv.ParseFloat] rejects, the decoder returns the error of
    [encoding/json] and no bar at all. *)
Theorem series_rejects_malformed_price (rt : Runtime)
    (T : Type) (B : Bar T) (BL : BarLaws T) (seriesKey : string)
    (ts : TimeSeries.t T) (members entries fields : list (string * JSON))
    (k0 date tag f s : string) :
  (k0, JObject entries) ∈ members -> json.equalFold seriesKey k0 = true ->
  (date, JObject fields) ∈ entries ->
  (f, JString s) ∈ fields -> tag ∈ priceTags -> json.equalFold tag f = true ->
  s <> "null" -> snd (strconv.ParseFloat s) <> None ->
  seriesUnmarshalJSON seriesKey ts (Document (JObject members))
  = Err UnmarshalError.
Proof.
  intros Hk0 Hfold Hdate Hf Htag Hfoldf Hnull Hbad.
  unfold seriesUnmarshalJSON, seriesAppend.
  destruct (not_Ok_cases
              (unmarshalAux seriesKey ts (Document (JObject members))))
    as (e & He).
  - unfold unmarshalAux, json.struct.
    assert (Hloop : isOk (forRange (auxField seriesKey) members ([], ts))
                    = false).
    { eapply forRange_not_Ok; [exact Hk0|]. intros aux. unfold auxField.
      rewrite Hfold.
      assert (Hm : isOk (json.map_ (json.struct barField) barZero
                           (JObject entries) aux.1) = false).
      { simpl. eapply forRange_not_Ok; [exact Hdate|]. intros m.
        assert (Hs : isOk (json.struct barField (JObject fields) barZero)
                     = false).
        { simpl. eapply forRange_not_Ok; [exact Hf|]. intros o.
          rewrite (barField_price tag f _ o Htag Hfoldf).
          by apply quotedFloat64_rejects. }
        destruct (json.struct barField (JObject fields) barZero); done. }
      destruct (json.map_ _ _ _ _); done. }
    destruct (forRange (auxField seriesKey) members ([], ts)); done.
  - apply unmarshalAux_noPanic.
  - rewrite He. simpl. f_equal. by eapply unmarshalAux_Err.
Qed.

(** ** Where the other decoders can panic *)

Lemma forRange_panics {K V S} (body : K -> V -> S -> result S)
    (m : list (K * V)) (s : S) :
  (forall k v s, isErr (body k v s) = false) ->
  (forall k v s s', isPanic (body k v s) = isPanic (body k v s')) ->
  isPanic (forRange body m s) = true
  <-> exists k v, (k, v) ∈ m /\ isPanic (body k v s) = true.
Proof.
  intros Hne Hst. revert s. induction m as [|[k v] m IH]; simpl; intros s.
  - split; [done|]. by intros (? & ? & ?%elem_of_nil & _).
  - pose proof (Hne k v s) as He.
    destruct (body k v s) as [s1|e|p] eqn:E; simpl; [|done|].
    + rewrite IH. split.
      * intros (k' & v' & Hin & Hp). exists k', v'. split; [by right|].
        by rewrite (Hst k' v' s s1).
      * intros (k' & v' & [[= -> ->]|Hin]%elem_of_cons & Hp).
        -- by rewrite E in Hp.
        -- exists k', v'. split; [done|]. by rewrite (Hst k' v' s1 s).
    + split; [|done]. intros _. exists k, v. split; [left|]. by rewrite E.
Qed.

Lemma forRange_Panic_inv {K V S} (body : K -> V -> S -> result S)
    (m : list (K * V)) (s : S) :
  isPanic (forRange body m s) = true ->
  exists k v s', (k, v) ∈ m /\ isPanic (body k v s') = true.
Proof.
  revert s. induction m as [|[k v] m IH]; simpl; intros s; [done|].
  destruct (body k v s) as [s1|e|p] eqn:E; simpl; [|done|].
  - intros (k' & v' & s' & Hin & Hp)%IH. exists k', v', s'. split; [by right|done].
  - intros _. exists k, v, s. split; [left|]. by rewrite E.
Qed.

Section MorePanics.
Context {rt : Runtime} {laws : RuntimeLaws rt}.

Lemma quoteAuxField_noPanic (key : string) (v : JSON)
    (RawQuote : list (string * string)) :
  isPanic (quoteAuxField key v RawQuote) = false.
Proof.
  unfold quoteAuxField. repeat case_match; try done.
  - apply map_noPanic. intros x. apply string_noPanic.
  - pose proof (string_noPanic v ""). destruct (json.string_ v ""); done.
  - pose proof (quotedFloat64_noPanic v float64_zero).
    destruct (json.quotedFloat64 v float64_zero); done.
  - pose proof (quotedInt_noPanic v 0). destruct (json.quotedInt v 0); done.
Qed.

Lemma quoteAuxField_Err (key : string) (v : JSON)
    (RawQuote : list (string * string)) (e : error) :
  quoteAuxField key v RawQuote = Err e -> e = UnmarshalError.
Proof.
  unfold quoteAuxField. repeat case_match; try congruence.
  - apply map_Err. intros x e0. apply string_Err.
  - intros [?|(? & _ & [=])]%bind_Err. by eapply string_Err.
  - intros [?|(? & _ & [=])]%bind_Err. by eapply quotedFloat64_Err.
  - intros [?|(? & _ & [=])]%bind_Err. by eapply quotedInt_Err.
Qed.

Lemma unmarshalQuoteAux_noPanic (d : data) :
  isPanic (unmarshalQuoteAux d) = false.
Proof.
  unfold unmarshalQuoteAux. destruct d as [|v]; [done|].
  assert (Hs : isPanic (json.struct quoteAuxField v []) = false)
    by apply struct_noPanic, quoteAuxField_noPanic.
  destruct v; try done; destruct (json.struct _ _ _); done.
Qed.

Lemma unmarshalQuoteAux_Err (d : data) (e : error) :
  unmarshalQuoteAux d = Err e -> e = UnmarshalError.
Proof.
  unfold unmarshalQuoteAux. destruct d as [|v]; [congruence|].
  assert (Hs : forall e, json.struct quoteAuxField v [] = Err e ->
                         e = UnmarshalError)
    by (intros e0; apply struct_Err; intros ? ? ? ?; apply quoteAuxField_Err).
  destruct v; try done;
    intros [?|(? & _ & [=])]%bind_Err; by apply Hs.
Qed.

Lemma quoteFields_noPanic (RawQuote : list (string * string)) :
  isPanic (quoteFields RawQuote) = false.
Proof.
  unfold quoteFields.
  pose proof (Parse_noPanic "2006-01-02"
                (indexString RawQuote "07. latest trading day")).
  repeat match goal with
         | |- context [orErrorf ?r ?p] =>
             destruct r as [? [?|]]; simpl; [done|]
         | |- context [wrapErrorf ?r ?p] =>
             destruct r; simpl; [|done|done]
         end.
  done.
Qed.

(** The extractor of the indicator metadata fails its assertion on an
    entry exactly when the entry is a mismatch, whatever it has stored so
    far; it returns no error. *)
Lemma extractMetaDataCase_panics (k : string) (v : any)
    (m : TimeSeriesMetaData.t) :
  isPanic (extractMetaDataCase k v m) = indicatorMetaDataMismatch (k, v).
Proof.
  unfold extractMetaDataCase, indicatorMetaDataMismatch, indicatorMetaDataKeys.
  simpl.
  repeat match goal with
         | |- context [String.eqb k ?s] =>
             destruct (String.eqb_spec k s) as [->|?]; [by destruct v|]
         end.
  rewrite bool_decide_eq_false_2; [done|]. set_solver.
Qed.

Lemma extractMetaDataCase_noErr (k : string) (v : any)
    (m : TimeSeriesMetaData.t) :
  isErr (extractMetaDataCase k v m) = false.
Proof.
  unfold extractMetaDataCase. repeat case_match; try done; by destruct v.
Qed.

Lemma extractCryptoMetaDataCase_panics (k : string) (v : any)
    (m : CryptoMetaData.t) :
  isPanic (extractCryptoMetaDataCase k v m) = cryptoMetaDataMismatch (k, v).
Proof.
  unfold extractCryptoMetaDataCase, cryptoMetaDataMismatch, cryptoMetaDataKeys.
  simpl.
  repeat match goal with
         | |- context [String.eqb k ?s] =>
             destruct (String.eqb_spec k s) as [->|?]; [by destruct v|]
         end.
  rewrite bool_decide_eq_false_2; [done|]. set_solver.
Qed.

Lemma extractCryptoMetaDataCase_noErr (k : string) (v : any)
    (m : CryptoMetaData.t) :
  isErr (extractCryptoMetaDataCase k v m) = false.
Proof.
  unfold extractCryptoMetaDataCase. repeat case_match; try done; by destruct v.
Qed.

Lemma extractMetaData_panics (rawData : list (string * any)) :
  isPanic (extractMetaData rawData) = true
  <-> exists kv, kv ∈ rawData /\ indicatorMetaDataMismatch kv = true.
Proof.
  unfold extractMetaData. rewrite forRange_panics.
  - split.
    + intros (k & v & Hin & Hp). exists (k, v).
      rewrite (mapiter_perm _ rawData) in Hin.
      by rewrite extractMetaDataCase_panics in Hp.
    + intros ([k v] & Hin & Hp). exists k, v.
      rewrite (mapiter_perm _ rawData).
      by rewrite extractMetaDataCase_panics.
  - apply extractMetaDataCase_noErr.
  - intros k v s s'. by rewrite !extractMetaDataCase_panics.
Qed.

Lemma extractCryptoMetaData_panics (rawData : list (string * any)) :
  isPanic (extractCryptoMetaData rawData) = true
  <-> exists kv, kv ∈ rawData /\ cryptoMetaDataMismatch kv = true.
Proof.
  unfold extractCryptoMetaData. rewrite forRange_panics.
  - split.
    + intros (k & v & Hin & Hp). exists (k, v).
      rewrite (mapiter_perm _ rawData) in Hin.
      by rewrite extractCryptoMetaDataCase_panics in Hp.
    + intros ([k v] & Hin & Hp). exists k, v.
      rewrite (mapiter_perm _ rawData).
      by rewrite extractCryptoMetaDataCase_panics.
  - apply extractCryptoMetaDataCase_noErr.
  - intros k v s s'. by rewrite !extractCryptoMetaDataCase_panics.
Qed.

Lemma indicatorValue_noPanic (name : string) (rawValue : any)
    (valueMap : gmap string float64) :
  isPanic (indicatorValue name rawValue valueMap) = false.
Proof. unfold indicatorValue. repeat case_match; done. Qed.

Lemma indicatorEntry_noPanic (k : string) (v : any) (i : IndicatorResponse.t) :
  isPanic (indicatorEntry k v i) = false.
Proof.
  unfold indicatorEntry. pose proof (Parse_noPanic "2006-01-02 15:04" k).
  destruct (time.Parse "2006-01-02 15:04" k); try done. simpl.
  destruct v; try done.
  pose proof (forRange_noPanic indicatorValue (mapiter m) ∅
                indicatorValue_noPanic).
  destruct (forRange indicatorValue (mapiter m) ∅); done.
Qed.

Lemma cryptoNumber_panics (valuesMap : list (string * any)) (name : string) :
  isPanic (cryptoNumber valuesMap name)
  = negb (isString (index valuesMap name)).
Proof. unfold cryptoNumber. by destruct (index valuesMap name). Qed.

Lemma cryptoEntry_panics (date : string) (values : any)
    (c : CryptoSeriesResponse.t) :
  isPanic (cryptoEntry date values c) = true ->
  exists valuesMap name,
    values = amap valuesMap /\ name ∈ cryptoNumberKeys
    /\ isString (index valuesMap name) = false.
Proof.
  unfold cryptoEntry. pose proof (Parse_noPanic "2006-01-02" date).
  destruct (time.Parse "2006-01-02" date); try done. simpl.
  destruct values as [| | | | |valuesMap]; try done. intros Hp.
  exists valuesMap. unfold cryptoNumberKeys.
  repeat match type of Hp with
         | context [cryptoNumber valuesMap ?name] =>
             let E := fresh "E" in
             pose proof (cryptoNumber_panics valuesMap name) as E;
             destruct (cryptoNumber valuesMap name); simpl in Hp, E;
               [|done|exists name; split; [done|];
                  split; [set_solver|by apply negb_true_iff]]
         end.
  done.
Qed.

End MorePanics.

(** X6.  The decoders that fill a helper struct dereference it after
    [json.Unmarshal]; the document [null] leaves it nil.  It is the only
    payload on which they panic: the six kinds with a fixed series key and
    the quote decoder panic exactly on the document [null], and return
    (a value or an error) on every other payload, well-formed or not. *)
Theorem helper_struct_decoders_panic_on_null_only (rt : Runtime) :
  (forall (T : Type) (B : Bar T) (BL : BarLaws T) (seriesKey : string)
      (ts : TimeSeries.t T) (d : data),
      isPanic (seriesUnmarshalJSON seriesKey ts d) = true
      <-> d = Document JNull)
  /\ (forall (q : Quote.t) (d : data),
      isPanic (Quote_UnmarshalJSON q d) = true <-> d = Document JNull).
Proof.
  split.
  - intros T B BL seriesKey ts d. split; [|by intros ->].
    unfold seriesUnmarshalJSON, seriesAppend.
    pose proof (unmarshalAux_noPanic seriesKey ts d) as Hnp.
    destruct (unmarshalAux seriesKey ts d) as [[[raw ts0]|]|e|p] eqn:Haux;
      try done; simpl.
    + pose proof (forRange_noPanic seriesEntry (mapiter raw)
                    (TimeSeries.setTimeSeries [] ts0) seriesEntry_noPanic).
      destruct (forRange seriesEntry _ _); done.
    + intros _. unfold unmarshalAux in Haux.
      destruct d as [|v]; [done|].
      destruct v; try done; by apply bind_Ok in Haux as (? & _ & [=]).
  - intros q d. split; [|by intros ->].
    unfold Quote_UnmarshalJSON.
    pose proof (unmarshalQuoteAux_noPanic d) as Hnp.
    destruct (unmarshalQuoteAux d) as [[raw|]|e|p] eqn:Haux; try done; simpl.
    + by rewrite quoteFields_noPanic.
    + intros _. unfold unmarshalQuoteAux in Haux.
      destruct d as [|v]; [done|].
      destruct v; try done; by apply bind_Ok in Haux as (? & _ & [=]).
Qed.

(** X7.  The indicator decoder panics exactly on the payloads whose
    ["Meta Data"] object holds a recognised key with a value of the wrong
    type: a value that is not a number under ["5: Time Period"], or a value
    that is not a string under one of the six other keys.  On every other
    payload the call returns. *)
Theorem indicator_panics_on_metadata_mismatch_only (rt : Runtime)
    (laws : RuntimeLaws rt) (i : IndicatorResponse.t) (d : data)
    (indicatorName : string) :
  isPanic (UnmarshalIndicatorJSON i d indicatorName) = true
  <-> exists raw metaData kv,
        json.UnmarshalMap d = Ok raw
        /\ index raw "Meta Data" = amap metaData
        /\ kv ∈ metaData
        /\ indicatorMetaDataMismatch kv = true.
Proof.
  unfold UnmarshalIndicatorJSON, indicatorAppend.
  pose proof (UnmarshalMap_noPanic d) as Hnp.
  destruct (json.UnmarshalMap d) as [raw| |] eqn:Hraw; simpl.
  2,3: split; [done|]; by intros (? & ? & ? & [=] & _).
  assert (Hloop : forall i0 : IndicatorResponse.t,
            isPanic
              (i1 <- match index raw (String.append "Technical Analysis: "
                                        indicatorName) with
                     | amap tsData =>
                         forRange indicatorEntry (mapiter tsData) i0
                     | _ => Ok i0
                     end ;;
               Ok (IndicatorResponse.setIndicatorValues
                     (sort.SliceStable (IndicatorResponse.IndicatorValues i1)
                        (fun a b =>
                           time.Before (IndicatorValue.Timestamp a)
                             (IndicatorValue.Timestamp b))) i1)) = false).
  { intros i0. destruct (index raw _); try done.
    pose proof (forRange_noPanic indicatorEntry (mapiter m) i0
                  indicatorEntry_noPanic).
    destruct (forRange indicatorEntry (mapiter m) i0); done. }
  destruct (index raw "Meta Data") as [| | | | |metaData] eqn:Hmd; simpl.
  1-5: rewrite Hloop; split; [done|];
       by intros (? & ? & ? & [= <-] & ? & _); congruence.
  pose proof (extractMetaData_panics metaData) as Hp.
  destruct (extractMetaData metaData) as [m| |] eqn:Hm; simpl.
  - rewrite Hloop. split; [done|].
    intros (? & md & kv & [= <-] & Hmd' & Hin & Hmis).
    rewrite Hmd in Hmd'. injection Hmd' as <-.
    assert (false = true) by (apply Hp; eauto). done.
  - pose proof (extractMetaData_noErr metaData) as He.
    by rewrite Hm in He.
  - split; [|done]. intros _.
    destruct (proj1 Hp eq_refl) as (kv & Hin & Hmis).
    by exists raw, metaData, kv.
Qed.

(** X8.  The crypto decoder panics only on a type assertion that fails: on a
    ["Meta Data"] object with a recognised key that holds no string, on a
    top-level key that starts with [Time Series] and holds no object, or on
    a dated object in which one of the six sub-fields the decoder reads is
    missing or holds no string.  A payload with none of these never makes
    it panic. *)
Theorem crypto_panics_only_on_failed_assertion (rt : Runtime)
    (laws : RuntimeLaws rt) (c : CryptoSeriesResponse.t) (d : data) :
  isPanic (UnmarshalCryptoJSON c d) = true ->
  exists raw,
    json.UnmarshalMap d = Ok raw
    /\ ((exists metaData kv,
            index raw "Meta Data" = amap metaData
            /\ kv ∈ metaData /\ cryptoMetaDataMismatch kv = true)
        \/ (exists tsKey tsData,
              (tsKey, tsData) ∈ raw
              /\ String.prefix "Time Series" tsKey = true
              /\ (isMap tsData = false
                  \/ exists timeSeriesMap date valuesMap name,
                       tsData = amap timeSeriesMap
                       /\ (date, amap valuesMap) ∈ timeSeriesMap
                       /\ name ∈ cryptoNumberKeys
                       /\ isString (index valuesMap name) = false))).
Proof.
  unfold UnmarshalCryptoJSON, cryptoAppend.
  pose proof (UnmarshalMap_noPanic d) as Hnp.
  destruct (json.UnmarshalMap d) as [raw| |] eqn:Hraw; simpl; try done.
  intros Hp. exists raw. split; [done|].
  apply bind_Panic in Hp as [Hp|(c1 & _ & Hp)]; [|done].
  apply bind_Panic in Hp as [Hp|(c0 & _ & Hp)].
  - left. destruct (index raw "Meta Data") as [| | | | |metaData]; try done.
    apply bind_Panic in Hp as [Hp|(? & _ & Hp)]; [|done].
    apply extractCryptoMetaData_panics in Hp as (kv & Hin & Hmis).
    by exists metaData, kv.
  - right. apply forRange_Panic_inv in Hp as (tsKey & tsData & c2 & Hin & Hp).
    rewrite (mapiter_perm _ raw) in Hin.
    exists tsKey, tsData. split; [done|]. unfold cryptoSeries in Hp.
    destruct (String.prefix "Time Series" tsKey); [|done]. split; [done|].
    destruct tsData as [| | | | |timeSeriesMap]; try (by left). right.
    simpl in Hp.
    apply forRange_Panic_inv in Hp as (date & values & c3 & Hin' & Hp).
    rewrite (mapiter_perm _ timeSeriesMap) in Hin'.
    apply cryptoEntry_panics in Hp as (valuesMap & name & -> & Hname & Hs).
    by exists timeSeriesMap, date, valuesMap, name.
Qed.

(** ** The errors a caller can meet *)

(** The error of a loop is the error of one of its iterations. *)
Ltac forRange_err H :=
  match type of H with
  | forRange _ _ _ = Err ?e =>
      pattern e;
      match goal with
      | |- ?Q e => eapply (forRange_Err Q); [clear H|exact H]; cbv beta
      end
  end.

Section Errors.
Context {rt : Runtime}.

Lemma UnmarshalMap_Err (d : data) (e : error) :
  json.UnmarshalMap d = Err e -> e = UnmarshalError.
Proof. unfold json.UnmarshalMap. repeat case_match; congruence. Qed.

Lemma intradayMetaData_noErr (metaData : list (string * any))
    (m : TimeSeriesMetaData.t) :
  isErr (intradayMetaData metaData m) = false.
Proof.
  unfold intradayMetaData.
  repeat match goal with
         | |- context [assertString ?x] => destruct x; simpl; try done
         end.
Qed.

Lemma orErrorf_Err {A} (r : A * option error) (prefix : string) (e : error) :
  orErrorf r prefix = Err e -> exists cause, e = Errorf prefix cause.
Proof. destruct r as [a [err|]]; simpl; intros [= <-]. by eexists. Qed.

Lemma wrapErrorf_Err {A} (r : result A) (prefix : string) (e : error) :
  wrapErrorf r prefix = Err e -> exists cause, e = Errorf prefix cause.
Proof. destruct r; simpl; intros [= <-]. by eexists. Qed.

End Errors.

(** X9.  Every error a decoder returns is of one of a few kinds.
    - Intraday: the error of [encoding/json], the parse error of a
      timestamp key, or [expected map for time series data].
    - The six kinds with a fixed series key: the error of [encoding/json]
      or the parse error of a date key.
    - Quote: the error of [encoding/json], or [error parsing '<name>': ]
      followed by its cause, for one of the eight parsed fields.
    - Indicator: the error of [encoding/json], the parse error of a
      timestamp key, [expected map for each timestamp data], or the error
      of [strconv.ParseFloat] on a sub-field.
    - Crypto: the error of [encoding/json], the parse error of a date key,
      or [expected map for timestamp data]; never an error about a
      number. *)
Theorem decoder_errors_are_of_known_kinds (rt : Runtime) :
  (forall (t : TimeSeriesIntraday) (d : data) (e : error),
      TimeSeriesIntraday_UnmarshalJSON t d = Err e ->
      e = UnmarshalError
      \/ (exists k, e = ParseError "2006-01-02 15:04:05" k)
      \/ e = ErrorNew "expected map for time series data")
  /\ (forall (T : Type) (B : Bar T) (BL : BarLaws T) (seriesKey : string)
        (ts : TimeSeries.t T) (d : data) (e : error),
      seriesUnmarshalJSON seriesKey ts d = Err e ->
      e = UnmarshalError \/ exists k, e = ParseError "2006-01-02" k)
  /\ (forall (q : Quote.t) (d : data) (e : error),
      Quote_UnmarshalJSON q d = Err e ->
      e = UnmarshalError
      \/ exists f cause,
           f ∈ quoteParsedFields
           /\ e = Errorf (String.append "error parsing '"
                            (String.append (quoteName f) "': ")) cause)
  /\ (forall (i : IndicatorResponse.t) (d : data) (indicatorName : string)
        (e : error),
      UnmarshalIndicatorJSON i d indicatorName = Err e ->
      e = UnmarshalError
      \/ (exists k, e = ParseError "2006-01-02 15:04" k)
      \/ e = ErrorNew "expected map for each timestamp data"
      \/ exists s cause, e = NumError "ParseFloat" s cause)
  /\ (forall (c : CryptoSeriesResponse.t) (d : data) (e : error),
      UnmarshalCryptoJSON c d = Err e ->
      e = UnmarshalError
      \/ (exists k, e = ParseError "2006-01-02" k)
      \/ e = ErrorNew "expected map for timestamp data").
Proof.
  split; [|split; [|split; [|split]]].
  - intros t d e. unfold TimeSeriesIntraday_UnmarshalJSON, intradayAppend.
    intros [H|(? & _ & [=])]%bind_Err.
    apply bind_Err in H as [H|(raw & _ & H)];
      [left; by eapply UnmarshalMap_Err|].
    apply bind_Err in H as [H|(t0 & _ & H)].
    { destruct (index raw "Meta Data") as [| | | | |metaData]; try done.
      pose proof (intradayMetaData_noErr metaData (TimeSeries.MetaData t)) as Hn.
      apply bind_Err in H as [H|(? & _ & [=])]. by rewrite H in Hn. }
    forRange_err H. intros key value s e0 _.
    unfold intradaySeries. destruct (String.prefix _ _); [|done].
    destruct value; try (intros [= <-]; by right; right).
    intros H. forRange_err H. intros k v s0 e1 _. unfold intradayEntry.
    intros [H|(ts & _ & H)]%bind_Err.
    + right; left. exists k. by eapply Parse_Err.
    + apply bind_Err in H as [H|(? & _ & [=])]. left.
      eapply struct_Err; [|exact H]. apply OHLCV_field_Err.
  - intros T B BL seriesKey ts d e. unfold seriesUnmarshalJSON, seriesAppend.
    intros [H|(? & _ & [=])]%bind_Err.
    apply bind_Err in H as [H|(aux & _ & H)];
      [left; by eapply unmarshalAux_Err|].
    destruct aux as [[raw ts0]|]; [|done]. right.
    forRange_err H. intros k o s e0 _. unfold seriesEntry.
    intros [H|(? & _ & [=])]%bind_Err. exists k. by eapply Parse_Err.
  - intros q d e. unfold Quote_UnmarshalJSON.
    intros [H|(aux & _ & H)]%bind_Err;
      [left; by eapply unmarshalQuoteAux_Err|].
    destruct aux as [RawQuote|]; [|done]. right. unfold quoteFields in H.
    unfold quoteParsedFields.
    apply bind_Err in H as [(cause & ->)%orErrorf_Err|(? & _ & H)];
      [exists qOpen, cause; split; [set_solver|done]|].
    apply bind_Err in H as [(cause & ->)%orErrorf_Err|(? & _ & H)];
      [exists qHigh, cause; split; [set_solver|done]|].
    apply bind_Err in H as [(cause & ->)%orErrorf_Err|(? & _ & H)];
      [exists qLow, cause; split; [set_solver|done]|].
    apply bind_Err in H as [(cause & ->)%orErrorf_Err|(? & _ & H)];
      [exists qPrice, cause; split; [set_solver|done]|].
    apply bind_Err in H as [(cause & ->)%orErrorf_Err|(? & _ & H)];
      [exists qVolume, cause; split; [set_solver|done]|].
    apply bind_Err in H as [(cause & ->)%wrapErrorf_Err|(? & _ & H)];
      [exists qLatestTradingDay, cause; split; [set_solver|done]|].
    apply bind_Err in H as [(cause & ->)%orErrorf_Err|(? & _ & H)];
      [exists qPreviousClose, cause; split; [set_solver|done]|].
    apply bind_Err in H as [(cause & ->)%orErrorf_Err|(? & _ & H)];
      [exists qChange, cause; split; [set_solver|done]|].
    done.
  - intros i d indicatorName e. unfold UnmarshalIndicatorJSON, indicatorAppend.
    intros [H|(? & _ & [=])]%bind_Err.
    apply bind_Err in H as [H|(raw & _ & H)];
      [left; by eapply UnmarshalMap_Err|].
    apply bind_Err in H as [H|(i0 & _ & H)].
    { destruct (index raw "Meta Data") as [| | | | |metaData]; try done.
      pose proof (extractMetaData_noErr (rt:=rt) metaData) as Hn.
      apply bind_Err in H as [H|(? & _ & [=])]. by rewrite H in Hn. }
    destruct (index raw _) as [| | | | |tsData]; try done.
    forRange_err H. intros k v s e0 _. unfold indicatorEntry.
    intros [H|(ts & _ & H)]%bind_Err.
    + right; left. exists k. by eapply Parse_Err.
    + destruct v as [| | | | |indicatorData];
        try (injection H as <-; by right; right; left).
      apply bind_Err in H as [H|(? & _ & [=])]. right; right; right.
      forRange_err H. intros name x vm e1 _.
      unfold indicatorValue. destruct x; try done.
      destruct (strconv.ParseFloat s0) as [f [err|]] eqn:Ef; [|done].
      intros [= <-]. apply ParseFloat_error in Ef as (cause & ->). eauto.
  - intros c d e. unfold UnmarshalCryptoJSON, cryptoAppend.
    intros [H|(? & _ & [=])]%bind_Err.
    apply bind_Err in H as [H|(raw & _ & H)];
      [left; by eapply UnmarshalMap_Err|].
    apply bind_Err in H as [H|(c0 & _ & H)].
    { destruct (index raw "Meta Data") as [| | | | |metaData]; try done.
      pose proof (forRange_noErr extractCryptoMetaDataCase (mapiter metaData)
                    CryptoMetaData.zero extractCryptoMetaDataCase_noErr) as Hn.
      apply bind_Err in H as [H|(? & _ & [=])].
      unfold extractCryptoMetaData in H. by rewrite H in Hn. }
    forRange_err H. intros tsKey tsData s e0 _.
    unfold cryptoSeries. destruct (String.prefix _ _); [|done].
    intros [H|(timeSeriesMap & _ & H)]%bind_Err; [by destruct tsData|].
    forRange_err H. intros date values s0 e1 _.
    unfold cryptoEntry. intros [H|(ts & _ & H)]%bind_Err.
    + right; left. exists date. by eapply Parse_Err.
    + destruct values as [| | | | |valuesMap];
        try (injection H as <-; by right; right).
      unfold cryptoNumber in H.
      repeat (apply bind_Err in H as [H|(? & _ & H)];
              [apply bind_Err in H as [H|(? & _ & [=])];
               by destruct (index valuesMap _)|]).
      done.
Qed.

(** ** Loops that append *)

Section Collect.
Context {K V S A : Type} (seq : S -> list A).

(** A loop whose body appends one element per entry. *)
Lemma forRange_collect1 (R : K * V -> A -> Prop)
    (body : K -> V -> S -> result S) (l : list (K * V)) (s s' : S) :
  (forall k v s s', body k v s = Ok s' ->
                    exists a, R (k, v) a /\ seq s' = (seq s ++ [a])%list) ->
  forRange body l s = Ok s' ->
  exists new, seq s' = (seq s ++ new)%list /\ Forall2 R l new.
Proof.
  intros Hbody. revert s. induction l as [|[k v] l IH]; simpl; intros s.
  - intros [= <-]. exists []. by rewrite app_nil_r.
  - intros (s1 & H1 & H2)%bind_Ok.
    apply Hbody in H1 as (a & Ha & Hs1).
    apply IH in H2 as (new & Hnew & Hall).
    exists (a :: new). rewrite Hnew, Hs1, <- app_assoc. by split; [|constructor].
Qed.

(** A loop whose body appends some elements per entry: what it appends in
    all. *)
Lemma forRange_collect (cnt : K * V -> nat) (R : K * V -> A -> Prop)
    (body : K -> V -> S -> result S) (l : list (K * V)) (s s' : S) :
  (forall k v s s', body k v s = Ok s' ->
     exists new, seq s' = (seq s ++ new)%list
                 /\ length new = cnt (k, v)
                 /\ forall a, a ∈ new <-> R (k, v) a) ->
  forRange body l s = Ok s' ->
  exists new, seq s' = (seq s ++ new)%list
              /\ length new = sum_list_with cnt l
              /\ forall a, a ∈ new <-> exists kv, kv ∈ l /\ R kv a.
Proof.
  intros Hbody. revert s. induction l as [|[k v] l IH]; simpl; intros s.
  - intros [= <-]. exists []. rewrite app_nil_r. split; [done|]. split; [done|].
    intros a. split; [by intros ?%elem_of_nil|].
    by intros (? & ?%elem_of_nil & _).
  - intros (s1 & H1 & H2)%bind_Ok.
    apply Hbody in H1 as (new1 & Hs1 & Hlen1 & Hin1).
    apply IH in H2 as (new2 & Hs2 & Hlen2 & Hin2).
    exists (new1 ++ new2)%list. rewrite Hs2, Hs1, <- app_assoc.
    split; [done|]. split; [rewrite length_app; lia|].
    intros a. rewrite elem_of_app, Hin1, Hin2. split.
    + intros [Ha|(kv & Hkv & Ha)]; [exists (k, v)|exists kv];
        (split; [|done]); [left|by right].
    + intros (kv & [->|Hkv]%elem_of_cons & Ha); [by left|right; eauto].
Qed.

End Collect.

(** Where each element of the second list is determined by its partner. *)
Lemma Forall2_elem_of {A B} (R : A -> B -> Prop) (l : list A) (k : list B)
    (b : B) :
  (forall a b b', R a b -> R a b' -> b = b') ->
  Forall2 R l k -> b ∈ k <-> exists a, a ∈ l /\ R a b.
Proof.
  intros Hfun Hall. split.
  - intros (i & Hi)%list_elem_of_lookup.
    destruct (Forall2_lookup_r _ _ _ _ _ Hall Hi) as (a & Ha & HR).
    exists a. split; [by eapply list_elem_of_lookup_2|done].
  - intros (a & (i & Hi)%list_elem_of_lookup & HR).
    destruct (Forall2_lookup_l _ _ _ _ _ Hall Hi) as (b' & Hb' & HR').
    rewrite (Hfun _ _ _ HR HR'). by eapply list_elem_of_lookup_2.
Qed.

Lemma intradayBar_fun (kv : string * any) (o o' : OHLCV.t) :
  intradayBar kv o -> intradayBar kv o' -> o = o'.
Proof. intros (t & Ht & Ho) (t' & Ht' & Ho'). congruence. Qed.

Lemma cryptoEntryOf_fun (kv : string * any) (b b' : CryptoTimeSeriesData.t) :
  cryptoEntryOf kv b -> cryptoEntryOf kv b' -> b = b'.
Proof. intros (t & vm & Ht & Hv & ->) (t' & vm' & Ht' & Hv' & ->). congruence. Qed.

Section Streamed.
Context {rt : Runtime} {laws : RuntimeLaws rt}.

Lemma seriesCount_mapiter (raw : list (string * any)) :
  seriesCount (mapiter raw) = seriesCount raw.
Proof. unfold seriesCount. by rewrite (mapiter_perm _ raw). Qed.

Lemma intradayEntry_bar (k : string) (v : any) (t t' : TimeSeriesIntraday) :
  intradayEntry k v t = Ok t' ->
  exists o, intradayBar (k, v) o
            /\ t' = TimeSeries.setTimeSeries
                      (TimeSeries.TimeSeries t ++ [o])%list t.
Proof.
  unfold intradayEntry.
  intros (ts & Hts & (o & Ho & [= <-])%bind_Ok)%bind_Ok.
  exists o. split; [by exists ts|done].
Qed.

(** What one top-level entry contributes to the intraday sequence. *)
Lemma intradaySeries_bars (key : string) (value : any)
    (t t' : TimeSeriesIntraday) :
  intradaySeries key value t = Ok t' ->
  TimeSeries.MetaData t' = TimeSeries.MetaData t
  /\ exists new,
       TimeSeries.TimeSeries t' = (TimeSeries.TimeSeries t ++ new)%list
       /\ length new
          = (if String.prefix "Time Series" key then
               match value with amap tsData => length tsData | _ => O end
             else O)
       /\ forall o, o ∈ new
            <-> String.prefix "Time Series" key = true
                /\ exists tsData kv,
                     value = amap tsData /\ kv ∈ tsData /\ intradayBar kv o.
Proof.
  unfold intradaySeries. destruct (String.prefix "Time Series" key).
  - destruct value as [| | | | |tsData]; try done. intros Hloop. split.
    + eapply (forRange_inv
                (fun s => TimeSeries.MetaData s = TimeSeries.MetaData t));
        [|exact Hloop|done].
      intros k v s s' (o & _ & ->)%intradayEntry_bar. done.
    + eapply (forRange_collect1 TimeSeries.TimeSeries intradayBar) in Hloop
        as (new & Hnew & Hall).
      * exists new. split; [done|]. split.
        -- rewrite <- (Forall2_length _ _ _ Hall).
           by rewrite (mapiter_perm _ tsData).
        -- intros o. rewrite (Forall2_elem_of _ _ _ _ intradayBar_fun Hall).
           split.
           ++ intros (kv & Hin & Hbar). split; [done|].
              exists tsData, kv. split; [done|]. split; [|done].
              by rewrite <- (mapiter_perm _ tsData).
           ++ intros (_ & tsData' & kv & [= <-] & Hin & Hbar).
              exists kv. split; [|done]. by rewrite (mapiter_perm _ tsData).
      * intros k v s s' (o & Ho & ->)%intradayEntry_bar. by exists o.
  - intros [= <-]. split; [done|]. exists []. rewrite app_nil_r.
    split; [done|]. split; [done|]. intros o.
    split; [by intros ?%elem_of_nil|by intros [? _]].
Qed.

Lemma cryptoNumber_Ok (valuesMap : list (string * any)) (name : string)
    (f : float64) :
  cryptoNumber valuesMap name = Ok f -> f = cryptoValue valuesMap name.
Proof.
  unfold cryptoNumber, cryptoValue, stringAt.
  destruct (index valuesMap name); simpl; try done. by intros [= <-].
Qed.

Lemma cryptoEntry_bar (date : string) (values : any)
    (c c' : CryptoSeriesResponse.t) :
  cryptoEntry date values c = Ok c' ->
  exists bar, cryptoEntryOf (date, values) bar
    /\ c' = CryptoSeriesResponse.setTimeSeries
              (CryptoSeriesResponse.TimeSeries c ++ [bar])%list c.
Proof.
  unfold cryptoEntry. intros (ts & Hts & H)%bind_Ok.
  destruct values as [| | | | |valuesMap]; try done.
  repeat (apply bind_Ok in H as (? & ->%cryptoNumber_Ok & H)).
  injection H as <-. eexists. split; [|done]. by exists ts, valuesMap.
Qed.

(** What one top-level entry contributes to the crypto sequence. *)
Lemma cryptoSeries_bars (tsKey : string) (tsData : any)
    (c c' : CryptoSeriesResponse.t) :
  cryptoSeries tsKey tsData c = Ok c' ->
  CryptoSeriesResponse.MetaData c' = CryptoSeriesResponse.MetaData c
  /\ CryptoSeriesResponse.IntervalLabel c'
     = (if String.prefix "Time Series" tsKey then tsKey
        else CryptoSeriesResponse.IntervalLabel c)
  /\ exists new,
       CryptoSeriesResponse.TimeSeries c'
       = (CryptoSeriesResponse.TimeSeries c ++ new)%list
       /\ length new
          = (if String.prefix "Time Series" tsKey then
               match tsData with amap m => length m | _ => O end
             else O)
       /\ forall bar, bar ∈ new
            <-> String.prefix "Time Series" tsKey = true
                /\ exists timeSeriesMap kv,
                     tsData = amap timeSeriesMap /\ kv ∈ timeSeriesMap
                     /\ cryptoEntryOf kv bar.
Proof.
  unfold cryptoSeries. destruct (String.prefix "Time Series" tsKey).
  - destruct tsData as [| | | | |timeSeriesMap]; try done. simpl.
    intros Hloop. split; [|split].
    + eapply (forRange_inv
                (fun s => CryptoSeriesResponse.MetaData s
                          = CryptoSeriesResponse.MetaData c));
        [|exact Hloop|done].
      intros k v s s' (o & _ & ->)%cryptoEntry_bar. done.
    + eapply (forRange_inv
                (fun s => CryptoSeriesResponse.IntervalLabel s = tsKey));
        [|exact Hloop|done].
      intros k v s s' (o & _ & ->)%cryptoEntry_bar. done.
    + eapply (forRange_collect1 CryptoSeriesResponse.TimeSeries cryptoEntryOf)
        in Hloop as (new & Hnew & Hall).
      * exists new. split; [done|]. split.
        -- rewrite <- (Forall2_length _ _ _ Hall).
           by rewrite (mapiter_perm _ timeSeriesMap).
        -- intros o. rewrite (Forall2_elem_of _ _ _ _ cryptoEntryOf_fun Hall).
           split.
           ++ intros (kv & Hin & Hbar). split; [done|].
              exists timeSeriesMap, kv. split; [done|]. split; [|done].
              by rewrite <- (mapiter_perm _ timeSeriesMap).
           ++ intros (_ & tsData' & kv & [= <-] & Hin & Hbar).
              exists kv. split; [|done].
              by rewrite (mapiter_perm _ timeSeriesMap).
      * intros k v s s' (o & Ho & ->)%cryptoEntry_bar. by exists o.
  - intros [= <-]. split; [done|]. split; [done|]. exists []. rewrite app_nil_r.
    split; [done|]. split; [done|]. intros o.
    split; [by intros ?%elem_of_nil|by intros [? _]].
Qed.

End Streamed.

(** ** The decoders that walk the payload, from payload to entries *)

(** X10.  In a successful intraday decode the sequence is what the receiver held
    and, for every top-level key that starts with [Time Series], one bar
    for every timestamp of its object: the bar decoded from the fields of
    that timestamp.  Nothing else is added and no timestamp is dropped, so
    [Length] grows by the number of timestamps of the payload. *)
Theorem intraday_one_bar_per_timestamp (rt : Runtime) (laws : RuntimeLaws rt)
    (t t' : TimeSeriesIntraday) (d : data) (raw : list (string * any)) :
  json.UnmarshalMap d = Ok raw ->
  TimeSeriesIntraday_UnmarshalJSON t d = Ok t' ->
  exists new,
    TimeSeries.TimeSeries t' ≡ₚ (TimeSeries.TimeSeries t ++ new)%list
    /\ length new = seriesCount raw
    /\ (forall o, o ∈ new
          <-> exists key tsData kv,
                (key, amap tsData) ∈ raw
                /\ String.prefix "Time Series" key = true
                /\ kv ∈ tsData /\ intradayBar kv o)
    /\ TimeSeriesIntraday_Length t'
       = TimeSeriesIntraday_Length t + Z.of_nat (seriesCount raw).
Proof.
  intros Hraw (t1 & Happ & _ & Hts)%intraday_result.
  unfold intradayAppend in Happ. rewrite Hraw in Happ. simpl in Happ.
  apply bind_Ok in Happ as (t0 & Hmd & Hloop).
  assert (Ht0 : TimeSeries.TimeSeries t0 = TimeSeries.TimeSeries t).
  { destruct (index raw "Meta Data"); try (by injection Hmd as <-).
    by apply bind_Ok in Hmd as (m0 & _ & [= <-]). }
  eapply (forRange_collect TimeSeries.TimeSeries
            (fun kv : string * any =>
               if String.prefix "Time Series" kv.1 then
                 match kv.2 with amap tsData => length tsData | _ => O end
               else O)
            (fun (kv : string * any) o =>
               String.prefix "Time Series" kv.1 = true
               /\ exists tsData kv',
                    kv.2 = amap tsData /\ kv' ∈ tsData /\ intradayBar kv' o))
    in Hloop as (new & Hnew & Hlen & Hin).
  2: { intros k v s s' (_ & Hb)%intradaySeries_bars. exact Hb. }
  rewrite Ht0 in Hnew.
  assert (Hlen' : length new = seriesCount raw)
    by (rewrite Hlen; apply seriesCount_mapiter).
  exists new. split; [by rewrite Hts, SliceStable_perm, Hnew|]. split; [done|].
  split.
  - intros o. rewrite Hin. split.
    + intros ([key value] & Hkv & Hpre & tsData & kv & Hv & Hkv' & Hbar).
      simpl in *. subst value. rewrite (mapiter_perm _ raw) in Hkv.
      by exists key, tsData, kv.
    + intros (key & tsData & kv & Hkv & Hpre & Hkv' & Hbar).
      exists (key, amap tsData). rewrite (mapiter_perm _ raw).
      split; [done|]. split; [done|]. by exists tsData, kv.
  - unfold TimeSeriesIntraday_Length, seriesLength.
    rewrite Hts, SliceStable_perm, Hnew, length_app. lia.
Qed.

(** X11.  In a successful crypto decode the sequence is what the receiver held
    and, for every top-level key that starts with [Time Series], one entry
    for every date of its object.  Each of the six numbers of an entry is
    what [strconv.ParseFloat] returns for the text of its sub-field, with
    the error dropped: zero for a text that is no number. *)
Theorem crypto_one_entry_per_date (rt : Runtime) (laws : RuntimeLaws rt)
    (c c' : CryptoSeriesResponse.t) (d : data) (raw : list (string * any)) :
  json.UnmarshalMap d = Ok raw ->
  UnmarshalCryptoJSON c d = Ok c' ->
  exists new,
    CryptoSeriesResponse.TimeSeries c'
    ≡ₚ (CryptoSeriesResponse.TimeSeries c ++ new)%list
    /\ length new = seriesCount raw
    /\ forall bar, bar ∈ new
         <-> exists tsKey timeSeriesMap kv,
               (tsKey, amap timeSeriesMap) ∈ raw
               /\ String.prefix "Time Series" tsKey = true
               /\ kv ∈ timeSeriesMap /\ cryptoEntryOf kv bar.
Proof.
  intros Hraw (c1 & Happ & _ & _ & Hts)%crypto_result.
  unfold cryptoAppend in Happ. rewrite Hraw in Happ. simpl in Happ.
  apply bind_Ok in Happ as (c0 & Hmd & Hloop).
  assert (Hc0 : CryptoSeriesResponse.TimeSeries c0
                = CryptoSeriesResponse.TimeSeries c).
  { destruct (index raw "Meta Data"); try (by injection Hmd as <-).
    by apply bind_Ok in Hmd as (m0 & _ & [= <-]). }
  eapply (forRange_collect CryptoSeriesResponse.TimeSeries
            (fun kv : string * any =>
               if String.prefix "Time Series" kv.1 then
                 match kv.2 with amap tsData => length tsData | _ => O end
               else O)
            (fun (kv : string * any) bar =>
               String.prefix "Time Series" kv.1 = true
               /\ exists timeSeriesMap kv',
                    kv.2 = amap timeSeriesMap /\ kv' ∈ timeSeriesMap
                    /\ cryptoEntryOf kv' bar))
    in Hloop as (new & Hnew & Hlen & Hin).
  2: { intros k v s s' (_ & _ & Hb)%cryptoSeries_bars. exact Hb. }
  rewrite Hc0 in Hnew.
  exists new. split; [by rewrite Hts, SliceStable_perm, Hnew|].
  split; [rewrite Hlen; apply seriesCount_mapiter|].
  intros bar. rewrite Hin. split.
  - intros ([key value] & Hkv & Hpre & tsData & kv & Hv & Hkv' & Hbar).
    simpl in *. subst value. rewrite (mapiter_perm _ raw) in Hkv.
    by exists key, tsData, kv.
  - intros (key & tsData & kv & Hkv & Hpre & Hkv' & Hbar).
    exists (key, amap tsData). rewrite (mapiter_perm _ raw).
    split; [done|]. split; [done|]. by exists tsData, kv.
Qed.

Section IntervalLabel.
Context {rt : Runtime} {laws : RuntimeLaws rt}.

Lemma cryptoSeries_label (l : list (string * any))
    (c c' : CryptoSeriesResponse.t) :
  forRange cryptoSeries l c = Ok c' ->
  (CryptoSeriesResponse.IntervalLabel c' ∈ keys l
   /\ String.prefix "Time Series" (CryptoSeriesResponse.IntervalLabel c')
      = true)
  \/ ((forall k, k ∈ keys l -> String.prefix "Time Series" k = false)
      /\ CryptoSeriesResponse.IntervalLabel c'
         = CryptoSeriesResponse.IntervalLabel c).
Proof.
  revert c. induction l as [|[k v] l IH]; simpl; intros c.
  - intros [= <-]. right. split; [|done]. by intros k ?%elem_of_nil.
  - intros (c1 & (_ & Hlabel & _)%cryptoSeries_bars & H2)%bind_Ok.
    apply IH in H2 as [[Hin Hpre]|[Hnone Heq]].
    + left. split; [by right|done].
    + rewrite Heq, Hlabel.
      destruct (String.prefix "Time Series" k) eqn:Ek.
      * left. split; [left|done].
      * right. split; [|done].
        intros k' [->|Hk']%elem_of_cons; auto.
Qed.

End IntervalLabel.

(** X12.  The interval label of a successful crypto decode is one of the
    top-level keys of the payload that start with [Time Series]; when the
    payload has exactly one such key it is that key, and when it has none
    the label is left as the receiver had it. *)
Theorem crypto_interval_label_is_series_key (rt : Runtime)
    (laws : RuntimeLaws rt) (c c' : CryptoSeriesResponse.t) (d : data)
    (raw : list (string * any)) :
  json.UnmarshalMap d = Ok raw ->
  UnmarshalCryptoJSON c d = Ok c' ->
  ((CryptoSeriesResponse.IntervalLabel c' ∈ keys raw
    /\ String.prefix "Time Series" (CryptoSeriesResponse.IntervalLabel c')
       = true)
   \/ ((forall k, k ∈ keys raw -> String.prefix "Time Series" k = false)
       /\ CryptoSeriesResponse.IntervalLabel c'
          = CryptoSeriesResponse.IntervalLabel c))
  /\ forall tsKey,
       tsKey ∈ keys raw ->
       (forall k, k ∈ keys raw -> String.prefix "Time Series" k = true ->
                  k = tsKey) ->
       String.prefix "Time Series" tsKey = true ->
       CryptoSeriesResponse.IntervalLabel c' = tsKey.
Proof.
  intros Hraw (c1 & Happ & _ & -> & _)%crypto_result.
  unfold cryptoAppend in Happ. rewrite Hraw in Happ. simpl in Happ.
  apply bind_Ok in Happ as (c0 & Hmd & Hloop).
  assert (Hc0 : CryptoSeriesResponse.IntervalLabel c0
                = CryptoSeriesResponse.IntervalLabel c).
  { destruct (index raw "Meta Data"); try (by injection Hmd as <-).
    by apply bind_Ok in Hmd as (m0 & _ & [= <-]). }
  apply cryptoSeries_label in Hloop. rewrite Hc0 in Hloop.
  assert (Hkeys : forall k, k ∈ keys (mapiter raw) <-> k ∈ keys raw)
    by (intros k; apply mapiter_keys).
  assert (Hcases :
    (CryptoSeriesResponse.IntervalLabel c1 ∈ keys raw
     /\ String.prefix "Time Series" (CryptoSeriesResponse.IntervalLabel c1)
        = true)
    \/ ((forall k, k ∈ keys raw -> String.prefix "Time Series" k = false)
        /\ CryptoSeriesResponse.IntervalLabel c1
           = CryptoSeriesResponse.IntervalLabel c)).
  { destruct Hloop as [[Hin Hpre]|[Hnone Heq]].
    - left. split; [by apply Hkeys|done].
    - right. split; [|done]. intros k Hk. by apply Hnone, Hkeys. }
  split; [done|]. intros tsKey Hin Honly Hpre.
  destruct Hcases as [[Hin' Hpre']|[Hnone _]]; [by apply Honly|].
  rewrite (Hnone tsKey Hin) in Hpre. done.
Qed.

(** ** One malformed entry fails the decode *)

Lemma bind_not_Ok_l {A B} (r : result A) (k : A -> result B) :
  isOk r = false -> isOk (bind r k) = false.
Proof. by destruct r. Qed.

Lemma bind_not_Ok_r {A B} (r : result A) (k : A -> result B) :
  (forall a, isOk (k a) = false) -> isOk (bind r k) = false.
Proof. intros Hk. destruct r; simpl; auto. Qed.

Lemma insertByKey_perm (kv : string * JSON) (l : list (string * JSON)) :
  json.insertByKey kv l ≡ₚ kv :: l.
Proof.
  induction l as [|kv' l IH]; simpl; [done|].
  destruct (String.ltb kv.1 kv'.1); [done|].
  rewrite IH. apply Permutation_swap.
Qed.

Lemma sortByKey_perm (l : list (string * JSON)) : json.sortByKey l ≡ₚ l.
Proof.
  induction l as [|kv l IH]; [done|].
  unfold json.sortByKey in *. simpl. by rewrite insertByKey_perm, IH.
Qed.

(** A bar object with a malformed price is rejected by the decoder of
    [OHLCV], whatever else it holds. *)
Lemma malformedPrice_rejected (fields : list (string * any)) (o : OHLCV.t) :
  malformedPrice fields ->
  isOk (json.struct OHLCV_field (json.Marshal (amap fields)) o) = false.
Proof.
  intros (f & s & tag & Hin & Htag & Hfold & Hnull & Hbad). simpl.
  eapply (forRange_not_Ok _ _ _ f (JString s)).
  - rewrite sortByKey_perm.
    by apply (list_elem_of_fmap_2
                (fun kv : string * any => let (k, x) := kv in (k, json.Marshal x))
                _ (f, astring s)).
  - intros o'. rewrite (OHLCV_field_price tag f _ o' Htag Hfold).
    by apply quotedFloat64_rejects.
Qed.

(** X13.  The decoders that walk the payload return no partial result: one
    malformed entry fails the whole decode, wherever the runtime meets it.
    - Intraday: a top-level key that starts with [Time Series] and holds no
      object, a timestamp key that does not parse, or a bar with a price
      that is no number.
    - Indicator: in the value block, a timestamp key that does not parse,
      a timestamp that holds no object, or a sub-field whose text
      [strconv.ParseFloat] rejects.
    - Crypto: a date key that does not parse, or a date that holds no
      object. *)
Theorem malformed_entry_fails_decode (rt : Runtime) (laws : RuntimeLaws rt) :
  (forall (t : TimeSeriesIntraday) (d : data) (raw : list (string * any))
      (key : string) (value : any),
      json.UnmarshalMap d = Ok raw ->
      (key, value) ∈ raw -> String.prefix "Time Series" key = true ->
      (isMap value = false
       \/ exists tsData k v,
            value = amap tsData /\ (k, v) ∈ tsData
            /\ (isOk (time.Parse "2006-01-02 15:04:05" k) = false
                \/ exists fields, v = amap fields /\ malformedPrice fields)) ->
      isOk (TimeSeriesIntraday_UnmarshalJSON t d) = false)
  /\ (forall (i : IndicatorResponse.t) (d : data) (indicatorName : string)
        (raw tsData : list (string * any)) (k : string) (v : any),
      json.UnmarshalMap d = Ok raw ->
      index raw (String.append "Technical Analysis: " indicatorName)
      = amap tsData ->
      (k, v) ∈ tsData ->
      (isOk (time.Parse "2006-01-02 15:04" k) = false
       \/ isMap v = false
       \/ exists indicatorData name s,
            v = amap indicatorData /\ (name, astring s) ∈ indicatorData
            /\ snd (strconv.ParseFloat s) <> None) ->
      isOk (UnmarshalIndicatorJSON i d indicatorName) = false)
  /\ (forall (c : CryptoSeriesResponse.t) (d : data)
        (raw timeSeriesMap : list (string * any)) (tsKey date : string)
        (values : any),
      json.UnmarshalMap d = Ok raw ->
      (tsKey, amap timeSeriesMap) ∈ raw ->
      String.prefix "Time Series" tsKey = true ->
      (date, values) ∈ timeSeriesMap ->
      (isOk (time.Parse "2006-01-02" date) = false \/ isMap values = false) ->
      isOk (UnmarshalCryptoJSON c d) = false).
Proof.
  split; [|split].
  - intros t d raw key value Hraw Hin Hpre Hbad.
    unfold TimeSeriesIntraday_UnmarshalJSON, intradayAppend.
    apply bind_not_Ok_l. rewrite Hraw. simpl. apply bind_not_Ok_r. intros t0.
    eapply forRange_not_Ok; [by rewrite (mapiter_perm _ raw)|].
    intros s. unfold intradaySeries. rewrite Hpre.
    destruct Hbad as [Hmap|(tsData & k & v & -> & Hkv & Hbad)];
      [by destruct value|].
    eapply forRange_not_Ok; [by rewrite (mapiter_perm _ tsData)|].
    intros s0. unfold intradayEntry.
    destruct Hbad as [Hparse|(fields & -> & Hbad)].
    + by apply bind_not_Ok_l.
    + apply bind_not_Ok_r. intros ts. apply bind_not_Ok_l.
      by apply malformedPrice_rejected.
  - intros i d indicatorName raw tsData k v Hraw Hts Hkv Hbad.
    unfold UnmarshalIndicatorJSON, indicatorAppend.
    apply bind_not_Ok_l. rewrite Hraw. simpl. apply bind_not_Ok_r. intros i0.
    rewrite Hts.
    eapply forRange_not_Ok; [by rewrite (mapiter_perm _ tsData)|].
    intros s. unfold indicatorEntry.
    destruct Hbad as [Hparse|[Hmap|(m & name & str & -> & Hin & Hbad)]].
    + by apply bind_not_Ok_l.
    + apply bind_not_Ok_r. intros ts. by destruct v.
    + apply bind_not_Ok_r. intros ts. apply bind_not_Ok_l.
      eapply forRange_not_Ok; [by rewrite (mapiter_perm _ m)|].
      intros vm. unfold indicatorValue.
      destruct (strconv.ParseFloat str) as [f [e|]]; [done|].
      by destruct Hbad.
  - intros c d raw timeSeriesMap tsKey date values Hraw Hin Hpre Hkv Hbad.
    unfold UnmarshalCryptoJSON, cryptoAppend.
    apply bind_not_Ok_l. rewrite Hraw. simpl. apply bind_not_Ok_r. intros c0.
    eapply forRange_not_Ok; [by rewrite (mapiter_perm _ raw)|].
    intros s. unfold cryptoSeries. rewrite Hpre. simpl.
    eapply forRange_not_Ok; [by rewrite (mapiter_perm _ timeSeriesMap)|].
    intros s0. unfold cryptoEntry.
    destruct Hbad as [Hparse|Hmap].
    + by apply bind_not_Ok_l.
    + apply bind_not_Ok_r. intros ts. by destruct values.
Qed.

(** ** The metadata of the result *)

Lemma mapget_perm {V} (l l' : list (string * V)) (k : string) :
  l ≡ₚ l' -> NoDup (keys l) -> mapget l k = mapget l' k.
Proof.
  induction 1 as [|[k0 v0] l l' Hp IH|[k1 v1] [k2 v2] l|l l' l'' Hp IH Hp' IH'];
    simpl.
  - done.
  - intros [_ Hnd]%NoDup_cons. by rewrite IH.
  - intros [Hnin _]%NoDup_cons.
    destruct (String.eqb_spec k1 k) as [->|]; [|done].
    destruct (String.eqb_spec k2 k) as [->|]; [|done].
    exfalso. apply Hnin. left.
  - intros Hnd. rewrite IH by done. apply IH'.
    unfold keys in *. by rewrite <- Hp.
Qed.

Section MetaData.
Context {rt : Runtime} {laws : RuntimeLaws rt}.

Lemma index_mapiter (m : list (string * any)) (k : string) :
  NoDup (keys m) -> index (mapiter m) k = index m k.
Proof.
  intros Hnd. unfold index.
  rewrite (mapget_perm (mapiter m) m k); [done|apply mapiter_perm|].
  unfold keys. by rewrite (mapiter_perm _ m).
Qed.

Lemma intradaySeries_metadata (l : list (string * any))
    (t t' : TimeSeriesIntraday) :
  forRange intradaySeries l t = Ok t' ->
  TimeSeries.MetaData t' = TimeSeries.MetaData t.
Proof.
  intros Hloop.
  eapply (forRange_inv
            (fun s => TimeSeries.MetaData s = TimeSeries.MetaData t));
    [|exact Hloop|done].
  intros k v s s' (-> & _)%intradaySeries_bars. done.
Qed.

Lemma intradayMetaData_Ok (metaData : list (string * any))
    (m m' : TimeSeriesMetaData.t) :
  intradayMetaData metaData m = Ok m' ->
  m' = intradayMetaDataFrom metaData m
  /\ forall key, key ∈ intradayMetaDataKeys ->
                 isString (index metaData key) = true.
Proof.
  unfold intradayMetaData, intradayMetaDataFrom, stringAt,
    intradayMetaDataKeys.
  destruct (index metaData "1. Information") eqn:E1; try done.
  destruct (index metaData "2. Symbol") eqn:E2; try done.
  destruct (index metaData "3. Last Refreshed") eqn:E3; try done.
  destruct (index metaData "4. Interval") eqn:E4; try done.
  destruct (index metaData "5. Output Size") eqn:E5; try done.
  destruct (index metaData "6. Time Zone") eqn:E6; try done.
  simpl. intros [= <-]. split; [done|]. intros key Hkey.
  repeat (apply elem_of_cons in Hkey as [->|Hkey]);
    [..|by apply elem_of_nil in Hkey]; by rewrite ?E1, ?E2, ?E3, ?E4, ?E5, ?E6.
Qed.

End MetaData.

(** X14.  A successful intraday decode of a payload with a ["Meta Data"] object
    stores the six strings of that object in the metadata and keeps what
    the receiver held in the three fields the payload has no key for; a
    payload without such an object leaves the metadata as it was. *)
Theorem intraday_metadata_from_payload (rt : Runtime) (laws : RuntimeLaws rt)
    (t t' : TimeSeriesIntraday) (d : data) (raw : list (string * any)) :
  json.UnmarshalMap d = Ok raw ->
  TimeSeriesIntraday_UnmarshalJSON t d = Ok t' ->
  match index raw "Meta Data" with
  | amap metaData =>
      TimeSeries.MetaData t'
      = intradayMetaDataFrom metaData (TimeSeries.MetaData t)
      /\ forall key, key ∈ intradayMetaDataKeys ->
                     isString (index metaData key) = true
  | _ => TimeSeries.MetaData t' = TimeSeries.MetaData t
  end.
Proof.
  intros Hraw (t1 & Happ & -> & _)%intraday_result.
  unfold intradayAppend in Happ. rewrite Hraw in Happ. simpl in Happ.
  apply bind_Ok in Happ as (t0 & Hmd & ->%intradaySeries_metadata).
  destruct (index raw "Meta Data") as [| | | | |metaData];
    try (by injection Hmd as <-).
  apply bind_Ok in Hmd as (m & Hm%intradayMetaData_Ok & [= <-]). done.
Qed.

Section Extractors.
Context {rt : Runtime} {laws : RuntimeLaws rt}.

(** What the switch of [extractMetaData] has stored once every entry of a
    map has been visited: for each recognised key the value found under
    it. *)
Lemma extractMetaData_loop (l : list (string * any))
    (m0 m : TimeSeriesMetaData.t) :
  NoDup (keys l) ->
  forRange extractMetaDataCase l m0 = Ok m ->
  m = TimeSeriesMetaData.mk
        (match index l "2: Indicator" with
         | astring s => s | _ => TimeSeriesMetaData.Information m0 end)
        (match index l "1: Symbol" with
         | astring s => s | _ => TimeSeriesMetaData.Symbol m0 end)
        (match index l "3: Last Refreshed" with
         | astring s => s | _ => TimeSeriesMetaData.LastRefreshed m0 end)
        (match index l "4: Interval" with
         | astring s => s | _ => TimeSeriesMetaData.Interval m0 end)
        (TimeSeriesMetaData.OutputSize m0)
        (match index l "7: Time Zone" with
         | astring s => s | _ => TimeSeriesMetaData.TimeZone m0 end)
        (match index l "5: Time Period" with
         | afloat64 f => f | _ => TimeSeriesMetaData.TimePeriod m0 end)
        (match index l "6: Series Type" with
         | astring s => s | _ => TimeSeriesMetaData.SeriesType m0 end)
        (TimeSeriesMetaData.VolumeFactor m0).
Proof.
  revert m0. induction l as [|[k v] l IH]; intros m0; simpl.
  - intros _ [= <-]. by destruct m0.
  - intros [Hnin Hnd]%NoDup_cons (m1 & Hb & Hloop)%bind_Ok.
    rewrite (IH _ Hnd Hloop). clear IH Hloop.
    apply mapget_None in Hnin.
    unfold extractMetaDataCase in Hb. unfold index. cbn [mapget].
    revert Hb.
    repeat match goal with
           | |- context [String.eqb k ?s] =>
               destruct (String.eqb_spec k s) as [->|?];
                 [destruct v; try done; intros [= <-]; rewrite Hnin;
                  reflexivity|]
           end.
    by intros [= <-].
Qed.

Lemma extractCryptoMetaData_loop (l : list (string * any))
    (m0 m : CryptoMetaData.t) :
  NoDup (keys l) ->
  forRange extractCryptoMetaDataCase l m0 = Ok m ->
  m = CryptoMetaData.mk
        (match index l "1. Information" with
         | astring s => s | _ => CryptoMetaData.Information m0 end)
        (match index l "2. Digital Currency Code" with
         | astring s => s | _ => CryptoMetaData.DigitalCurrencyCode m0 end)
        (match index l "3. Digital Currency Name" with
         | astring s => s | _ => CryptoMetaData.DigitalCurrencyName m0 end)
        (match index l "4. Market Code" with
         | astring s => s | _ => CryptoMetaData.MarketCode m0 end)
        (match index l "5. Market Name" with
         | astring s => s | _ => CryptoMetaData.MarketName m0 end)
        (match index l "6. Last Refreshed" with
         | astring s => s | _ => CryptoMetaData.LastRefreshed m0 end)
        (match index l "7. Time Zone" with
         | astring s => s | _ => CryptoMetaData.TimeZone m0 end).
Proof.
  revert m0. induction l as [|[k v] l IH]; intros m0; simpl.
  - intros _ [= <-]. by destruct m0.
  - intros [Hnin Hnd]%NoDup_cons (m1 & Hb & Hloop)%bind_Ok.
    rewrite (IH _ Hnd Hloop). clear IH Hloop.
    apply mapget_None in Hnin.
    unfold extractCryptoMetaDataCase in Hb. unfold index. cbn [mapget].
    revert Hb.
    repeat match goal with
           | |- context [String.eqb k ?s] =>
               destruct (String.eqb_spec k s) as [->|?];
                 [destruct v; try done; intros [= <-]; rewrite Hnin;
                  reflexivity|]
           end.
    by intros [= <-].
Qed.

(** The extractors do not depend on the order in which the runtime visits
    the metadata map. *)
Lemma extractMetaData_Ok (metaData : list (string * any))
    (m : TimeSeriesMetaData.t) :
  NoDup (keys metaData) ->
  extractMetaData metaData = Ok m -> m = indicatorMetaDataFrom metaData.
Proof.
  intros Hnd Hm. unfold extractMetaData in Hm.
  apply extractMetaData_loop in Hm;
    [|unfold keys; by rewrite (mapiter_perm _ metaData)].
  rewrite !index_mapiter in Hm by done. exact Hm.
Qed.

Lemma extractCryptoMetaData_Ok (metaData : list (string * any))
    (m : CryptoMetaData.t) :
  NoDup (keys metaData) ->
  extractCryptoMetaData metaData = Ok m -> m = cryptoMetaDataFrom metaData.
Proof.
  intros Hnd Hm. unfold extractCryptoMetaData in Hm.
  apply extractCryptoMetaData_loop in Hm;
    [|unfold keys; by rewrite (mapiter_perm _ metaData)].
  rewrite !index_mapiter in Hm by done. exact Hm.
Qed.

Lemma metaData_NoDup (d : data) (raw metaData : list (string * any)) :
  json.UnmarshalMap d = Ok raw ->
  index raw "Meta Data" = amap metaData -> NoDup (keys metaData).
Proof.
  intros Hraw%UnmarshalMap_uniqueKeys Hmd.
  apply (uniqueKeys_index _ "Meta Data") in Hraw. rewrite Hmd in Hraw.
  by apply uniqueKeys_amap in Hraw as [? _].
Qed.

Lemma indicatorEntry_metadata (l : list (string * any))
    (i i' : IndicatorResponse.t) :
  forRange indicatorEntry l i = Ok i' ->
  IndicatorResponse.MetaData i' = IndicatorResponse.MetaData i.
Proof.
  intros Hloop.
  eapply (forRange_inv
            (fun s => IndicatorResponse.MetaData s
                      = IndicatorResponse.MetaData i));
    [|exact Hloop|done].
  intros k v s s' Hb Hs. unfold indicatorEntry in Hb.
  apply bind_Ok in Hb as (ts & _ & Hb). destruct v; try done.
  by apply bind_Ok in Hb as (vm & _ & [= <-]).
Qed.

Lemma cryptoSeries_metadata (l : list (string * any))
    (c c' : CryptoSeriesResponse.t) :
  forRange cryptoSeries l c = Ok c' ->
  CryptoSeriesResponse.MetaData c' = CryptoSeriesResponse.MetaData c.
Proof.
  intros Hloop.
  eapply (forRange_inv
            (fun s => CryptoSeriesResponse.MetaData s
                      = CryptoSeriesResponse.MetaData c));
    [|exact Hloop|done].
  intros k v s s' (-> & _)%cryptoSeries_bars. done.
Qed.

End Extractors.

(** X15.  A successful indicator decode of a payload with a ["Meta Data"] object
    replaces the metadata of the receiver as a whole: each of the seven
    recognised keys fills its field (["2: Indicator"] fills
    [Information]), a key the object lacks leaves the zero value, and
    [OutputSize] and [VolumeFactor], for which no key is recognised, are
    empty.  The result is the same in whatever order the map is visited.
    A payload without such an object leaves the metadata as it was. *)
Theorem indicator_metadata_from_payload (rt : Runtime) (laws : RuntimeLaws rt)
    (i i' : IndicatorResponse.t) (d : data) (indicatorName : string)
    (raw : list (string * any)) :
  json.UnmarshalMap d = Ok raw ->
  UnmarshalIndicatorJSON i d indicatorName = Ok i' ->
  match index raw "Meta Data" with
  | amap metaData =>
      IndicatorResponse.MetaData i' = indicatorMetaDataFrom metaData
  | _ => IndicatorResponse.MetaData i' = IndicatorResponse.MetaData i
  end.
Proof.
  intros Hraw (i1 & Happ & -> & _)%indicator_result.
  unfold indicatorAppend in Happ. rewrite Hraw in Happ. simpl in Happ.
  apply bind_Ok in Happ as (i0 & Hmd & Hloop).
  assert (Hi1 : IndicatorResponse.MetaData i1 = IndicatorResponse.MetaData i0).
  { destruct (index raw (String.append "Technical Analysis: " indicatorName));
      try (by injection Hloop as <-).
    by apply indicatorEntry_metadata in Hloop. }
  rewrite Hi1. clear Hloop Hi1.
  destruct (index raw "Meta Data") as [| | | | |metaData] eqn:E;
    try (by injection Hmd as <-).
  apply bind_Ok in Hmd as (m & Hm & [= <-]). simpl.
  eapply extractMetaData_Ok; [|exact Hm]. by eapply metaData_NoDup.
Qed.

(** X16.  The same for the crypto decoder: a ["Meta Data"] object replaces the
    metadata of the receiver as a whole, each of the seven recognised keys
    filling its field and a missing key leaving the empty string, in
    whatever order the map is visited; without such an object the metadata
    is left as it was. *)
Theorem crypto_metadata_from_payload (rt : Runtime) (laws : RuntimeLaws rt)
    (c c' : CryptoSeriesResponse.t) (d : data) (raw : list (string * any)) :
  json.UnmarshalMap d = Ok raw ->
  UnmarshalCryptoJSON c d = Ok c' ->
  match index raw "Meta Data" with
  | amap metaData =>
      CryptoSeriesResponse.MetaData c' = cryptoMetaDataFrom metaData
  | _ => CryptoSeriesResponse.MetaData c' = CryptoSeriesResponse.MetaData c
  end.
Proof.
  intros Hraw (c1 & Happ & -> & _)%crypto_result.
  unfold cryptoAppend in Happ. rewrite Hraw in Happ. simpl in Happ.
  apply bind_Ok in Happ as (c0 & Hmd & ->%cryptoSeries_metadata).
  destruct (index raw "Meta Data") as [| | | | |metaData] eqn:E;
    try (by injection Hmd as <-).
  apply bind_Ok in Hmd as (m & Hm & [= <-]). simpl.
  eapply extractCryptoMetaData_Ok; [|exact Hm]. by eapply metaData_NoDup.
Qed.

(** ** The client *)

Lemma unmarshalAux_no_series {T} `{Bar T} (seriesKey : string)
    (ts ts0 : TimeSeries.t T) (members : list (string * JSON))
    (raw : list (string * T)) :
  (forall k, k ∈ keys members -> json.equalFold seriesKey k = false) ->
  unmarshalAux seriesKey ts (Document (JObject members)) = Ok (Some (raw, ts0)) ->
  raw = [].
Proof.
  intros Hkeys. unfold unmarshalAux, json.struct.
  intros (aux & Hloop & [= ->])%bind_Ok.
  change ((raw, ts0).1 = []).
  eapply (forRange_inv_in (fun s => s.1 = [])); [|exact Hloop|done].
  intros k v s s' Hin Hb Hs. unfold auxField in Hb.
  rewrite (Hkeys k) in Hb by (by apply (list_elem_of_fmap_2 fst _ (k, v))).
  destruct (json.equalFold "Meta Data" k); [|by injection Hb as <-].
  by apply bind_Ok in Hb as (m & _ & [= <-]).
Qed.

(** X17.  [GetWeeklyAdjusted] decodes the body as a [TimeSeriesWeekly], whose
    series key is ["Weekly Time Series"].  So for a body that is an object
    without that key, as a weekly adjusted payload is, which names its
    series ["Weekly Adjusted Time Series"], the method returns no bar: when
    it returns without error the series is empty and [Length] is 0. *)
Theorem GetWeeklyAdjusted_returns_no_bars (rt : Runtime)
    (laws : RuntimeLaws rt) (members : list (string * JSON))
    (ts' : TimeSeriesWeekly) :
  (forall k, k ∈ keys members ->
             json.equalFold "Weekly Time Series" k = false) ->
  GetWeeklyAdjusted (Ok (Document (JObject members))) = Ok ts' ->
  TimeSeries.TimeSeries ts' = [] /\ TimeSeriesWeekly_Length ts' = 0.
Proof.
  intros Hkeys Hget. unfold GetWeeklyAdjusted in Hget. simpl in Hget.
  unfold TimeSeriesWeekly_UnmarshalJSON in Hget.
  apply series_success in Hget as (raw & ts0 & new & Haux & Hall & ->).
  apply unmarshalAux_no_series in Haux as ->; [|done].
  rewrite mapiter_nil in Hall. apply Forall2_nil_inv_l in Hall as ->.
  unfold TimeSeriesWeekly_Length, seriesLength, byKey. simpl.
  by rewrite (sort_Slice_nil OHLCV.Timestamp).
Qed.

Lemma ExchangeRateInfo_field_Err (key : string) (v : JSON)
    (e : ExchangeRateInfo.t) (err : error) :
  ExchangeRateInfo_field key v e = Err err -> err = UnmarshalError.
Proof.
  unfold ExchangeRateInfo_field.
  repeat case_match; try done;
    intros [?|(? & _ & [=])]%bind_Err; by eapply string_Err.
Qed.

Lemma ExchangeRateInfo_field_noPanic (key : string) (v : JSON)
    (e : ExchangeRateInfo.t) :
  isPanic (ExchangeRateInfo_field key v e) = false.
Proof.
  unfold ExchangeRateInfo_field.
  repeat case_match; try done;
    match goal with
    | |- context [json.string_ ?v ?old] =>
        pose proof (string_noPanic v old); destruct (json.string_ v old); done
    end.
Qed.

(** X18.  What [GetCurrencyExchangeRate] makes of the body.
    - The nine fields are kept as the texts of the payload: a body that
      carries nine texts under the nine keys of the service is returned as
      these very texts, whatever they are; the rate and the prices are not
      read as numbers.
    - A body that is an object without the key
      ["Realtime Currency Exchange Rate"], such as the note the service
      sends when it declines a request, is returned as the empty response
      with no error.
    - The method never panics on a body, and an error it returns for one is
      the error of [encoding/json]. *)
Theorem GetCurrencyExchangeRate_keeps_texts :
  (forall e : ExchangeRateInfo.t,
      GetCurrencyExchangeRate (Ok (exchangeRatePayload e))
      = Ok (CurrencyExchangeRateResponse.mk e))
  /\ (forall members : list (string * JSON),
      (forall k, k ∈ keys members ->
                 json.equalFold "Realtime Currency Exchange Rate" k = false) ->
      GetCurrencyExchangeRate (Ok (Document (JObject members)))
      = Ok CurrencyExchangeRateResponse.zero)
  /\ (forall d : data,
      isPanic (GetCurrencyExchangeRate (Ok d)) = false
      /\ forall err, GetCurrencyExchangeRate (Ok d) = Err err ->
                     err = UnmarshalError).
Proof.
  split; [|split].
  - intros []. reflexivity.
  - intros members Hkeys. unfold GetCurrencyExchangeRate. simpl.
    apply forRange_skip, Forall_forall. intros [k v] Hin r. simpl.
    unfold CurrencyExchangeRateResponse_field.
    by rewrite (Hkeys k) by (by apply (list_elem_of_fmap_2 fst _ (k, v))).
  - intros d. unfold GetCurrencyExchangeRate. simpl.
    assert (Hf : forall k v r,
              isPanic (CurrencyExchangeRateResponse_field k v r) = false
              /\ forall err, CurrencyExchangeRateResponse_field k v r = Err err ->
                             err = UnmarshalError).
    { intros k v r. unfold CurrencyExchangeRateResponse_field.
      destruct (json.equalFold _ k); [|done].
      pose proof (struct_noPanic ExchangeRateInfo_field v
                    (CurrencyExchangeRateResponse.ExchangeRateInfo r)
                    ExchangeRateInfo_field_noPanic) as Hnp.
      split.
      - destruct (json.struct ExchangeRateInfo_field v _); done.
      - intros err [?|(? & _ & [=])]%bind_Err.
        eapply struct_Err; [|done]. apply ExchangeRateInfo_field_Err. }
    destruct d as [|v]; simpl; [split; [done|congruence]|]. split.
    + apply struct_noPanic. intros k x s. apply Hf.
    + intros err. apply struct_Err. intros k x s e0. apply Hf.
Qed.

(** ** Timestamps of the kinds with a fixed series key *)

(** X19.  The bars of a successful decode of a kind with a fixed series key
    stand for pairwise distinct calendar days: the timestamp of every bar
    is midnight UTC of a valid date, and along the sequence the timestamps
    strictly increase, so no day occurs twice. *)
Theorem series_bars_are_distinct_days (rt : Runtime) (laws : RuntimeLaws rt)
    (T : Type) (B : Bar T) (seriesKey : string) (ts ts' : TimeSeries.t T)
    (d : data) :
  seriesUnmarshalJSON seriesKey ts d = Ok ts' ->
  (forall bar, bar ∈ TimeSeries.TimeSeries ts' ->
     exists y m day,
       validDate y m day /\ 0 <= y <= 9999
       /\ barTimestamp bar = time.Date y m day 0 0 0 0)
  /\ forall (i : nat) (a b : T),
       TimeSeries.TimeSeries ts' !! i = Some a ->
       TimeSeries.TimeSeries ts' !! S i = Some b ->
       barTimestamp a < barTimestamp b.
Proof.
  intros Hd. split.
  - apply series_success in Hd as (raw & ts0 & new & _ & Hall & ->).
    simpl. unfold byKey.
    intros bar Hbar. rewrite (sort_Slice_perm _ barTimestamp) in Hbar.
    apply stamped_timestamp in Hall.
    apply list_elem_of_lookup in Hbar as (i & Hi).
    destruct (Forall2_lookup_r _ _ _ _ _ Hall Hi) as ([k o] & _ & Hp).
    apply Parse_date_Ok in Hp
      as (y1 & y2 & y3 & y4 & m1 & m2 & d1 & d2 & _ & Hdig & Hv & Ht).
    eexists _, _, _. split; [exact Hv|]. split; [|exact Ht].
    repeat match goal with
           | H : Forall _ (_ :: _) |- _ =>
               apply Forall_cons in H as [?%isDigit_range H]
           end.
    lia.
  - apply series_result in Hd as (ts1 & Happ & _ & ->).
    intros i a b. apply sorted_increasing.
    apply sorted_strict; [apply sort_Slice_sorted|].
    unfold byKey. rewrite (sort_Slice_perm _ barTimestamp).
    by eapply seriesAppend_NoDup.
Qed.

(** ** The further properties at concrete inputs *)

Lemma dailyTwo_seriesObject :
  seriesObject "Time Series (Daily)"
    [("Time Series (Daily)", JObject dailyTwoEntries)] dailyTwoEntries.
Proof.
  split.
  - exists "Time Series (Daily)". split; [left|reflexivity].
  - intros k v Hin _. by apply list_elem_of_singleton in Hin as [= _ ->].
Qed.

Lemma series_one_bar_per_entry_witness :
  (RuntimeLaws refRuntime
   /\ TimeSeriesDaily_UnmarshalJSON (rt:=refRuntime) TimeSeries.zero
        dailyPayloadTwo = Ok dailyTwoDecoded)
  /\ exists RawTimeSeries ts0 bars,
       unmarshalAux "Time Series (Daily)" (TimeSeries.zero (T:=OHLCV.t))
         dailyPayloadTwo = Ok (Some (RawTimeSeries, ts0))
       /\ TimeSeries.MetaData dailyTwoDecoded = TimeSeries.MetaData ts0
       /\ Forall2 stamped RawTimeSeries bars
       /\ TimeSeries.TimeSeries dailyTwoDecoded ≡ₚ bars
       /\ seriesLength dailyTwoDecoded = Z.of_nat (length RawTimeSeries).
Proof.
  assert (Hd : TimeSeriesDaily_UnmarshalJSON (rt:=refRuntime) TimeSeries.zero
                 dailyPayloadTwo = Ok dailyTwoDecoded)
    by (vm_compute; reflexivity).
  split; [exact (conj refRuntime_laws Hd)|].
  exact (series_one_bar_per_entry refRuntime refRuntime_laws _ _ _ _ _ _ Hd).
Defined.

Lemma series_dates_of_payload_witness :
  (RuntimeLaws refRuntime
   /\ seriesObject "Time Series (Daily)"
        [("Time Series (Daily)", JObject dailyTwoEntries)] dailyTwoEntries
   /\ TimeSeriesDaily_UnmarshalJSON (rt:=refRuntime) TimeSeries.zero
        (Document (JObject [("Time Series (Daily)", JObject dailyTwoEntries)]))
      = Ok dailyTwoDecoded)
  /\ seriesLength dailyTwoDecoded
     = Z.of_nat (length (remove_dups (keys dailyTwoEntries)))
  /\ forall date,
       date ∈ keys dailyTwoEntries
       <-> exists bar,
             bar ∈ TimeSeries.TimeSeries dailyTwoDecoded
             /\ time.Parse "2006-01-02" date = Ok (OHLCV.Timestamp bar).
Proof.
  assert (Hd : TimeSeriesDaily_UnmarshalJSON (rt:=refRuntime) TimeSeries.zero
                 (Document (JObject [("Time Series (Daily)",
                                      JObject dailyTwoEntries)]))
               = Ok dailyTwoDecoded)
    by (vm_compute; reflexivity).
  split; [exact (conj refRuntime_laws (conj dailyTwo_seriesObject Hd))|].
  exact (series_dates_of_payload refRuntime refRuntime_laws _ _ _ _ _ _ _
           dailyTwo_seriesObject Hd).
Defined.

Lemma series_decode_is_order_independent_witness :
  (RuntimeLaws refRuntime /\ RuntimeLaws reverseRuntime
   /\ TimeSeriesDaily_UnmarshalJSON (rt:=refRuntime) TimeSeries.zero
        dailyPayloadTwo = Ok dailyTwoDecoded)
  /\ TimeSeriesDaily_UnmarshalJSON (rt:=reverseRuntime) TimeSeries.zero
       dailyPayloadTwo = Ok dailyTwoDecoded.
Proof.
  assert (Hd : TimeSeriesDaily_UnmarshalJSON (rt:=refRuntime) TimeSeries.zero
                 dailyPayloadTwo = Ok dailyTwoDecoded)
    by (vm_compute; reflexivity).
  split; [exact (conj refRuntime_laws (conj reverseRuntime_laws Hd))|].
  exact (series_decode_is_order_independent refRuntime reverseRuntime
           refRuntime_laws reverseRuntime_laws _ _ _ _ _ _ Hd).
Defined.

Lemma dailyBadDate_seriesObject :
  seriesObject "Time Series (Daily)"
    [("Time Series (Daily)", JObject dailyBadDateEntries)] dailyBadDateEntries.
Proof.
  split.
  - exists "Time Series (Daily)". split; [left|reflexivity].
  - intros k v Hin _. by apply list_elem_of_singleton in Hin as [= _ ->].
Qed.

Lemma series_rejects_malformed_date_witness :
  (RuntimeLaws refRuntime
   /\ seriesObject "Time Series (Daily)"
        [("Time Series (Daily)", JObject dailyBadDateEntries)]
        dailyBadDateEntries
   /\ "2023-13-40" ∈ keys dailyBadDateEntries
   /\ isOk (time.Parse "2006-01-02" "2023-13-40") = false)
  /\ exists e,
       TimeSeriesDaily_UnmarshalJSON (rt:=refRuntime) TimeSeries.zero
         (Document (JObject [("Time Series (Daily)",
                              JObject dailyBadDateEntries)]))
       = Err e
       /\ (e = UnmarshalError
           \/ exists k, k ∈ keys dailyBadDateEntries
                        /\ e = ParseError "2006-01-02" k).
Proof.
  assert (Hin : "2023-13-40" ∈ keys dailyBadDateEntries)
    by (right; left).
  assert (Hbad : isOk (time.Parse "2006-01-02" "2023-13-40") = false)
    by reflexivity.
  split;
    [exact (conj refRuntime_laws (conj dailyBadDate_seriesObject
                                    (conj Hin Hbad)))|].
  exact (series_rejects_malformed_date refRuntime refRuntime_laws _ _ _ _
           TimeSeries.zero _ _ _ dailyBadDate_seriesObject Hin Hbad).
Defined.

Lemma series_rejects_malformed_price_witness :
  (("Time Series (Daily)", JObject [("2023-09-08", dailyBars "N/A")])
     ∈ [("Time Series (Daily)", JObject [("2023-09-08", dailyBars "N/A")])]
   /\ json.equalFold "Time Series (Daily)" "Time Series (Daily)" = true
   /\ ("2023-09-08", dailyBars "N/A") ∈ [("2023-09-08", dailyBars "N/A")]
   /\ "1. open" ∈ priceTags
   /\ json.equalFold "1. open" "1. open" = true
   /\ "N/A" <> "null"
   /\ snd (strconv.ParseFloat "N/A") <> None)
  /\ TimeSeriesDaily_UnmarshalJSON (rt:=refRuntime) TimeSeries.zero
       dailyPayloadNotANumber = Err UnmarshalError.
Proof.
  assert (H1 : ("Time Series (Daily)",
                JObject [("2023-09-08", dailyBars "N/A")])
               ∈ [("Time Series (Daily)",
                   JObject [("2023-09-08", dailyBars "N/A")])]) by left.
  assert (H2 : ("2023-09-08", dailyBars "N/A")
               ∈ [("2023-09-08", dailyBars "N/A")]) by left.
  assert (H3 : ("1. open", JString "N/A")
               ∈ [("1. open", JString "N/A");
                  ("2. high", JString "335.00");
                  ("3. low", JString "329.00");
                  ("4. close", JString "334.00");
                  ("5. volume", JString "1000000")]) by left.
  assert (H4 : "1. open" ∈ priceTags) by left.
  assert (H5 : "N/A" <> "null") by discriminate.
  assert (H6 : snd (strconv.ParseFloat "N/A") <> None) by discriminate.
  split; [exact (conj H1 (conj eq_refl (conj H2 (conj H4 (conj eq_refl
                   (conj H5 H6))))))|].
  exact (series_rejects_malformed_price refRuntime _ _ _ "Time Series (Daily)"
           TimeSeries.zero _ _ _ _ _ _ _ _ H1 eq_refl H2 H3 H4 eq_refl H5 H6).
Defined.

Lemma helper_struct_decoders_panic_on_null_only_witness :
  isPanic (TimeSeriesDaily_UnmarshalJSON (rt:=refRuntime) TimeSeries.zero
             (Document JNull)) = true
  /\ isPanic (Quote_UnmarshalJSON (rt:=refRuntime) Quote.zero (Document JNull))
     = true.
Proof.
  split.
  - exact (proj2 (proj1 (helper_struct_decoders_panic_on_null_only refRuntime)
                    _ _ _ "Time Series (Daily)" TimeSeries.zero
                    (Document JNull)) eq_refl).
  - exact (proj2 (proj2 (helper_struct_decoders_panic_on_null_only refRuntime)
                    Quote.zero (Document JNull)) eq_refl).
Defined.

Lemma indicator_panics_on_metadata_mismatch_only_witness :
  (RuntimeLaws refRuntime
   /\ json.UnmarshalMap (badMetaDataPayload "1: Symbol")
      = Ok [("Meta Data", amap [("1: Symbol", afloat64 (Finite 5))])]
   /\ index [("Meta Data", amap [("1: Symbol", afloat64 (Finite 5))])]
        "Meta Data"
      = amap [("1: Symbol", afloat64 (Finite 5))]
   /\ ("1: Symbol", afloat64 (Finite 5))
        ∈ [("1: Symbol", afloat64 (Finite 5))]
   /\ indicatorMetaDataMismatch ("1: Symbol", afloat64 (Finite 5)) = true)
  /\ isPanic (UnmarshalIndicatorJSON (rt:=refRuntime) IndicatorResponse.zero
                (badMetaDataPayload "1: Symbol") "SMA") = true.
Proof.
  assert (H1 : json.UnmarshalMap (badMetaDataPayload "1: Symbol")
               = Ok [("Meta Data", amap [("1: Symbol", afloat64 (Finite 5))])])
    by reflexivity.
  assert (H2 : index [("Meta Data", amap [("1: Symbol", afloat64 (Finite 5))])]
                 "Meta Data"
               = amap [("1: Symbol", afloat64 (Finite 5))]) by reflexivity.
  assert (H3 : ("1: Symbol", afloat64 (Finite 5))
               ∈ [("1: Symbol", afloat64 (Finite 5))]) by left.
  assert (H4 : indicatorMetaDataMismatch ("1: Symbol", afloat64 (Finite 5))
               = true) by (vm_compute; reflexivity).
  split; [exact (conj refRuntime_laws (conj H1 (conj H2 (conj H3 H4))))|].
  exact (proj2 (indicator_panics_on_metadata_mismatch_only refRuntime
                  refRuntime_laws IndicatorResponse.zero
                  (badMetaDataPayload "1: Symbol") "SMA")
           (ex_intro _ _ (ex_intro _ _ (ex_intro _ _
              (conj H1 (conj H2 (conj H3 H4))))))).
Defined.

Lemma crypto_panics_only_on_failed_assertion_witness :
  (RuntimeLaws refRuntime
   /\ isPanic (UnmarshalCryptoJSON (rt:=refRuntime) CryptoSeriesResponse.zero
                 (cryptoPayload [])) = true)
  /\ exists raw,
       json.UnmarshalMap (cryptoPayload []) = Ok raw
       /\ ((exists metaData kv,
              index raw "Meta Data" = amap metaData
              /\ kv ∈ metaData /\ cryptoMetaDataMismatch kv = true)
           \/ (exists tsKey tsData,
                 (tsKey, tsData) ∈ raw
                 /\ String.prefix "Time Series" tsKey = true
                 /\ (isMap tsData = false
                     \/ exists timeSeriesMap date valuesMap name,
                          tsData = amap timeSeriesMap
                          /\ (date, amap valuesMap) ∈ timeSeriesMap
                          /\ name ∈ cryptoNumberKeys
                          /\ isString (index valuesMap name) = false))).
Proof.
  assert (Hp : isPanic (UnmarshalCryptoJSON (rt:=refRuntime)
                          CryptoSeriesResponse.zero (cryptoPayload [])) = true)
    by (vm_compute; reflexivity).
  split; [exact (conj refRuntime_laws Hp)|].
  exact (crypto_panics_only_on_failed_assertion refRuntime refRuntime_laws
           _ _ Hp).
Defined.

Lemma decoder_errors_are_of_known_kinds_witness :
  TimeSeriesDaily_UnmarshalJSON (rt:=refRuntime) TimeSeries.zero
    dailyPayloadNotANumber = Err UnmarshalError
  /\ (UnmarshalError = UnmarshalError
      \/ exists k, UnmarshalError = ParseError "2006-01-02" k).
Proof.
  assert (Hd : TimeSeriesDaily_UnmarshalJSON (rt:=refRuntime) TimeSeries.zero
                 dailyPayloadNotANumber = Err UnmarshalError)
    by (vm_compute; reflexivity).
  split; [exact Hd|].
  exact (proj1 (proj2 (decoder_errors_are_of_known_kinds refRuntime))
           _ _ _ "Time Series (Daily)" TimeSeries.zero _ _ Hd).
Defined.

Lemma intraday_one_bar_per_timestamp_witness :
  (RuntimeLaws refRuntime
   /\ json.UnmarshalMap intradayPayload = Ok intradayRaw
   /\ TimeSeriesIntraday_UnmarshalJSON (rt:=refRuntime) TimeSeries.zero
        intradayPayload = Ok intradayDecoded)
  /\ exists new,
       TimeSeries.TimeSeries intradayDecoded
       ≡ₚ (TimeSeries.TimeSeries (TimeSeries.zero (T:=OHLCV.t)) ++ new)%list
       /\ length new = seriesCount intradayRaw
       /\ (forall o, o ∈ new
             <-> exists key tsData kv,
                   (key, amap tsData) ∈ intradayRaw
                   /\ String.prefix "Time Series" key = true
                   /\ kv ∈ tsData /\ intradayBar kv o)
       /\ TimeSeriesIntraday_Length intradayDecoded
          = TimeSeriesIntraday_Length TimeSeries.zero
            + Z.of_nat (seriesCount intradayRaw).
Proof.
  assert (H1 : json.UnmarshalMap intradayPayload = Ok intradayRaw)
    by (vm_compute; reflexivity).
  assert (H2 : TimeSeriesIntraday_UnmarshalJSON (rt:=refRuntime)
                 TimeSeries.zero intradayPayload = Ok intradayDecoded)
    by (vm_compute; reflexivity).
  split; [exact (conj refRuntime_laws (conj H1 H2))|].
  exact (intraday_one_bar_per_timestamp refRuntime refRuntime_laws
           _ _ _ _ H1 H2).
Defined.

Lemma crypto_one_entry_per_date_witness :
  (RuntimeLaws refRuntime
   /\ json.UnmarshalMap (cryptoPayload [("1a. open (USD)", JString "N/A")])
      = Ok cryptoRaw
   /\ UnmarshalCryptoJSON (rt:=refRuntime) CryptoSeriesResponse.zero
        (cryptoPayload [("1a. open (USD)", JString "N/A")])
      = Ok (CryptoSeriesResponse.mk CryptoMetaData.zero
              [cryptoBar float64_zero] "Time Series (Digital Currency Daily)"))
  /\ exists new,
       [cryptoBar float64_zero]
       ≡ₚ (CryptoSeriesResponse.TimeSeries CryptoSeriesResponse.zero ++ new)%list
       /\ length new = seriesCount cryptoRaw
       /\ forall bar, bar ∈ new
            <-> exists tsKey timeSeriesMap kv,
                  (tsKey, amap timeSeriesMap) ∈ cryptoRaw
                  /\ String.prefix "Time Series" tsKey = true
                  /\ kv ∈ timeSeriesMap /\ cryptoEntryOf kv bar.
Proof.
  assert (H1 : json.UnmarshalMap
                 (cryptoPayload [("1a. open (USD)", JString "N/A")])
               = Ok cryptoRaw) by (vm_compute; reflexivity).
  assert (H2 : UnmarshalCryptoJSON (rt:=refRuntime) CryptoSeriesResponse.zero
                 (cryptoPayload [("1a. open (USD)", JString "N/A")])
               = Ok (CryptoSeriesResponse.mk CryptoMetaData.zero
                       [cryptoBar float64_zero]
                       "Time Series (Digital Currency Daily)"))
    by (vm_compute; reflexivity).
  split; [exact (conj refRuntime_laws (conj H1 H2))|].
  exact (crypto_one_entry_per_date refRuntime refRuntime_laws _ _ _ _ H1 H2).
Defined.

Lemma crypto_interval_label_is_series_key_witness :
  (RuntimeLaws refRuntime
   /\ json.UnmarshalMap cryptoMetaDataPayload = Ok cryptoMetaDataRaw
   /\ UnmarshalCryptoJSON (rt:=refRuntime) CryptoSeriesResponse.zero
        cryptoMetaDataPayload = Ok cryptoMetaDataDecoded)
  /\ ((CryptoSeriesResponse.IntervalLabel cryptoMetaDataDecoded
         ∈ keys cryptoMetaDataRaw
       /\ String.prefix "Time Series"
            (CryptoSeriesResponse.IntervalLabel cryptoMetaDataDecoded) = true)
      \/ ((forall k, k ∈ keys cryptoMetaDataRaw ->
                     String.prefix "Time Series" k = false)
          /\ CryptoSeriesResponse.IntervalLabel cryptoMetaDataDecoded
             = CryptoSeriesResponse.IntervalLabel CryptoSeriesResponse.zero))
  /\ forall tsKey,
       tsKey ∈ keys cryptoMetaDataRaw ->
       (forall k, k ∈ keys cryptoMetaDataRaw ->
                  String.prefix "Time Series" k = true -> k = tsKey) ->
       String.prefix "Time Series" tsKey = true ->
       CryptoSeriesResponse.IntervalLabel cryptoMetaDataDecoded = tsKey.
Proof.
  assert (H1 : json.UnmarshalMap cryptoMetaDataPayload = Ok cryptoMetaDataRaw)
    by (vm_compute; reflexivity).
  assert (H2 : UnmarshalCryptoJSON (rt:=refRuntime) CryptoSeriesResponse.zero
                 cryptoMetaDataPayload = Ok cryptoMetaDataDecoded)
    by (vm_compute; reflexivity).
  split; [exact (conj refRuntime_laws (conj H1 H2))|].
  exact (crypto_interval_label_is_series_key refRuntime refRuntime_laws
           _ _ _ _ H1 H2).
Defined.

Lemma malformed_entry_fails_decode_witness :
  (RuntimeLaws refRuntime
   /\ json.UnmarshalMap intradayBadHourPayload
      = Ok [("Time Series (5min)", amap [("2023-09-08 25:00:00", amap [])])]
   /\ String.prefix "Time Series" "Time Series (5min)" = true
   /\ isOk (time.Parse "2006-01-02 15:04:05" "2023-09-08 25:00:00") = false)
  /\ isOk (TimeSeriesIntraday_UnmarshalJSON (rt:=refRuntime) TimeSeries.zero
             intradayBadHourPayload) = false.
Proof.
  assert (H1 : json.UnmarshalMap intradayBadHourPayload
               = Ok [("Time Series (5min)",
                      amap [("2023-09-08 25:00:00", amap [])])])
    by reflexivity.
  assert (H2 : ("Time Series (5min)", amap [("2023-09-08 25:00:00", amap [])])
               ∈ [("Time Series (5min)",
                   amap [("2023-09-08 25:00:00", amap [])])]) by left.
  assert (H3 : ("2023-09-08 25:00:00", amap [])
               ∈ [("2023-09-08 25:00:00", amap [])]) by left.
  assert (H4 : isOk (time.Parse "2006-01-02 15:04:05" "2023-09-08 25:00:00")
               = false) by reflexivity.
  split; [exact (conj refRuntime_laws (conj H1 (conj eq_refl H4)))|].
  exact (proj1 (malformed_entry_fails_decode refRuntime refRuntime_laws)
           TimeSeries.zero _ _ _ _ H1 H2 eq_refl
           (or_intror (ex_intro _ _ (ex_intro _ _ (ex_intro _ _
              (conj eq_refl (conj H3 (or_introl H4)))))))).
Defined.

Lemma intraday_metadata_from_payload_witness :
  (RuntimeLaws refRuntime
   /\ json.UnmarshalMap intradayPayload = Ok intradayRaw
   /\ TimeSeriesIntraday_UnmarshalJSON (rt:=refRuntime) TimeSeries.zero
        intradayPayload = Ok intradayDecoded)
  /\ match index intradayRaw "Meta Data" with
     | amap metaData =>
         TimeSeries.MetaData intradayDecoded
         = intradayMetaDataFrom metaData
             (TimeSeries.MetaData (TimeSeries.zero (T:=OHLCV.t)))
         /\ forall key, key ∈ intradayMetaDataKeys ->
                        isString (index metaData key) = true
     | _ => TimeSeries.MetaData intradayDecoded
            = TimeSeries.MetaData (TimeSeries.zero (T:=OHLCV.t))
     end.
Proof.
  assert (H1 : json.UnmarshalMap intradayPayload = Ok intradayRaw)
    by (vm_compute; reflexivity).
  assert (H2 : TimeSeriesIntraday_UnmarshalJSON (rt:=refRuntime)
                 TimeSeries.zero intradayPayload = Ok intradayDecoded)
    by (vm_compute; reflexivity).
  split; [exact (conj refRuntime_laws (conj H1 H2))|].
  exact (intraday_metadata_from_payload refRuntime refRuntime_laws
           _ _ _ _ H1 H2).
Defined.

Lemma indicator_metadata_from_payload_witness :
  (RuntimeLaws refRuntime
   /\ json.UnmarshalMap smaPayload = Ok smaRaw
   /\ UnmarshalIndicatorJSON (rt:=refRuntime) IndicatorResponse.zero
        smaPayload "SMA" = Ok smaDecoded)
  /\ match index smaRaw "Meta Data" with
     | amap metaData =>
         IndicatorResponse.MetaData smaDecoded = indicatorMetaDataFrom metaData
     | _ => IndicatorResponse.MetaData smaDecoded
            = IndicatorResponse.MetaData IndicatorResponse.zero
     end.
Proof.
  assert (H1 : json.UnmarshalMap smaPayload = Ok smaRaw)
    by (vm_compute; reflexivity).
  assert (H2 : UnmarshalIndicatorJSON (rt:=refRuntime) IndicatorResponse.zero
                 smaPayload "SMA" = Ok smaDecoded)
    by (vm_compute; reflexivity).
  split; [exact (conj refRuntime_laws (conj H1 H2))|].
  exact (indicator_metadata_from_payload refRuntime refRuntime_laws
           _ _ _ _ _ H1 H2).
Defined.

Lemma crypto_metadata_from_payload_witness :
  (RuntimeLaws refRuntime
   /\ json.UnmarshalMap cryptoMetaDataPayload = Ok cryptoMetaDataRaw
   /\ UnmarshalCryptoJSON (rt:=refRuntime) CryptoSeriesResponse.zero
        cryptoMetaDataPayload = Ok cryptoMetaDataDecoded)
  /\ match index cryptoMetaDataRaw "Meta Data" with
     | amap metaData =>
         CryptoSeriesResponse.MetaData cryptoMetaDataDecoded
         = cryptoMetaDataFrom metaData
     | _ => CryptoSeriesResponse.MetaData cryptoMetaDataDecoded
            = CryptoSeriesResponse.MetaData CryptoSeriesResponse.zero
     end.
Proof.
  assert (H1 : json.UnmarshalMap cryptoMetaDataPayload = Ok cryptoMetaDataRaw)
    by (vm_compute; reflexivity).
  assert (H2 : UnmarshalCryptoJSON (rt:=refRuntime) CryptoSeriesResponse.zero
                 cryptoMetaDataPayload = Ok cryptoMetaDataDecoded)
    by (vm_compute; reflexivity).
  split; [exact (conj refRuntime_laws (conj H1 H2))|].
  exact (crypto_metadata_from_payload refRuntime refRuntime_laws
           _ _ _ _ H1 H2).
Defined.

Lemma weeklyAdjusted_keys (k : string) :
  k ∈ keys weeklyAdjustedMembers ->
  json.equalFold "Weekly Time Series" k = false.
Proof.
  intros Hk. repeat (apply elem_of_cons in Hk as [->|Hk]); [done..|].
  by apply elem_of_nil in Hk.
Qed.

Lemma GetWeeklyAdjusted_returns_no_bars_witness :
  (RuntimeLaws refRuntime
   /\ (forall k, k ∈ keys weeklyAdjustedMembers ->
                 json.equalFold "Weekly Time Series" k = false)
   /\ GetWeeklyAdjusted (rt:=refRuntime) (Ok weeklyAdjustedPayload)
      = Ok weeklyAdjustedReturned)
  /\ TimeSeries.TimeSeries weeklyAdjustedReturned = []
  /\ TimeSeriesWeekly_Length weeklyAdjustedReturned = 0.
Proof.
  assert (Hd : GetWeeklyAdjusted (rt:=refRuntime) (Ok weeklyAdjustedPayload)
               = Ok weeklyAdjustedReturned) by (vm_compute; reflexivity).
  split; [exact (conj refRuntime_laws (conj weeklyAdjusted_keys Hd))|].
  exact (GetWeeklyAdjusted_returns_no_bars refRuntime refRuntime_laws
           weeklyAdjustedMembers _ weeklyAdjusted_keys Hd).
Defined.

Lemma note_keys (k : string) :
  k ∈ keys [("Note", JString "Thank you for using Alpha Vantage!")] ->
  json.equalFold "Realtime Currency Exchange Rate" k = false.
Proof. by intros ->%list_elem_of_singleton. Qed.

Lemma GetCurrencyExchangeRate_keeps_texts_witness :
  (forall k, k ∈ keys [("Note", JString "Thank you for using Alpha Vantage!")] ->
             json.equalFold "Realtime Currency Exchange Rate" k = false)
  /\ GetCurrencyExchangeRate (Ok notePayload)
     = Ok CurrencyExchangeRateResponse.zero.
Proof.
  split; [exact note_keys|].
  exact (proj1 (proj2 GetCurrencyExchangeRate_keeps_texts) _ note_keys).
Defined.

Lemma series_bars_are_distinct_days_witness :
  (RuntimeLaws refRuntime
   /\ TimeSeriesDaily_UnmarshalJSON (rt:=refRuntime) TimeSeries.zero
        dailyPayloadTwo = Ok dailyTwoDecoded)
  /\ (forall bar, bar ∈ TimeSeries.TimeSeries dailyTwoDecoded ->
        exists y m day,
          validDate y m day /\ 0 <= y <= 9999
          /\ OHLCV.Timestamp bar = time.Date y m day 0 0 0 0)
  /\ forall (i : nat) (a b : OHLCV.t),
       TimeSeries.TimeSeries dailyTwoDecoded !! i = Some a ->
       TimeSeries.TimeSeries dailyTwoDecoded !! S i = Some b ->
       OHLCV.Timestamp a < OHLCV.Timestamp b.
Proof.
  assert (Hd : TimeSeriesDaily_UnmarshalJSON (rt:=refRuntime) TimeSeries.zero
                 dailyPayloadTwo = Ok dailyTwoDecoded)
    by (vm_compute; reflexivity).
  split; [exact (conj refRuntime_laws Hd)|].
  exact (series_bars_are_distinct_days refRuntime refRuntime_laws _ _ _ _ _ _
           Hd).
Defined.

(** ** The values of the indicator entries *)

Section IndicatorValues.
Context {rt : Runtime} {laws : RuntimeLaws rt}.

(** The innermost loop stores, under the name of every string-valued
    sub-field, the number parsed from its text, and leaves the other names
    as they were. *)
Lemma indicatorValue_values (l : list (string * any))
    (acc vm : gmap string float64) :
  NoDup (keys l) ->
  forRange indicatorValue l acc = Ok vm ->
  forall name f,
    vm !! name = Some f
    <-> (exists s, (name, astring s) ∈ l /\ strconv.ParseFloat s = (f, None))
        \/ ((forall s, (name, astring s) ∉ l) /\ acc !! name = Some f).
Proof.
  revert acc. induction l as [|[k x] l IH]; simpl; intros acc.
  - intros _ [= <-] name f. split.
    + intros Hf. right. split; [|done]. intros s. apply not_elem_of_nil.
    + intros [(s & Hin & _)|[_ Hf]]; [by apply elem_of_nil in Hin|done].
  - intros [Hk Hnd]%NoDup_cons (acc1 & H1 & H2)%bind_Ok name f.
    rewrite (IH _ Hnd H2 name f). clear IH H2.
    assert (Hnotin : forall s, (k, astring s) ∉ l).
    { intros s Hin. apply Hk. by apply (list_elem_of_fmap_2 fst _ (k, astring s)). }
    unfold indicatorValue in H1.
    destruct x as [| | |s0| |];
      try (injection H1 as <-; split;
           [intros [(s & Hin & Hp)|[Hno Hacc]];
              [left; exists s; split; [by right|done]
              |right; split; [|done]; intros s [[=]|Hin]%elem_of_cons;
               by apply (Hno s)]
           |intros [(s & [[=]|Hin]%elem_of_cons & Hp)|[Hno Hacc]];
              [left; by exists s
              |right; split; [|done]; intros s Hin; apply (Hno s); by right]]).
    destruct (strconv.ParseFloat s0) as [fv [e|]] eqn:Ef; [done|].
    injection H1 as <-. destruct (decide (name = k)) as [->|Hne].
    + rewrite lookup_insert_eq. split.
      * intros [(s & Hin & _)|[_ [= <-]]]; [by apply Hnotin in Hin|].
        left. exists s0. split; [left|done].
      * intros [(s & [[= <-]|Hin]%elem_of_cons & Hp)|[Hno _]].
        -- right. split; [done|]. congruence.
        -- by apply Hnotin in Hin.
        -- exfalso. apply (Hno s0). left.
    + rewrite lookup_insert_ne by done. split.
      * intros [(s & Hin & Hp)|[Hno Hacc]].
        -- left. exists s. split; [by right|done].
        -- right. split; [|done].
           intros s [[= ? ?]|Hin]%elem_of_cons; [done|by apply (Hno s)].
      * intros [(s & [[= ? ?]|Hin]%elem_of_cons & Hp)|[Hno Hacc]]; [done|..].
        -- left. by exists s.
        -- right. split; [|done]. intros s Hin. apply (Hno s). by right.
Qed.

Lemma indicatorEntry_values (l : list (string * any))
    (i i1 : IndicatorResponse.t) :
  Forall (fun kv => uniqueKeys kv.2) l ->
  forRange indicatorEntry l i = Ok i1 ->
  exists new,
    IndicatorResponse.IndicatorValues i1
    = (IndicatorResponse.IndicatorValues i ++ new)%list
    /\ Forall2 indicatorValueOf l new.
Proof.
  intros Hwf. revert i.
  induction Hwf as [|[k x] l Hx _ IH]; simpl; intros i.
  - intros [= <-]. exists []. by rewrite app_nil_r.
  - intros (i0 & H1 & H2)%bind_Ok. unfold indicatorEntry in H1.
    apply bind_Ok in H1 as (ts & Hts & H1).
    destruct x as [| | | | |indicatorData]; try discriminate.
    apply bind_Ok in H1 as (vm & Hvm & [= <-]).
    apply IH in H2 as (new & Hnew & Hall). simpl in *.
    exists (IndicatorValue.mk ts vm :: new).
    rewrite Hnew, <- app_assoc. split; [done|].
    constructor; [|done]. exists indicatorData. simpl.
    split; [done|]. split; [done|]. intros name f.
    apply uniqueKeys_amap in Hx as [Hnd _].
    assert (Hnd' : NoDup (keys (mapiter indicatorData)))
      by (unfold keys; by rewrite (mapiter_perm _ indicatorData)).
    rewrite (indicatorValue_values _ _ _ Hnd' Hvm name f), lookup_empty.
    split.
    + intros [(s & Hin & Hp)|[_ [=]]]. exists s.
      by rewrite <- (mapiter_perm _ indicatorData).
    + intros (s & Hin & Hp). left. exists s.
      by rewrite (mapiter_perm _ indicatorData).
Qed.

End IndicatorValues.

(** X20.  In a successful indicator decode the sequence is what the receiver
    held and one entry for every timestamp of the value block, and the
    [Values] of an entry are the parsed texts of that timestamp's object: a
    name is stored with a number exactly when the object holds a text under
    that name, and the number is the one [strconv.ParseFloat] reads from
    the text, without error. *)
Theorem indicator_values_are_parsed_texts (rt : Runtime)
    (laws : RuntimeLaws rt) (i i' : IndicatorResponse.t) (d : data)
    (indicatorName : string) (raw tsData : list (string * any)) :
  json.UnmarshalMap d = Ok raw ->
  index raw (String.append "Technical Analysis: " indicatorName)
  = amap tsData ->
  UnmarshalIndicatorJSON i d indicatorName = Ok i' ->
  exists new,
    IndicatorResponse.IndicatorValues i'
    ≡ₚ (IndicatorResponse.IndicatorValues i ++ new)%list
    /\ Forall2 indicatorValueOf (mapiter tsData) new.
Proof.
  intros Hraw Hts (i1 & Happ & _ & ->)%indicator_result.
  unfold indicatorAppend in Happ. rewrite Hraw in Happ. simpl in Happ.
  apply bind_Ok in Happ as (i0 & Hmd & Hloop).
  assert (Hi0 : IndicatorResponse.IndicatorValues i0
                = IndicatorResponse.IndicatorValues i).
  { destruct (index raw "Meta Data"); try (by injection Hmd as <-).
    by apply bind_Ok in Hmd as (m0 & _ & [= <-]). }
  rewrite Hts in Hloop.
  apply indicatorEntry_values in Hloop as (new & Hnew & Hall).
  - exists new. split; [|done].
    rewrite SliceStable_perm, Hnew, Hi0. done.
  - apply UnmarshalMap_uniqueKeys in Hraw.
    apply (uniqueKeys_index _ (String.append "Technical Analysis: "
                                 indicatorName)) in Hraw.
    rewrite Hts in Hraw. apply uniqueKeys_amap in Hraw as [_ Hall].
    apply Forall_forall. intros kv Hkv. rewrite Forall_forall in Hall.
    apply Hall. by rewrite <- (mapiter_perm _ tsData).
Qed.

Lemma indicator_values_are_parsed_texts_witness :
  (RuntimeLaws refRuntime
   /\ json.UnmarshalMap smaPayload = Ok smaRaw
   /\ index smaRaw (String.append "Technical Analysis: " "SMA") = amap smaBlock
   /\ UnmarshalIndicatorJSON (rt:=refRuntime) IndicatorResponse.zero
        smaPayload "SMA" = Ok smaDecoded)
  /\ exists new,
       IndicatorResponse.IndicatorValues smaDecoded
       ≡ₚ (IndicatorResponse.IndicatorValues IndicatorResponse.zero ++ new)%list
       /\ Forall2 indicatorValueOf (@mapiter refRuntime _ smaBlock) new.
Proof.
  assert (H1 : json.UnmarshalMap smaPayload = Ok smaRaw)
    by (vm_compute; reflexivity).
  assert (H2 : index smaRaw (String.append "Technical Analysis: " "SMA")
               = amap smaBlock) by reflexivity.
  assert (H3 : UnmarshalIndicatorJSON (rt:=refRuntime) IndicatorResponse.zero
                 smaPayload "SMA" = Ok smaDecoded)
    by (vm_compute; reflexivity).
  split; [exact (conj refRuntime_laws (conj H1 (conj H2 H3)))|].
  exact (indicator_values_are_parsed_texts refRuntime refRuntime_laws
           _ _ _ _ _ _ H1 H2 H3).
Defined.

(** * The quote decoder, from payload to error (C7) *)

Section QuotePayload.
Context {rt : Runtime}.

(** A Global Quote object whose members are strings or [null] is stored
    as it stands, [null] as the empty text. *)
Lemma quoteStored_loop (fields : list (string * JSON))
    (m : list (string * string)) :
  forallb (fun kv => isStringOrNull kv.2) fields = true ->
  json.map_ json.string_ "" (JObject fields) m
  = Ok (fold_left (fun m kv => mapset m kv.1 (textOf kv.2)) fields m).
Proof.
  simpl. revert m. induction fields as [|[k v] fields IH]; intros m; [done|].
  simpl. intros [Hv Hall]%andb_true_iff.
  destruct v; try discriminate; simpl; by apply IH.
Qed.

Lemma unmarshalQuoteAux_stored (fields : list (string * JSON)) :
  forallb (fun kv => isStringOrNull kv.2) fields = true ->
  unmarshalQuoteAux (quoteGlobalPayload fields) = Ok (Some (quoteStored fields)).
Proof.
  intros Hall.
  unfold unmarshalQuoteAux, quoteGlobalPayload, json.struct. cbn [forRange].
  unfold quoteAuxField at 1.
  change (json.equalFold "Global Quote" "Global Quote") with true.
  cbv iota. by rewrite quoteStored_loop.
Qed.

(** A member that is neither a string nor [null] makes an object unfit for
    a [map[string]string]. *)
Lemma map_string_rejects (fields : list (string * JSON)) (f : string)
    (v : JSON) (m : list (string * string)) :
  (f, v) ∈ fields -> isStringOrNull v = false ->
  isOk (json.map_ json.string_ "" (JObject fields) m) = false.
Proof.
  intros Hin Hv. simpl. eapply forRange_not_Ok; [exact Hin|].
  intros s. by destruct v.
Qed.

Lemma unmarshalQuoteAux_rejects (members fields : list (string * JSON))
    (k0 f : string) (v : JSON) :
  (k0, JObject fields) ∈ members ->
  json.equalFold "Global Quote" k0 = true ->
  (f, v) ∈ fields -> isStringOrNull v = false ->
  unmarshalQuoteAux (Document (JObject members)) = Err UnmarshalError.
Proof.
  intros Hin Hk Hf Hv.
  assert (Hno : isOk (unmarshalQuoteAux (Document (JObject members))) = false).
  { unfold unmarshalQuoteAux, json.struct.
    assert (Hloop : isOk (forRange quoteAuxField members []) = false).
    { eapply forRange_not_Ok; [exact Hin|]. intros s.
      unfold quoteAuxField. rewrite Hk. by eapply map_string_rejects. }
    destruct (forRange quoteAuxField members []); done. }
  destruct (not_Ok_cases _ Hno (unmarshalQuoteAux_noPanic _)) as [e He].
  rewrite He. f_equal. by eapply unmarshalQuoteAux_Err.
Qed.

(** The statements after [json.Unmarshal]: the first malformed field is
    the one whose error is returned. *)
Lemma quoteFields_first_malformed (RawQuote : list (string * string)) :
  match List.find (quoteMalformed RawQuote) quoteParsedFields with
  | Some f =>
      exists cause,
        quoteFields RawQuote
        = Err (Errorf (String.append "error parsing '"
                         (String.append (quoteName f) "': ")) cause)
  | None =>
      exists q',
        quoteFields RawQuote = Ok q'
        /\ Quote.Symbol q' = indexString RawQuote "01. symbol"
        /\ Quote.ChangePercent q' = indexString RawQuote "10. change percent"
  end.
Proof.
  unfold quoteFields, quoteMalformed. simpl.
  destruct (strconv.ParseFloat (indexString RawQuote "02. open"))
    as [? [?|]]; simpl; [by eexists|].
  destruct (strconv.ParseFloat (indexString RawQuote "03. high"))
    as [? [?|]]; simpl; [by eexists|].
  destruct (strconv.ParseFloat (indexString RawQuote "04. low"))
    as [? [?|]]; simpl; [by eexists|].
  destruct (strconv.ParseFloat (indexString RawQuote "05. price"))
    as [? [?|]]; simpl; [by eexists|].
  destruct (strconv.ParseInt (indexString RawQuote "06. volume"))
    as [? [?|]]; simpl; [by eexists|].
  pose proof (Parse_noPanic "2006-01-02"
                (indexString RawQuote "07. latest trading day")) as Hnp.
  destruct (time.Parse "2006-01-02"
              (indexString RawQuote "07. latest trading day"))
    as [?|?|?]; simpl; [|by eexists|done].
  destruct (strconv.ParseFloat (indexString RawQuote "08. previous close"))
    as [? [?|]]; simpl; [by eexists|].
  destruct (strconv.ParseFloat (indexString RawQuote "09. change"))
    as [? [?|]]; simpl; [by eexists|].
  eexists. split; [done|]. by split.
Qed.

End QuotePayload.

(** A Global Quote payload whose open price is the text [abc] and whose
    price is the number 334: [json.Unmarshal] fails on the number, and the
    decoder returns its error, which names none of the eight fields, the
    malformed open price included. *)
Lemma quote_json_error_names_no_field :
  snd (strconv.ParseFloat "abc") <> None
  /\ Quote_UnmarshalJSON (rt:=refRuntime) Quote.zero quoteNumberPricePayload
     = Err UnmarshalError
  /\ forall (f : quoteField) (cause : error),
       Quote_UnmarshalJSON (rt:=refRuntime) Quote.zero quoteNumberPricePayload
       <> Err (Errorf (String.append "error parsing '"
                         (String.append (quoteName f) "': ")) cause).
Proof.
  assert (Hq : Quote_UnmarshalJSON (rt:=refRuntime) Quote.zero
                 quoteNumberPricePayload = Err UnmarshalError)
    by (vm_compute; reflexivity).
  split; [by vm_compute|]. split; [exact Hq|].
  intros f cause. rewrite Hq. discriminate.
Qed.

(** C7, as the code has it.  The quote decoder first hands the payload to
    [json.Unmarshal] and returns its error as it is.  Where
    [json.Unmarshal] fills the helper struct, the decoder parses eight
    fields in a fixed order: if one of them is malformed, it returns an
    error whose message starts with [error parsing '<name>': ] for the name
    of the first malformed field, followed by the cause, and if none is
    malformed the decode succeeds and the two literal fields, symbol and
    change-percent, hold the text of the payload unparsed.  This is so of
    every payload whose one member is a Global Quote object of strings and
    [null]s, a [null] and an absent member being read as the empty text.
    A payload whose Global Quote object has a member that is neither a
    string nor [null] is rejected with the error of [json.Unmarshal], which
    names no field, whatever the text of the other members. *)
Theorem quote_error_names_field (rt : Runtime) (q : Quote.t) :
  (forall (d : data) (RawQuote : list (string * string)),
      unmarshalQuoteAux d = Ok (Some RawQuote) ->
      match List.find (quoteMalformed RawQuote) quoteParsedFields with
      | Some f =>
          exists cause,
            Quote_UnmarshalJSON q d
            = Err (Errorf (String.append "error parsing '"
                             (String.append (quoteName f) "': ")) cause)
      | None =>
          exists q',
            Quote_UnmarshalJSON q d = Ok q'
            /\ Quote.Symbol q' = indexString RawQuote "01. symbol"
            /\ Quote.ChangePercent q'
               = indexString RawQuote "10. change percent"
      end)
  /\ (forall fields : list (string * JSON),
        forallb (fun kv => isStringOrNull kv.2) fields = true ->
        match List.find (quoteMalformed (quoteStored fields))
                quoteParsedFields with
        | Some f =>
            exists cause,
              Quote_UnmarshalJSON q (quoteGlobalPayload fields)
              = Err (Errorf (String.append "error parsing '"
                               (String.append (quoteName f) "': ")) cause)
        | None =>
            exists q',
              Quote_UnmarshalJSON q (quoteGlobalPayload fields) = Ok q'
              /\ Quote.Symbol q'
                 = indexString (quoteStored fields) "01. symbol"
              /\ Quote.ChangePercent q'
                 = indexString (quoteStored fields) "10. change percent"
        end)
  /\ (forall (members fields : list (string * JSON)) (k0 f : string)
        (v : JSON),
        (k0, JObject fields) ∈ members ->
        json.equalFold "Global Quote" k0 = true ->
        (f, v) ∈ fields -> isStringOrNull v = false ->
        Quote_UnmarshalJSON q (Document (JObject members))
        = Err UnmarshalError).
Proof.
  assert (Hfill : forall d RawQuote,
            unmarshalQuoteAux d = Ok (Some RawQuote) ->
            Quote_UnmarshalJSON q d = quoteFields RawQuote)
    by (intros d RawQuote Haux; unfold Quote_UnmarshalJSON; by rewrite Haux).
  split; [|split].
  - intros d RawQuote Haux. rewrite (Hfill _ _ Haux).
    apply quoteFields_first_malformed.
  - intros fields Hall.
    rewrite (Hfill _ _ (unmarshalQuoteAux_stored fields Hall)).
    apply quoteFields_first_malformed.
  - intros members fields k0 f v Hin Hk Hf Hv. unfold Quote_UnmarshalJSON.
    by rewrite (unmarshalQuoteAux_rejects _ _ _ _ _ Hin Hk Hf Hv).
Qed.

(** The theorem at a payload of ten strings whose price is no number, and
    at the payload whose price is a JSON number. *)
Lemma quote_error_names_field_witness :
  unmarshalQuoteAux (rt:=refRuntime) (quotePayload "N/A")
  = Ok (Some (quoteRaw "N/A"))
  /\ (exists cause,
        Quote_UnmarshalJSON (rt:=refRuntime) Quote.zero (quotePayload "N/A")
        = Err (Errorf "error parsing 'price': " cause))
  /\ forallb (fun kv => isStringOrNull kv.2) (quoteMembers "N/A") = true
  /\ (exists cause,
        Quote_UnmarshalJSON (rt:=refRuntime) Quote.zero
          (quoteGlobalPayload (quoteMembers "N/A"))
        = Err (Errorf "error parsing 'price': " cause))
  /\ ("Global Quote", JObject quoteNumberPriceMembers)
     ∈ [("Global Quote", JObject quoteNumberPriceMembers)]
  /\ json.equalFold "Global Quote" "Global Quote" = true
  /\ ("05. price", JNumber (Finite 334)) ∈ quoteNumberPriceMembers
  /\ isStringOrNull (JNumber (Finite 334)) = false
  /\ Quote_UnmarshalJSON (rt:=refRuntime) Quote.zero quoteNumberPricePayload
     = Err UnmarshalError.
Proof.
  assert (Haux : unmarshalQuoteAux (rt:=refRuntime) (quotePayload "N/A")
                 = Ok (Some (quoteRaw "N/A")))
    by (vm_compute; reflexivity).
  assert (Hin : ("Global Quote", JObject quoteNumberPriceMembers)
                ∈ [("Global Quote", JObject quoteNumberPriceMembers)])
    by apply list_elem_of_here.
  assert (Hf : ("05. price", JNumber (Finite 334)) ∈ quoteNumberPriceMembers)
    by (do 2 apply list_elem_of_further; apply list_elem_of_here).
  split; [exact Haux|].
  split;
    [exact (proj1 (quote_error_names_field refRuntime Quote.zero) _ _ Haux)|].
  split; [reflexivity|].
  split;
    [exact (proj1 (proj2 (quote_error_names_field refRuntime Quote.zero))
              (quoteMembers "N/A") eq_refl)|].
  split; [exact Hin|]. split; [reflexivity|]. split; [exact Hf|].
  split; [reflexivity|].
  exact (proj2 (proj2 (quote_error_names_field refRuntime Quote.zero))
           _ _ _ _ _ Hin eq_refl Hf eq_refl).
Defined.

(** * The order of equal timestamps at a concrete input (C5) *)

(** Two keys of an intraday payload that are read as one time: the bars
    of the two keep, after the sort, the order in which the loop appended
    them, whichever of the two the runtime visits first. *)
Lemma final_sort_stable_witness :
  RuntimeLaws refRuntime /\ RuntimeLaws reverseRuntime
  /\ OHLCV.Timestamp tieBar1 = OHLCV.Timestamp tieBar2
  /\ tieBar1 <> tieBar2
  /\ intradayAppend (rt:=refRuntime) TimeSeries.zero intradayTiePayload
     = Ok (TimeSeries.mk TimeSeriesMetaData.zero [tieBar1; tieBar2])
  /\ TimeSeriesIntraday_UnmarshalJSON (rt:=refRuntime) TimeSeries.zero
       intradayTiePayload
     = Ok (TimeSeries.mk TimeSeriesMetaData.zero [tieBar1; tieBar2])
  /\ (exists t1,
        intradayAppend (rt:=refRuntime) TimeSeries.zero intradayTiePayload
        = Ok t1
        /\ forall ts : time.Time,
             filter (fun o => OHLCV.Timestamp o = ts) [tieBar1; tieBar2]
             = filter (fun o => OHLCV.Timestamp o = ts)
                 (TimeSeries.TimeSeries t1))
  /\ intradayAppend (rt:=reverseRuntime) TimeSeries.zero intradayTiePayload
     = Ok (TimeSeries.mk TimeSeriesMetaData.zero [tieBar2; tieBar1])
  /\ TimeSeriesIntraday_UnmarshalJSON (rt:=reverseRuntime) TimeSeries.zero
       intradayTiePayload
     = Ok (TimeSeries.mk TimeSeriesMetaData.zero [tieBar2; tieBar1])
  /\ (exists t1,
        intradayAppend (rt:=reverseRuntime) TimeSeries.zero intradayTiePayload
        = Ok t1
        /\ forall ts : time.Time,
             filter (fun o => OHLCV.Timestamp o = ts) [tieBar2; tieBar1]
             = filter (fun o => OHLCV.Timestamp o = ts)
                 (TimeSeries.TimeSeries t1)).
Proof.
  assert (Hd : TimeSeriesIntraday_UnmarshalJSON (rt:=refRuntime)
                 TimeSeries.zero intradayTiePayload
               = Ok (TimeSeries.mk TimeSeriesMetaData.zero [tieBar1; tieBar2]))
    by (vm_compute; reflexivity).
  assert (Hr : TimeSeriesIntraday_UnmarshalJSON (rt:=reverseRuntime)
                 TimeSeries.zero intradayTiePayload
               = Ok (TimeSeries.mk TimeSeriesMetaData.zero [tieBar2; tieBar1]))
    by (vm_compute; reflexivity).
  split; [exact refRuntime_laws|]. split; [exact reverseRuntime_laws|].
  split; [reflexivity|]. split; [discriminate|].
  split; [vm_compute; reflexivity|]. split; [exact Hd|].
  split;
    [exact (proj1 (final_sort_stable refRuntime refRuntime_laws) _ _ _ Hd)|].
  split; [vm_compute; reflexivity|]. split; [exact Hr|].
  exact (proj1 (final_sort_stable reverseRuntime reverseRuntime_laws)
           _ _ _ Hr).
Defined.

